(** * SmartEdu: the timed test-session protocol

    A shallow embedding of
      - [src/utils/testTimer.ts]       (module [Utils]),
      - [src/components/testTimer.ts]  (module [Components]),
      - [src/components/TestTaking.tsx] (module [TestTaking]),
    a model of the remote data service they call (module [Backend], and
    module [Tables] for its other tables) and of the page on the event
    loop (module [Driver]), together with the properties of the session
    resolver, the time authority, the countdown driver and the submission
    finaliser, and of the other functions of these files: the session
    look-ups and lists, the statistics, the time displays, the access
    check and the initialisation of the page.

    Conventions.
      - A timestamp is the number of milliseconds since the epoch, i.e. the
        value [new Date(s).getTime()] of the ISO string [s] the row holds;
        [Date.now()] is read from the environment.
      - [duration_minutes] and all scores are whole numbers; on whole
        numbers of this size the double-precision operations of the
        source are exact.
      - Every request to the backend client resolves to a [{data, error}]
        pair; [console.*] calls are left out.
      - An [async] function is a program [Prog]: a tree whose nodes are the
        calls it makes to its environment (backend requests, timers, the
        clock, React state setters) and whose branches are the answers. *)

From Stdlib Require Import ZArith Lia Bool Ascii.
From Stdlib Require QArith Qround.
From stdpp Require Import base tactics option list strings pretty relations gmap sorting.

Local Open Scope string_scope.
Local Open Scope list_scope.
Local Open Scope Z_scope.

(* ===================================================================== *)
(** ** Data model *)
(* ===================================================================== *)

(** [interface TestSession] (both testTimer.ts files declare the same
    fields). *)
Record TestSession : Type := mkTestSession {
  id : string;
  assessment_id : string;
  student_id : string;
  started_at : Z;
  submitted_at : option Z;
  duration_minutes : Z;
  is_completed : bool;
  created_at : Z
}.

(** [Math.floor(x / d)] and [Math.ceil(x / d)] for whole [x] and [d > 0]. *)
Definition Math_floor_div (x d : Z) : Z := x / d.
Definition Math_ceil_div (x d : Z) : Z := - ((- x) / d).

(* ===================================================================== *)
(** ** JavaScript values the protocol handles *)
(* ===================================================================== *)

(** A thrown or returned error: a PostgREST error object ([code],
    [details], [message]) or a plain [new Error(message)], which has
    neither [code] nor [details]. *)
Record JsError : Type := mkJsError {
  code : option string;
  details : option string;
  message : string
}.

Definition new_Error (msg : string) : JsError := mkJsError None None msg.

(** The [{ data, error }] pair every query resolves to. *)
Record PgResponse (A : Type) : Type := mkPgResponse {
  data : option A;
  error : option JsError
}.
Arguments mkPgResponse {A} _ _.
Arguments data {A} _.
Arguments error {A} _.

Record AuthUser : Type := mkAuthUser { user_id : string }.

(** [{ data: { user }, error }] of [supabase.auth.getUser()]. *)
Record AuthResponse : Type := mkAuthResponse {
  user : option AuthUser;
  authError : option JsError
}.

(** [s.includes(sub)]. *)
Fixpoint String_includes (sub s : string) : bool :=
  if String.prefix sub s then true
  else match s with
       | EmptyString => false
       | String _ rest => String_includes sub rest
       end.

(** [.eq(column, value)] on the [test_sessions] table. *)
Inductive Cond : Type :=
| EqAssessmentId (v : string)
| EqStudentId (v : string)
| EqIsCompleted (v : bool)
| EqId (v : string).

(** How a select is closed: [.maybeSingle()] or [.single()]. *)
Inductive Cardinality : Type := MaybeSingle | Single.

(** The object passed to [.insert] on [test_sessions]. *)
Record NewSession : Type := mkNewSession {
  new_assessment_id : string;
  new_student_id : string;
  new_started_at : Z;
  new_duration_minutes : Z;
  new_is_completed : bool
}.

(** The object passed to [.update] on [test_sessions]. *)
Record SessionPatch : Type := mkSessionPatch {
  patch_submitted_at : Z;
  patch_is_completed : bool
}.

(** [Question] as far as the test-taking page reads it. *)
Record Question : Type := mkQuestion {
  question_id : string;
  marks : Z
}.

(** The object passed to [.insert] on [submissions]. *)
Record NewSubmission : Type := mkNewSubmission {
  sub_assessment_id : option string;
  sub_student_id : string;
  sub_test_session_id : string;
  sub_answers : gmap string string;
  sub_mcq_score : Z;
  sub_theory_score : option Z;
  sub_total_score : Z;
  sub_is_auto_submitted : bool;
  sub_submitted_at : Z
}.

Record Submission : Type := mkSubmission {
  submission_id : string;
  submission_fields : NewSubmission
}.

(** React state setters and browser calls of the test-taking page. *)
Inductive UiAction : Type :=
| SetSubmitting (b : bool)
| SetError (msg : string)
| SetIsTimeExpired (b : bool)
| SetTimeLeft (seconds : Z)
| ClearInterval
| Alert (msg : string)
| Navigate (path : string).

(* ===================================================================== *)
(** ** Programs: async functions as trees of environment calls *)
(* ===================================================================== *)

(** The calls a program makes; the index is the type of the answer. *)
Inductive Ev : Type -> Type :=
| AuthGetUser : Ev AuthResponse
| SelectSessions (conds : list Cond) (card : Cardinality) : Ev (PgResponse TestSession)
| InsertSession (row : NewSession) : Ev (PgResponse TestSession)
| UpdateSessions (patch : SessionPatch) (conds : list Cond) : Ev (PgResponse unit)
| InsertSubmission (row : NewSubmission) : Ev (PgResponse Submission)
| SetTimeout (ms : Z) : Ev unit
| DateNow : Ev Z
| Confirm (msg : string) : Ev bool
| Ui (a : UiAction) : Ev unit.

Inductive Prog (R : Type) : Type :=
| Ret (r : R)
| Throw (e : JsError)
| Vis {X : Type} (ev : Ev X) (k : X -> Prog R).
Arguments Ret {R} _.
Arguments Throw {R} _.
Arguments Vis {R X} _ _.

(** [await ev] *)
Definition call {X : Type} (ev : Ev X) : Prog X := Vis ev Ret.

Fixpoint bind {A B : Type} (p : Prog A) (f : A -> Prog B) : Prog B :=
  match p with
  | Ret a => f a
  | Throw e => Throw e
  | Vis ev k => Vis ev (fun x => bind (k x) f)
  end.

(** [try { p } catch (e) { h e }] *)
Fixpoint try_catch {A : Type} (p : Prog A) (h : JsError -> Prog A) : Prog A :=
  match p with
  | Ret a => Ret a
  | Throw e => h e
  | Vis ev k => Vis ev (fun x => try_catch (k x) h)
  end.

(** [try { p } finally { f }] *)
Fixpoint try_finally {A : Type} (p : Prog A) (f : Prog unit) : Prog A :=
  match p with
  | Ret a => bind f (fun _ => Ret a)
  | Throw e => bind f (fun _ => Throw e)
  | Vis ev k => Vis ev (fun x => try_finally (k x) f)
  end.

Declare Scope prog_scope.
Delimit Scope prog_scope with prog.
Bind Scope prog_scope with Prog.
Notation "x <- p ;; q" := (bind p (fun x => q))
  (at level 100, p at next level, right associativity) : prog_scope.
Notation "p ;; q" := (bind p (fun _ => q))
  (at level 100, right associativity) : prog_scope.
Local Open Scope prog_scope.

(** *** Programs over a wider set of calls

    [Prog] fixes the calls of the session protocol. Other functions of the
    same files query further tables, select several rows or set further
    state of the page; a [Script E] is a program over the calls [E]. *)
Inductive Script (E : Type -> Type) (R : Type) : Type :=
| Done (r : R)
| Raise (e : JsError)
| Ask {X : Type} (ev : E X) (k : X -> Script E R).
Arguments Done {E R} _.
Arguments Raise {E R} _.
Arguments Ask {E R X} _ _.

(** [await ev] *)
Definition ask {E : Type -> Type} {X : Type} (ev : E X) : Script E X :=
  Ask ev Done.

Fixpoint sbind {E : Type -> Type} {A B : Type} (p : Script E A)
    (f : A -> Script E B) : Script E B :=
  match p with
  | Done a => f a
  | Raise e => Raise e
  | Ask ev k => Ask ev (fun x => sbind (k x) f)
  end.

(** [try { p } catch (e) { h e }] *)
Fixpoint scatch {E : Type -> Type} {A : Type} (p : Script E A)
    (h : JsError -> Script E A) : Script E A :=
  match p with
  | Done a => Done a
  | Raise e => h e
  | Ask ev k => Ask ev (fun x => scatch (k x) h)
  end.

(** A program of the session protocol, called from a script. *)
Fixpoint lift {E : Type -> Type} {R : Type} (inj : forall X : Type, Ev X -> E X)
    (p : Prog R) : Script E R :=
  match p with
  | Ret r => Done r
  | Throw e => Raise e
  | Vis ev k => Ask (inj _ ev) (fun x => lift inj (k x))
  end.

Declare Scope script_scope.
Delimit Scope script_scope with script.
Notation "x <- p ;; q" := (sbind p (fun x => q))
  (at level 100, p at next level, right associativity) : script_scope.
Notation "p ;; q" := (sbind p (fun _ => q))
  (at level 100, right associativity) : script_scope.

(** The calls of the session protocol together with the look-up of an
    assessment,
    [.from('assessments').select('id').eq('id', assessmentId).maybeSingle()],
    and the select of several sessions,
    [.from('test_sessions').select('*').eq(..)
     .order('created_at', { ascending: false })]. *)
Inductive TableEv : Type -> Type :=
| Core {X : Type} (ev : Ev X) : TableEv X
| SelectAssessmentId (assessmentId : string) : TableEv (PgResponse string)
| SelectSessionsNewestFirst (conds : list Cond)
  : TableEv (PgResponse (list TestSession)).

(** How an iteration of a [for] loop ends. *)
Inductive LoopCtl : Type :=
| Continue (lastError : option JsError)
| Break (session : TestSession) (lastError : option JsError)
| ReturnFromFunction (session : TestSession).

(* ===================================================================== *)
(** ** src/utils/testTimer.ts *)
(* ===================================================================== *)

Module Utils.

(** The query
    [.from('test_sessions').select('*').eq('assessment_id', assessmentId)
     .eq('student_id', user.id).eq('is_completed', false).maybeSingle()],
    which the function issues at three places. *)
Definition activeSessionQuery (assessmentId uid : string)
  : Ev (PgResponse TestSession) :=
  SelectSessions
    [EqAssessmentId assessmentId; EqStudentId uid; EqIsCompleted false]
    MaybeSingle.

(** [createError.code === '23505' ||
     createError.details?.includes('duplicate')] *)
Definition isConflict (createError : JsError) : bool :=
  match code createError with
  | Some c => String.eqb c "23505"
  | None => false
  end
  || match details createError with
     | Some d => String_includes "duplicate" d
     | None => false
     end.

(** [200 * Math.pow(2, attempt - 1)] *)
Definition backoffMs (attempt : Z) : Z := 200 * 2 ^ (attempt - 1).

(** One iteration of [for (let attempt = 1; attempt <= 3; attempt++)]:
    the [try] block and its [catch]. *)
Definition attemptBody (assessmentId uid : string) (durationMinutes : Z)
    (attempt : Z) (lastError : option JsError) : Prog LoopCtl :=
  try_catch
    (now <- call DateNow;;
     created <- call (InsertSession
                        (mkNewSession assessmentId uid now durationMinutes false));;
     match error created with
     | Some createError =>
         (* lastError = createError *)
         if isConflict createError then
           call (SetTimeout (backoffMs attempt));;
           retried <- call (activeSessionQuery assessmentId uid);;
           match error retried, data retried with
           | None, Some retriedSession => Ret (ReturnFromFunction retriedSession)
           | _, _ => Ret (Continue (Some createError))
           end
         else Throw createError
     | None =>
         match data created with
         | Some newSession => Ret (Break newSession lastError)
         | None => Ret (Continue lastError)
         end
     end)
    (fun error =>
       (* lastError = error *)
       (if attempt <? 3 then call (SetTimeout (backoffMs attempt)) else Ret tt);;
       Ret (Continue (Some error))).

(** STEP 3 and the final [return session]. *)
Definition finalRetrieval (assessmentId uid : string)
    (session : option TestSession) (lastError : option JsError)
  : Prog TestSession :=
  match session with
  | None =>
      final <- call (activeSessionQuery assessmentId uid);;
      match error final with
      | Some finalError => Throw finalError
      | None =>
          match data final with
          | Some finalSession => Ret finalSession
          | None =>
              Throw (default
                       (new_Error "Failed to create or retrieve test session")
                       lastError)
          end
      end
  | Some s => Ret s
  end.

(** The [for] loop with [remaining] iterations left, followed by the rest
    of the function; the loop starts as [creationLoop .. 3 1 None]. *)
Fixpoint creationLoop (assessmentId uid : string) (durationMinutes : Z)
    (remaining : nat) (attempt : Z) (lastError : option JsError)
  : Prog TestSession :=
  match remaining with
  | O => finalRetrieval assessmentId uid None lastError
  | S n =>
      ctl <- attemptBody assessmentId uid durationMinutes attempt lastError;;
      match ctl with
      | Continue lastError' =>
          creationLoop assessmentId uid durationMinutes n (attempt + 1) lastError'
      | Break session lastError' =>
          finalRetrieval assessmentId uid (Some session) lastError'
      | ReturnFromFunction session => Ret session
      end
  end.

Definition getOrCreateTestSession (assessmentId : string) (durationMinutes : Z)
  : Prog TestSession :=
  try_catch
    (auth <- call AuthGetUser;;
     match user auth with
     | None => Throw (new_Error "User not authenticated")
     | Some u =>
         existing <- call (activeSessionQuery assessmentId (user_id u));;
         let afterLookup :=
           match data existing with
           | Some existingSession => Ret existingSession
           | None => creationLoop assessmentId (user_id u) durationMinutes 3 1 None
           end in
         match error existing with
         | Some fetchError =>
             if negb (bool_decide (code fetchError = Some "PGRST116"))
             then Throw fetchError
             else afterLookup
         | None => afterLookup
         end
     end)
    (fun error => Throw error).

(** [calculateRemainingTime]; [now] is the value of [Date.now()]. Nothing
    in the [try] block throws, so its [catch] (return 0) is left out. *)
Definition calculateRemainingTime (session : TestSession) (now : Z) : Z :=
  let startTime := started_at session in
  let durationMs := duration_minutes session * 60 * 1000 in
  let endTime := startTime + durationMs in
  let remaining := Z.max 0 (endTime - now) in
  Math_ceil_div remaining 1000.

(** [isTimeExpired] *)
Definition isTimeExpired (session : TestSession) (now : Z) : bool :=
  let remaining := calculateRemainingTime session now in
  remaining <=? 0.

(** [completeTestSession] *)
Definition completeTestSession (sessionId : string) : Prog unit :=
  try_catch
    (now <- call DateNow;;
     updated <- call (UpdateSessions (mkSessionPatch now true) [EqId sessionId]);;
     match error updated with
     | Some e => Throw e
     | None => Ret tt
     end)
    (fun error => Throw error).

(** [getStudentTestSession]: the row of the pair, whatever its completion
    state ([.maybeSingle()] without a filter on [is_completed]). *)
Definition getStudentTestSession (assessmentId studentId : string)
  : Prog (option TestSession) :=
  try_catch
    (found <- call (SelectSessions
                      [EqAssessmentId assessmentId; EqStudentId studentId]
                      MaybeSingle);;
     match error found with
     | Some e => Throw e
     | None => Ret (data found)
     end)
    (fun error => Throw error).

(** [formatTimeDisplay]; [%] is the remainder of the truncating division,
    and a whole number is written in decimal by a template literal. *)
Definition formatTimeDisplay (seconds : Z) : string :=
  if seconds <=? 0 then "0s"
  else
    let hours := Math_floor_div seconds 3600 in
    let minutes := Math_floor_div (Z.rem seconds 3600) 60 in
    let secs := Z.rem seconds 60 in
    let parts : list string := [] in
    let parts := if 0 <? hours then parts ++ [pretty hours +:+ "h"] else parts in
    let parts := if 0 <? minutes then parts ++ [pretty minutes +:+ "m"] else parts in
    let parts :=
      if (0 <? secs) || Nat.eqb (length parts) 0
      then parts ++ [pretty secs +:+ "s"] else parts in
    String.concat " " parts.

(** The object [getSessionStats] returns. *)
Record SessionStats : Type := mkSessionStats {
  totalSessions : Z;
  completedSessions : Z;
  pendingSessions : Z;
  averageSubmissionTime : string
}.

(** [s.submitted_at && s.is_completed] *)
Definition submittedAndCompleted (s : TestSession) : bool :=
  match submitted_at s with
  | Some _ => is_completed s
  | None => false
  end.

(** [getSessionStats]. The quotient [totalTime / submittedSessions.length]
    is a fraction, kept exact here; [new Date(null).getTime()] is 0. *)
Definition getSessionStats (sessions : list TestSession) : SessionStats :=
  let totalSessions := Z.of_nat (length sessions) in
  let completedSessions := Z.of_nat (length (List.filter is_completed sessions)) in
  let pendingSessions := totalSessions - completedSessions in
  let submittedSessions := List.filter submittedAndCompleted sessions in
  let averageSubmissionTime :=
    if (0 <? length submittedSessions)%nat then
      let totalTime :=
        fold_left
          (fun acc session =>
             let startTime := started_at session in
             let submittedTime := default 0 (submitted_at session) in
             acc + (submittedTime - startTime))
          submittedSessions 0 in
      let avgTimeMs :=
        QArith_base.Qdiv (QArith_base.inject_Z totalTime)
          (QArith_base.inject_Z (Z.of_nat (length submittedSessions))) in
      let avgSeconds :=
        Qround.Qfloor (QArith_base.Qdiv avgTimeMs (QArith_base.inject_Z 1000)) in
      formatTimeDisplay avgSeconds
    else "—" in
  mkSessionStats totalSessions completedSessions pendingSessions
    averageSubmissionTime.

(** [getAssessmentSessions]; [data || []]. *)
Definition getAssessmentSessions (assessmentId : string)
  : Script TableEv (list TestSession) :=
  scatch
    (rows <- ask (SelectSessionsNewestFirst [EqAssessmentId assessmentId]);;
     match error rows with
     | Some e => Raise e
     | None => Done (default [] (data rows))
     end)%script
    (fun error => Raise error).

(** [getMyTestSessions] *)
Definition getMyTestSessions : Script TableEv (list TestSession) :=
  scatch
    (auth <- ask (Core AuthGetUser);;
     match user auth with
     | None => Raise (new_Error "User not authenticated")
     | Some u =>
         rows <- ask (SelectSessionsNewestFirst [EqStudentId (user_id u)]);;
         match error rows with
         | Some e => Raise e
         | None => Done (default [] (data rows))
         end
     end)%script
    (fun error => Raise error).

(** The object [validateTestAccess] returns. *)
Record AccessDecision : Type := mkAccessDecision {
  allowed : bool;
  message : string
}.

(** [validateTestAccess]. Its session look-up selects the column
    [is_completed] of the row of the pair, without a filter on
    [is_completed]; the answer is the row, of which that column is
    read. *)
Definition validateTestAccess (assessmentId : string)
  : Script TableEv AccessDecision :=
  scatch
    (auth <- ask (Core AuthGetUser);;
     match user auth with
     | None => Done (mkAccessDecision false "Please log in to take the test")
     | Some u =>
         found <- ask (SelectAssessmentId assessmentId);;
         match error found, data found with
         | None, Some _ =>
             existing <- ask (Core (SelectSessions
                                      [EqAssessmentId assessmentId;
                                       EqStudentId (user_id u)]
                                      MaybeSingle));;
             match error existing with
             | Some _ => Done (mkAccessDecision false "Error checking test status")
             | None =>
                 if match data existing with
                    | Some existingSession => is_completed existingSession
                    | None => false
                    end
                 then Done (mkAccessDecision false
                              "You have already completed this assessment")
                 else Done (mkAccessDecision true "Access granted")
             end
         | _, _ => Done (mkAccessDecision false "Assessment not found")
         end
     end)%script
    (fun _ => Done (mkAccessDecision false "Error validating access")).

End Utils.

(* ===================================================================== *)
(** ** src/components/testTimer.ts *)
(* ===================================================================== *)

Module Components.

(** [studentId || user.id] *)
Definition userIdOf (studentId : option string) (u : AuthUser) : string :=
  match studentId with
  | Some s => if String.eqb s "" then user_id u else s
  | None => user_id u
  end.

Definition getOrCreateTestSession (assessmentId : string) (durationMinutes : Z)
    (studentId : option string) : Prog TestSession :=
  try_catch
    (auth <- call AuthGetUser;;
     match authError auth, user auth with
     | None, Some u =>
         let userId := userIdOf studentId u in
         existing <- call (SelectSessions
                             [EqAssessmentId assessmentId; EqStudentId userId;
                              EqIsCompleted false]
                             Single);;
         match data existing with
         | Some existingSession => Ret existingSession
         | None =>
             now <- call DateNow;;
             created <- call (InsertSession
                                (mkNewSession assessmentId userId now
                                   durationMinutes false));;
             match error created, data created with
             | None, Some newSession => Ret newSession
             | _, _ => Throw (new_Error "Failed to create test session")
             end
         end
     | _, _ => Throw (new_Error "Not authenticated")
     end)
    (fun error => Throw error).

(** [calculateRemainingTime]; [nowTime] is the value of
    [new Date().getTime()]. *)
Definition calculateRemainingTime (session : TestSession) (nowTime : Z) : Z :=
  let startTime := started_at session in
  let elapsedSeconds := Math_floor_div (nowTime - startTime) 1000 in
  let totalSeconds := duration_minutes session * 60 in
  let remaining := Z.max 0 (totalSeconds - elapsedSeconds) in
  remaining.

(** [completeTestSession] *)
Definition completeTestSession (sessionId : string) : Prog unit :=
  now <- call DateNow;;
  updated <- call (UpdateSessions (mkSessionPatch now true) [EqId sessionId]);;
  match error updated with
  | Some e => Throw e
  | None => Ret tt
  end.

(** [getTestSessionById]: an error of the look-up is logged and answered
    with [null]. *)
Definition getTestSessionById (sessionId : string) : Prog (option TestSession) :=
  found <- call (SelectSessions [EqId sessionId] Single);;
  match error found with
  | Some _ => Ret None
  | None => Ret (data found)
  end.

End Components.

(* ===================================================================== *)
(** ** src/components/TestTaking.tsx *)
(* ===================================================================== *)

Module TestTaking.

Record Assessment : Type := mkAssessment { assessment_duration_minutes : Z }.

(** The props, the route parameter and the [useState] values of one
    render; the handlers of that render close over them. The prop [user]
    and the state [error] are [userProp] and [errorState] here, [user] and
    [error] being the fields of a response. *)
Record View : Type := mkView {
  assessmentId : option string;
  userProp : AuthUser;
  assessment : option Assessment;
  questions : list Question;
  answers : gmap string string;
  timeLeft : Z;
  loading : bool;
  submitting : bool;
  testSession : option TestSession;
  isTimeExpired : bool;
  errorState : option string
}.

Section Page.

(** [autoGradeMCQ] of utils/autoGrading, which the page imports, and the
    double-precision value [Math.round((mcqScore / totalMarks) * 100)]. *)
Variable autoGradeMCQ : list Question -> gmap string string -> Z.
Variable roundPercent : Z -> Z -> Z.

(** [error.message || 'Unknown error'] *)
Definition messageOrUnknown (e : JsError) : string :=
  if String.eqb (message e) "" then "Unknown error" else message e.

Definition submitTest (v : View) (isAutoSubmit : bool) : Prog unit :=
  match testSession v with
  | None => Ret tt
  | Some session =>
      call (Ui (SetSubmitting true));;
      try_finally
        (try_catch
           (Utils.completeTestSession (id session);;
            let mcqScore := autoGradeMCQ (questions v) (answers v) in
            let totalMarks :=
              fold_left (fun sum q => sum + marks q) (questions v) 0 in
            let percentageScore :=
              if 0 <? totalMarks then roundPercent mcqScore totalMarks else 0 in
            now <- call DateNow;;
            inserted <- call (InsertSubmission
                                (mkNewSubmission (assessmentId v)
                                   (user_id (userProp v)) (id session)
                                   (answers v) mcqScore None percentageScore
                                   isAutoSubmit now));;
            match error inserted with
            | Some submitError => Throw submitError
            | None =>
                call (Ui (Alert
                            (if isAutoSubmit
                             then "✅ Test auto-submitted due to time expiry!"
                             else "✅ Test submitted successfully!")));;
                match data inserted with
                | Some submission =>
                    call (Ui (Navigate ("/results/" +:+ submission_id submission)))
                | None =>
                    Throw (new_Error "Cannot read properties of null (reading 'id')")
                end
            end)
           (fun error =>
              call (Ui (SetError ("Error submitting test: " +:+ messageOrUnknown error)));;
              call (Ui (Alert "Error submitting test. Please try again."))))
        (call (Ui (SetSubmitting false)))
  end.

Definition handleAutoSubmit (v : View) : Prog unit :=
  match testSession v with
  | None => Ret tt
  | Some _ => submitTest v true
  end.

Definition handleSubmit (v : View) : Prog unit :=
  if submitting v then Ret tt
  else
    confirmed <- call (Confirm "Are you sure you want to submit your test?");;
    if negb confirmed then Ret tt
    else submitTest v false.

(** The callback the timer effect passes to [setInterval]. *)
Definition timerCallback (v : View) (session : TestSession) : Prog unit :=
  now <- call DateNow;;
  let remaining := Utils.calculateRemainingTime session now in
  if remaining <=? 0 then
    call (Ui (SetIsTimeExpired true));;
    call (Ui (SetTimeLeft 0));;
    call (Ui ClearInterval);;
    handleAutoSubmit v
  else
    call (Ui (SetTimeLeft remaining)).

(** The timer [useEffect]: the interval callback it installs, if any. *)
Definition timerEffect (v : View) : option (Prog unit) :=
  match testSession v with
  | None => None
  | Some session =>
      if isTimeExpired v || submitting v then None
      else Some (timerCallback v session)
  end.

(** Whether the render shows the question view with the submit button
    enabled ([disabled={submitting || isTimeExpired}]). *)
Definition submitButtonEnabled (v : View) : bool :=
  negb (loading v)
  && negb (bool_decide (is_Some (errorState v)))
  && bool_decide (is_Some (assessment v))
  && bool_decide (is_Some (testSession v))
  && negb (isTimeExpired v)
  && negb (submitting v || isTimeExpired v).

(** [handleAnswerChange]: the update [prev => ({ ...prev, [questionId]:
    answer })] it passes to [setAnswers]. *)
Definition handleAnswerChange (questionId answer : string)
    (prev : gmap string string) : gmap string string :=
  <[questionId := answer]> prev.

(** [Object.keys(answers).length], the count the page shows as
    "n of m questions answered". *)
Definition answeredCount (answersState : gmap string string) : Z :=
  Z.of_nat (size answersState).

(** [s.padStart(targetLength, padChar)] for a pad string of one
    character. *)
Definition String_padStart (targetLength : nat) (padChar : Ascii.ascii)
    (s : string) : string :=
  String.string_of_list_ascii (replicate (targetLength - String.length s) padChar) +:+ s.

(** [formatTime], which renders [timeLeft]. *)
Definition formatTime (seconds : Z) : string :=
  let hours := Math_floor_div seconds 3600 in
  let mins := Math_floor_div (Z.rem seconds 3600) 60 in
  let secs := Z.rem seconds 60 in
  if 0 <? hours then
    pretty hours +:+ "h " +:+ pretty mins +:+ "m "
    +:+ String_padStart 2 "0"%char (pretty secs) +:+ "s"
  else
    pretty mins +:+ "m " +:+ String_padStart 2 "0"%char (pretty secs) +:+ "s".

End Page.

(** The calls of the initialisation effect: those of the session protocol,
    the look-up of the assessment
    ([.from('assessments').select('*').eq('id', assessmentId).single()]),
    the select of its questions (ordered by [question_number]) and the
    remaining state setters of the page. *)
Inductive PageEv : Type -> Type :=
| Protocol {X : Type} (ev : Ev X) : PageEv X
| SelectAssessment (assessmentId : string) : PageEv (PgResponse Assessment)
| SelectQuestions (assessmentId : string) : PageEv (PgResponse (list Question))
| SetLoading (b : bool) : PageEv unit
| SetAssessment (a : Assessment) : PageEv unit
| SetQuestions (qs : list Question) : PageEv unit
| SetTestSession (s : TestSession) : PageEv unit.

(** [initializeTest] of the first effect, for the route parameter
    [assessmentId]. *)
Definition initializeTest (assessmentId : string) : Script PageEv unit :=
  scatch
    (ask (SetLoading true);;
     fetched <- ask (SelectAssessment assessmentId);;
     match error fetched, data fetched with
     | None, Some assessmentData =>
         ask (SetAssessment assessmentData);;
         fetchedQuestions <- ask (SelectQuestions assessmentId);;
         match error fetchedQuestions with
         | Some _ =>
             ask (Protocol (Ui (SetError "Failed to load questions")));;
             ask (SetLoading false)
         | None =>
             ask (SetQuestions (default [] (data fetchedQuestions)));;
             session <- lift (@Protocol)
                          (Utils.getOrCreateTestSession assessmentId
                             (assessment_duration_minutes assessmentData));;
             ask (SetTestSession session);;
             now <- ask (Protocol DateNow);;
             let remaining := Utils.calculateRemainingTime session now in
             ask (Protocol (Ui (SetTimeLeft remaining)));;
             (if remaining <=? 0 then
                ask (Protocol (Ui (SetIsTimeExpired true)));;
                ask (Protocol (Ui (Alert "⏱️ Time expired for this assessment")))
              else Done tt);;
             ask (SetLoading false)
         end
     | _, _ =>
         ask (Protocol (Ui (SetError "Failed to load assessment")));;
         ask (SetLoading false)
     end)%script
    (fun error =>
       (ask (Protocol (Ui (SetError ("Error loading test: "
                                     +:+ messageOrUnknown error))));;
        ask (SetLoading false))%script).

(** The initialisation effect: without a route parameter
    ([!assessmentId]: none, or the empty string) it reports the error and
    starts nothing. *)
Definition initializeEffect (v : View) : Script PageEv unit :=
  let missing :=
    (ask (Protocol (Ui (SetError "Assessment ID is missing")));;
     ask (SetLoading false))%script in
  match assessmentId v with
  | None => missing
  | Some assessmentId =>
      if String.eqb assessmentId "" then missing else initializeTest assessmentId
  end.

End TestTaking.

(** The formula of the specification, written from its words:
    [max(0, durationMinutes * 60 - floor((now - startedAt) / 1000))]. *)
Definition remainingSeconds_spec (durationMinutes startedAt now : Z) : Z :=
  Z.max 0 (durationMinutes * 60 - (now - startedAt) / 1000).

(** A session of 30 minutes started at [T]. *)
Definition session30 (T : Z) : TestSession :=
  mkTestSession "s1" "A" "S" T None 30 false T.



(* ===================================================================== *)
(** ** Running a program against an environment *)
(* ===================================================================== *)

(** An environment answers every call and moves to its next state. *)
Definition Handler (W : Type) : Type := forall X : Type, Ev X -> W -> X * W.

(** One call together with the answer it got. *)
Inductive Obs : Type :=
| Observed {X : Type} (ev : Ev X) (x : X).

Inductive Outcome (R : Type) : Type :=
| Returned (r : R)
| Thrown (e : JsError).
Arguments Returned {R} _.
Arguments Thrown {R} _.

Record RunResult (W R : Type) : Type := mkRunResult {
  outcome : Outcome R;
  final : W;
  trace : list Obs
}.
Arguments mkRunResult {W R} _ _ _.
Arguments outcome {W R} _.
Arguments final {W R} _.
Arguments trace {W R} _.

Fixpoint run {W R : Type} (h : Handler W) (p : Prog R) (w : W) : RunResult W R :=
  match p with
  | Ret r => mkRunResult (Returned r) w []
  | Throw e => mkRunResult (Thrown e) w []
  | Vis ev k =>
      let answer := h _ ev w in
      let rest := run h (k answer.1) answer.2 in
      mkRunResult (outcome rest) (final rest) (Observed ev answer.1 :: trace rest)
  end.

(** A property of every trace and outcome a program can have, whatever the
    environment answers. *)
Fixpoint always {R : Type} (P : list Obs -> Outcome R -> Prop) (p : Prog R) : Prop :=
  match p with
  | Ret r => P [] (Returned r)
  | Throw e => P [] (Thrown e)
  | Vis ev k => forall x, always (fun tr o => P (Observed ev x :: tr) o) (k x)
  end.

(** One call of a script together with the answer it got. *)
Inductive Call (E : Type -> Type) : Type :=
| Called {X : Type} (ev : E X) (x : X).
Arguments Called {E X} _ _.

Record ScriptResult (E : Type -> Type) (W R : Type) : Type := mkScriptResult {
  result : Outcome R;
  world : W;
  calls : list (Call E)
}.
Arguments mkScriptResult {E W R} _ _ _.
Arguments result {E W R} _.
Arguments world {E W R} _.
Arguments calls {E W R} _.

Fixpoint srun {E : Type -> Type} {W R : Type}
    (h : forall X : Type, E X -> W -> X * W) (p : Script E R) (w : W)
  : ScriptResult E W R :=
  match p with
  | Done r => mkScriptResult (Returned r) w []
  | Raise e => mkScriptResult (Thrown e) w []
  | Ask ev k =>
      let answer := h _ ev w in
      let rest := srun h (k answer.1) answer.2 in
      mkScriptResult (result rest) (world rest) (Called ev answer.1 :: calls rest)
  end.

(** *** Reading a trace *)

Definition is_insert_session (o : Obs) : bool :=
  match o with
  | Observed (InsertSession _) _ => true
  | _ => false
  end.

Definition is_select_sessions (o : Obs) : bool :=
  match o with
  | Observed (SelectSessions _ _) _ => true
  | _ => false
  end.

(** The creation attempts a run made. *)
Definition creation_attempts (tr : list Obs) : nat :=
  length (List.filter is_insert_session tr).

(** The session look-ups a run made. *)
Definition lookups (tr : list Obs) : nat :=
  length (List.filter is_select_sessions tr).

(** The delays a run waited, in order. *)
Fixpoint waits (tr : list Obs) : list Z :=
  match tr with
  | [] => []
  | Observed (SetTimeout ms) _ :: rest => ms :: waits rest
  | _ :: rest => waits rest
  end.

(** The errors the creation attempts of a run were answered with. *)
Fixpoint creation_errors (tr : list Obs) : list JsError :=
  match tr with
  | [] => []
  | Observed (InsertSession _) x :: rest =>
      match error x with
      | Some e => e :: creation_errors rest
      | None => creation_errors rest
      end
  | _ :: rest => creation_errors rest
  end.

(** The calls of a run without their answers. *)
Inductive CallName : Type :=
| CAuthGetUser | CSelectSessions | CInsertSession | CUpdateSessions
| CInsertSubmission | CSetTimeout | CDateNow | CConfirm | CUi (a : UiAction).

Definition call_name (o : Obs) : CallName :=
  match o with
  | Observed AuthGetUser _ => CAuthGetUser
  | Observed (SelectSessions _ _) _ => CSelectSessions
  | Observed (InsertSession _) _ => CInsertSession
  | Observed (UpdateSessions _ _) _ => CUpdateSessions
  | Observed (InsertSubmission _) _ => CInsertSubmission
  | Observed (SetTimeout _) _ => CSetTimeout
  | Observed DateNow _ => CDateNow
  | Observed (Confirm _) _ => CConfirm
  | Observed (Ui a) _ => CUi a
  end.

(* ===================================================================== *)
(** ** The remote data service *)
(* ===================================================================== *)

Module Backend.

(** Modelled from the spec: the Remote Data Service of sections 2 and 6,
    which is not part of the repository. It stores the [test_sessions]
    and [submissions] rows, answers [findActiveSession], [createSession],
    [completeSession], [createSubmission] and [currentIdentity], and
    rejects a [createSession] that would give an (assessment, student)
    pair a second non-completed session with the conflict error (code
    23505). The three fault queues hold the store errors the next
    requests of each kind are answered with (a generic StoreError, a row
    policy, a conflict whose winner is not visible yet). *)
Record World : Type := mkWorld {
  sessions : list TestSession;
  submissions : list Submission;
  clock : Z;
  identity : option AuthUser;
  confirms : bool;
  insert_session_faults : list JsError;
  update_session_faults : list JsError;
  insert_submission_faults : list JsError
}.

Definition cond_holds (c : Cond) (r : TestSession) : bool :=
  match c with
  | EqAssessmentId v => String.eqb (assessment_id r) v
  | EqStudentId v => String.eqb (student_id r) v
  | EqIsCompleted b => Bool.eqb (is_completed r) b
  | EqId v => String.eqb (id r) v
  end.

Definition matches (conds : list Cond) (r : TestSession) : bool :=
  forallb (fun c => cond_holds c r) conds.

Definition active_for (a s : string) (r : TestSession) : bool :=
  matches [EqAssessmentId a; EqStudentId s; EqIsCompleted false] r.

Definition pgrst116 : JsError :=
  mkJsError (Some "PGRST116") (Some "The result contains 0 or several rows")
    "JSON object requested, multiple (or no) rows returned".

Definition unique_violation : JsError :=
  mkJsError (Some "23505") (Some "Key already exists.")
    "duplicate key value violates unique constraint".

(** Modelled from the spec: how a select is closed, [.maybeSingle()] or
    [.single()] -- one row is returned as [data]; no row is [null] for the
    former and an error for the latter; several rows are an error. *)
Definition close_select (card : Cardinality) (rows : list TestSession)
  : PgResponse TestSession :=
  match rows with
  | [r] => mkPgResponse (Some r) None
  | [] =>
      match card with
      | MaybeSingle => mkPgResponse None None
      | Single => mkPgResponse None (Some pgrst116)
      end
  | _ => mkPgResponse None (Some pgrst116)
  end.

(** Modelled from the spec: [findActiveSession], as the query the code
    sends: the rows that satisfy every [.eq] condition. *)
Definition select_sessions (conds : list Cond) (card : Cardinality) (w : World)
  : PgResponse TestSession * World :=
  (close_select card (List.filter (matches conds) (sessions w)), w).

Definition new_row (row : NewSession) (w : World) : TestSession :=
  mkTestSession ("ts-" +:+ pretty (length (sessions w)))
    (new_assessment_id row) (new_student_id row) (new_started_at row)
    None (new_duration_minutes row) (new_is_completed row) (clock w).

(** Modelled from the spec: [createSession]. A pending fault is answered
    first; otherwise a non-completed row for a pair that has a
    non-completed row is rejected with the conflict error and the store is
    left as it is; otherwise the row is stored under a new id. *)
Definition insert_session (row : NewSession) (w : World)
  : PgResponse TestSession * World :=
  match insert_session_faults w with
  | e :: rest =>
      (mkPgResponse None (Some e),
       mkWorld (sessions w) (submissions w) (clock w) (identity w) (confirms w)
         rest (update_session_faults w) (insert_submission_faults w))
  | [] =>
      if negb (new_is_completed row)
         && existsb (active_for (new_assessment_id row) (new_student_id row))
              (sessions w)
      then (mkPgResponse None (Some unique_violation), w)
      else
        (mkPgResponse (Some (new_row row w)) None,
         mkWorld (sessions w ++ [new_row row w]) (submissions w) (clock w)
           (identity w) (confirms w) [] (update_session_faults w)
           (insert_submission_faults w))
  end.

Definition apply_patch (p : SessionPatch) (r : TestSession) : TestSession :=
  mkTestSession (id r) (assessment_id r) (student_id r) (started_at r)
    (Some (patch_submitted_at p)) (duration_minutes r) (patch_is_completed p)
    (created_at r).

(** Modelled from the spec: [completeSession], as the update the code
    sends: the patch is applied to the rows that satisfy the conditions. *)
Definition update_sessions (p : SessionPatch) (conds : list Cond) (w : World)
  : PgResponse unit * World :=
  match update_session_faults w with
  | e :: rest =>
      (mkPgResponse None (Some e),
       mkWorld (sessions w) (submissions w) (clock w) (identity w) (confirms w)
         (insert_session_faults w) rest (insert_submission_faults w))
  | [] =>
      (mkPgResponse None None,
       mkWorld
         (map (fun r => if matches conds r then apply_patch p r else r) (sessions w))
         (submissions w) (clock w) (identity w) (confirms w)
         (insert_session_faults w) [] (insert_submission_faults w))
  end.

(** Modelled from the spec: [createSubmission]. *)
Definition insert_submission (row : NewSubmission) (w : World)
  : PgResponse Submission * World :=
  match insert_submission_faults w with
  | e :: rest =>
      (mkPgResponse None (Some e),
       mkWorld (sessions w) (submissions w) (clock w) (identity w) (confirms w)
         (insert_session_faults w) (update_session_faults w) rest)
  | [] =>
      let sub := mkSubmission ("sub-" +:+ pretty (length (submissions w))) row in
      (mkPgResponse (Some sub) None,
       mkWorld (sessions w) (submissions w ++ [sub]) (clock w) (identity w)
         (confirms w) (insert_session_faults w) (update_session_faults w) [])
  end.

(** Time passes. *)
Definition advance (ms : Z) (w : World) : World :=
  mkWorld (sessions w) (submissions w) (clock w + Z.max 0 ms) (identity w)
    (confirms w) (insert_session_faults w) (update_session_faults w)
    (insert_submission_faults w).

(** The environment of a single caller: the store, [currentIdentity], the
    clock (a [setTimeout] lets the delay pass), and the student's answer to
    [window.confirm]; the state setters of the page are only recorded. *)
Definition backend : Handler World :=
  fun X ev =>
    match ev in Ev X return World -> X * World with
    | AuthGetUser => fun w => (mkAuthResponse (identity w) None, w)
    | SelectSessions conds card => select_sessions conds card
    | InsertSession row => insert_session row
    | UpdateSessions p conds => update_sessions p conds
    | InsertSubmission row => insert_submission row
    | SetTimeout ms => fun w => (tt, advance ms w)
    | DateNow => fun w => (clock w, w)
    | Confirm _ => fun w => (confirms w, w)
    | Ui _ => fun w => (tt, w)
    end.

(** At most one non-completed session per (assessment, student) pair. *)
Definition unique_active (rows : list TestSession) : Prop :=
  forall a s : string, (length (List.filter (active_for a s) rows) <= 1)%nat.

End Backend.

(* ===================================================================== *)
(** ** The remote data service with its other tables *)
(* ===================================================================== *)

Module Tables.

(** Modelled from the spec: the Remote Data Service as the functions
    outside the session protocol see it -- the store of [Backend], the rows
    of the [assessments] table by id and the questions of each assessment
    in the order of [question_number]. A select of several sessions
    answers with the rows that satisfy every condition, newest first; the
    look-ups of an assessment find the row with the id or none. *)
Record World : Type := mkWorld {
  store : Backend.World;
  assessments : gmap string TestTaking.Assessment;
  questions : gmap string (list Question)
}.

(** [.order('created_at', { ascending: false })] *)
Definition newer_or_equal (r1 r2 : TestSession) : Prop :=
  created_at r2 <= created_at r1.

Global Instance newer_or_equal_dec : RelDecision newer_or_equal.
Proof. intros r1 r2. unfold newer_or_equal. apply _. Defined.

Definition newest_first (rows : list TestSession) : list TestSession :=
  merge_sort newer_or_equal rows.

Definition core {X : Type} (ev : Ev X) (w : World) : X * World :=
  let answer := Backend.backend X ev (store w) in
  (answer.1, mkWorld answer.2 (assessments w) (questions w)).

(** The environment of [getAssessmentSessions], [getMyTestSessions] and
    [validateTestAccess]. *)
Definition tables : forall X : Type, TableEv X -> World -> X * World :=
  fun X ev =>
    match ev in TableEv X return World -> X * World with
    | Core ev => core ev
    | SelectAssessmentId assessmentId => fun w =>
        (mkPgResponse
           (match assessments w !! assessmentId with
            | Some _ => Some assessmentId
            | None => None
            end) None, w)
    | SelectSessionsNewestFirst conds => fun w =>
        (mkPgResponse
           (Some (newest_first
                    (List.filter (Backend.matches conds)
                       (Backend.sessions (store w))))) None, w)
    end.

(** The environment of the initialisation effect; the state setters of the
    page are only recorded. *)
Definition page : forall X : Type, TestTaking.PageEv X -> World -> X * World :=
  fun X ev =>
    match ev in TestTaking.PageEv X return World -> X * World with
    | TestTaking.Protocol ev => core ev
    | TestTaking.SelectAssessment assessmentId => fun w =>
        (match assessments w !! assessmentId with
         | Some a => mkPgResponse (Some a) None
         | None => mkPgResponse None (Some Backend.pgrst116)
         end, w)
    | TestTaking.SelectQuestions assessmentId => fun w =>
        (mkPgResponse (Some (default [] (questions w !! assessmentId))) None, w)
    | TestTaking.SetLoading _ => fun w => (tt, w)
    | TestTaking.SetAssessment _ => fun w => (tt, w)
    | TestTaking.SetQuestions _ => fun w => (tt, w)
    | TestTaking.SetTestSession _ => fun w => (tt, w)
    end.

End Tables.

(* ===================================================================== *)
(** ** Conditions on the answers a run received *)
(* ===================================================================== *)

(** The caller was signed in. *)
Definition authenticated (o : Obs) : bool :=
  match o with
  | Observed AuthGetUser x =>
      match user x with
      | Some _ => true
      | None => false
      end
  | _ => true
  end.

(** A look-up found no session and reported no error. *)
Definition finds_nothing (o : Obs) : bool :=
  match o with
  | Observed (SelectSessions _ _) x =>
      match data x, error x with
      | None, None => true
      | _, _ => false
      end
  | _ => true
  end.

(** A creation attempt was rejected with an error of the conflict class. *)
Definition creation_conflicts (o : Obs) : bool :=
  match o with
  | Observed (InsertSession _) x =>
      match error x with
      | Some e => Utils.isConflict e
      | None => false
      end
  | _ => true
  end.

(** A creation attempt was rejected with an error of another class. *)
Definition creation_fails_otherwise (o : Obs) : bool :=
  match o with
  | Observed (InsertSession _) x =>
      match error x with
      | Some e => negb (Utils.isConflict e)
      | None => false
      end
  | _ => true
  end.

(** The backoff delays of the attempts [attempt], [attempt + 1], ... *)
Fixpoint backoffs (attempt : Z) (remaining : nat) : list Z :=
  match remaining with
  | O => []
  | S n => Utils.backoffMs attempt :: backoffs (attempt + 1) n
  end.

(** The first creation attempt of a run was rejected with an error that is
    not of the conflict class. *)
Fixpoint first_creation_fails_otherwise (tr : list Obs) : bool :=
  match tr with
  | [] => false
  | Observed (InsertSession _) x :: _ =>
      match error x with
      | Some e => negb (Utils.isConflict e)
      | None => false
      end
  | _ :: rest => first_creation_fails_otherwise rest
  end.

(** A creation attempt was rejected: an error, or no row. *)
Definition creation_rejected (o : Obs) : bool :=
  match o with
  | Observed (InsertSession _) x =>
      match error x, data x with
      | None, Some _ => false
      | _, _ => true
      end
  | _ => true
  end.

(** A look-up returned no row (with or without an error). *)
Definition lookup_without_row (o : Obs) : bool :=
  match o with
  | Observed (SelectSessions _ _) x =>
      match data x with
      | None => true
      | Some _ => false
      end
  | _ => true
  end.

(** The caller was signed in and the identity call reported no error. *)
Definition authenticated_without_error (o : Obs) : bool :=
  match o with
  | Observed AuthGetUser x =>
      match authError x, user x with
      | None, Some _ => true
      | _, _ => false
      end
  | _ => true
  end.

(** *** Example environments *)

(** A permission error of the store (not a conflict). *)
Definition permission_denied : JsError :=
  mkJsError (Some "42501") None "new row violates row-level security policy".

(** Student S signed in at time 1000, no rows, no faults. *)
Definition empty_world : Backend.World :=
  Backend.mkWorld [] [] 1000 (Some (mkAuthUser "S")) true [] [] [].

(** The same, where the store answers the next creation attempts with the
    given errors. *)
Definition world_rejecting (errors : list JsError) : Backend.World :=
  Backend.mkWorld [] [] 1000 (Some (mkAuthUser "S")) true errors [] [].

(** A world whose store holds one running session of student S for
    assessment A, and one finished session of the same pair. *)
Definition running_session : TestSession :=
  mkTestSession "ts-1" "A" "S" 500 None 30 false 500.

Definition finished_session : TestSession :=
  mkTestSession "ts-0" "A" "S" 100 (Some 400) 30 true 100.

Definition world_with_running_session : Backend.World :=
  Backend.mkWorld [finished_session; running_session] [] 1000
    (Some (mkAuthUser "S")) true [] [] [].

Definition world_with_finished_session : Backend.World :=
  Backend.mkWorld [finished_session] [] 1000 (Some (mkAuthUser "S")) true [] [] [].

(** *** What the store guarantees about its answers *)

(** A look-up answers only with a row that satisfies its conditions, and a
    creation answers with the row as it was inserted. *)
Definition sound_answer (o : Obs) : bool :=
  match o with
  | Observed (SelectSessions conds _) x =>
      match data x with
      | Some s => Backend.matches conds s
      | None => true
      end
  | Observed (InsertSession row) x =>
      match data x with
      | Some s => Bool.eqb (is_completed s) (new_is_completed row)
      | None => true
      end
  | _ => true
  end.

(** The rows the look-ups of a run were answered with. *)
Fixpoint lookup_answers (tr : list Obs) : list TestSession :=
  match tr with
  | [] => []
  | Observed (SelectSessions _ _) x :: rest =>
      match data x with
      | Some s => s :: lookup_answers rest
      | None => lookup_answers rest
      end
  | _ :: rest => lookup_answers rest
  end.

(** The session an iteration of the creation loop hands on, if any. *)
Definition ctl_session (c : LoopCtl) : option TestSession :=
  match c with
  | Continue _ => None
  | Break s _ => Some s
  | ReturnFromFunction s => Some s
  end.

(** A run that returns, returns a non-completed session. *)
Definition returns_active {R : Type} (session_of : R -> option TestSession)
    (o : Outcome R) : Prop :=
  match o with
  | Returned r =>
      match session_of r with
      | Some s => is_completed s = false
      | None => True
      end
  | Thrown _ => True
  end.

(** *** Reading the trace of the finaliser *)

(** Every submission insert of the trace comes after a completion write
    ([is_completed: true]) that the store accepted; [done] tells whether
    such a write has been seen. *)
Fixpoint completed_before (done : bool) (tr : list Obs) : bool :=
  match tr with
  | [] => true
  | Observed (UpdateSessions p _) x :: rest =>
      completed_before
        (done || (patch_is_completed p
                  && match error x with
                     | None => true
                     | Some _ => false
                     end))
        rest
  | Observed (InsertSubmission _) _ :: rest => done && completed_before done rest
  | _ :: rest => completed_before done rest
  end.

(** The page of student S on assessment A, showing [running_session]. *)
Definition running_view : TestTaking.View :=
  TestTaking.mkView (Some "A") (mkAuthUser "S")
    (Some (TestTaking.mkAssessment 30)) [mkQuestion "q1" 1] ∅ 1770 false false
    (Some running_session) false None.

(** The store of [world_with_running_session], about to reject the next
    submission insert, 100 ms before the 30 minutes of [running_session]
    are over. *)
Definition world_rejecting_submission : Backend.World :=
  Backend.mkWorld [finished_session; running_session] [] 1800400
    (Some (mkAuthUser "S")) true [] [] [permission_denied].

(* ===================================================================== *)
(** ** Concurrent callers *)
(* ===================================================================== *)

(** Several calls of the resolver (tabs, retries) run against one store.
    Each caller is suspended at its next [await]; a step lets one caller
    perform that call, which the store serves atomically, and resume. *)
Definition Pool : Type := list (Prog TestSession).

Inductive pool_step : Backend.World * Pool -> Backend.World * Pool -> Prop :=
| pool_step_at (w : Backend.World) (pool : Pool) (i : nat)
    (X : Type) (ev : Ev X) (k : X -> Prog TestSession) :
    pool !! i = Some (Vis ev k) ->
    pool_step (w, pool)
      ((Backend.backend X ev w).2, <[i := k (Backend.backend X ev w).1]> pool).

Section Interference.

(** The (assessment, student) pair all callers resolve, and the condition
    under which a caller may end with an error. *)
Variables (assessmentId : string) (student : AuthUser) (CanThrow : Prop).

(** [r] is a stored, non-completed session of the pair. *)
Definition is_active_row (r : TestSession) (w : Backend.World) : Prop :=
  r ∈ Backend.sessions w
  /\ Backend.active_for assessmentId (user_id student) r = true.

(** What the other callers may do to the store in the meantime: add
    non-completed sessions of the pair. *)
Definition grows (w w' : Backend.World) : Prop :=
  exists created,
    Backend.sessions w' = Backend.sessions w ++ created
    /\ Forall (fun r => Backend.active_for assessmentId (user_id student) r = true)
         created.

(** What holds of the store at every moment. *)
Definition store_ok (w : Backend.World) : Prop :=
  Backend.unique_active (Backend.sessions w)
  /\ Backend.identity w = Some student
  /\ (Backend.insert_session_faults w <> [] -> CanThrow).

(** [tolerates Q p w]: from store [w] on, however the other callers
    interleave, every step of [p] keeps the store in order and only adds
    sessions of the pair, [p] throws only if [CanThrow], and a value it
    returns satisfies [Q] in the store of that moment. *)
Fixpoint tolerates {R : Type} (Q : R -> Backend.World -> Prop) (p : Prog R)
    (w : Backend.World) : Prop :=
  match p with
  | Ret r => Q r w
  | Throw _ => CanThrow
  | Vis ev k =>
      forall w1, grows w w1 -> store_ok w1 ->
        grows w1 (Backend.backend _ ev w1).2
        /\ store_ok (Backend.backend _ ev w1).2
        /\ tolerates Q (k (Backend.backend _ ev w1).1) (Backend.backend _ ev w1).2
  end.

(** What an iteration of the creation loop hands on. *)
Definition ctl_ok (c : LoopCtl) (w : Backend.World) : Prop :=
  match c with
  | Continue _ => CanThrow
  | Break s _ => is_active_row s w
  | ReturnFromFunction s => is_active_row s w
  end.

(** What holds of every configuration the callers can reach from the
    store [w0]. *)
Definition pool_ok (w0 : Backend.World) (c : Backend.World * Pool) : Prop :=
  grows w0 c.1 /\ store_ok c.1
  /\ Forall (fun p => tolerates is_active_row p c.1) c.2.

End Interference.

(** A schedule names the caller that moves next; a caller that has
    finished stays as it is. *)
Definition pool_step_fn (i : nat) (c : Backend.World * Pool)
  : Backend.World * Pool :=
  match c.2 !! i with
  | Some (Vis ev k) =>
      ((Backend.backend _ ev c.1).2,
       <[i := k (Backend.backend _ ev c.1).1]> c.2)
  | _ => c
  end.

Definition pool_run (schedule : list nat) (c : Backend.World * Pool)
  : Backend.World * Pool :=
  fold_left (fun c i => pool_step_fn i c) schedule c.

(** Two tabs open the assessment at once: both look up before either
    creates. *)
Definition two_tabs : Backend.World * Pool :=
  (empty_world, replicate 2 (Utils.getOrCreateTestSession "A" 30)).

Definition racing_schedule : list nat :=
  [0; 1; 0; 1; 0; 0; 1; 1; 1; 1]%nat.

(** What a caller of the pool has come to. *)
Definition caller_result (p : Prog TestSession) : option (Outcome TestSession) :=
  match p with
  | Ret r => Some (Returned r)
  | Throw e => Some (Thrown e)
  | Vis _ _ => None
  end.

(** What the pieces of the resolver guarantee when the store's answers are
    sound. *)
Definition keeps_active {R : Type} (session_of : R -> option TestSession)
    (tr : list Obs) (o : Outcome R) : Prop :=
  forallb sound_answer tr = true ->
  Forall (fun s => is_completed s = false) (lookup_answers tr)
  /\ returns_active session_of o.

(* ===================================================================== *)
(** ** The countdown driver: the page on the event loop *)
(* ===================================================================== *)

Global Instance TestSession_eq_dec : EqDecision TestSession.
Proof. solve_decision. Defined.

Module Driver.

(** The page runs on the browser's event loop, one task at a time: a tick
    of the interval, a click, or the continuation of an async function
    whose request was answered. A task runs a handler up to its next
    request to the backend. Before the next task React renders the state
    the task has set and re-runs the timer effect when one of its
    dependencies changed, after the clean-up of the previous run. *)

(** An async function parked at an [await] on the backend. *)
Inductive Suspended : Type :=
| Parked {X : Type} (ev : Ev X) (k : X -> Prog unit).

(** The mounted page between two tasks of the event loop: the values of
    the last render, the live interval with the callback the timer effect
    installed, the dependencies that effect ran with, the async functions
    in flight, and the store. The log keeps every call made so far, the
    latest first. *)
Record State : Type := mkState {
  view : TestTaking.View;
  interval : option (Prog unit);
  effect_deps : option TestSession * bool * bool;
  parked : list Suspended;
  mounted : bool;
  world : Backend.World;
  log : list Obs
}.

Definition set_view (v : TestTaking.View) (s : State) : State :=
  mkState v (interval s) (effect_deps s) (parked s) (mounted s) (world s) (log s).

(** The state setters and browser calls of the page. [navigate] leaves the
    route of the page, which unmounts it. *)
Definition apply_ui (a : UiAction) (s : State) : State :=
  let v := view s in
  match a with
  | SetSubmitting b =>
      set_view (TestTaking.mkView (TestTaking.assessmentId v) (TestTaking.userProp v)
                  (TestTaking.assessment v) (TestTaking.questions v)
                  (TestTaking.answers v) (TestTaking.timeLeft v)
                  (TestTaking.loading v) b (TestTaking.testSession v)
                  (TestTaking.isTimeExpired v) (TestTaking.errorState v)) s
  | SetError msg =>
      set_view (TestTaking.mkView (TestTaking.assessmentId v) (TestTaking.userProp v)
                  (TestTaking.assessment v) (TestTaking.questions v)
                  (TestTaking.answers v) (TestTaking.timeLeft v)
                  (TestTaking.loading v) (TestTaking.submitting v)
                  (TestTaking.testSession v) (TestTaking.isTimeExpired v)
                  (Some msg)) s
  | SetIsTimeExpired b =>
      set_view (TestTaking.mkView (TestTaking.assessmentId v) (TestTaking.userProp v)
                  (TestTaking.assessment v) (TestTaking.questions v)
                  (TestTaking.answers v) (TestTaking.timeLeft v)
                  (TestTaking.loading v) (TestTaking.submitting v)
                  (TestTaking.testSession v) b (TestTaking.errorState v)) s
  | SetTimeLeft seconds =>
      set_view (TestTaking.mkView (TestTaking.assessmentId v) (TestTaking.userProp v)
                  (TestTaking.assessment v) (TestTaking.questions v)
                  (TestTaking.answers v) seconds
                  (TestTaking.loading v) (TestTaking.submitting v)
                  (TestTaking.testSession v) (TestTaking.isTimeExpired v)
                  (TestTaking.errorState v)) s
  | ClearInterval =>
      mkState (view s) None (effect_deps s) (parked s) (mounted s) (world s) (log s)
  | Alert _ => s
  | Navigate _ =>
      mkState (view s) (interval s) (effect_deps s) (parked s) false (world s) (log s)
  end.

(** The calls a task answers on the spot; the others are requests to the
    backend, at which the async function is parked. *)
Definition sync_answer {X : Type} (ev : Ev X) (s : State) : option X :=
  match ev in Ev X return option X with
  | Ui _ => Some tt
  | DateNow => Some (Backend.clock (world s))
  | Confirm _ => Some (Backend.confirms (world s))
  | _ => None
  end.

Definition apply_sync {X : Type} (ev : Ev X) (x : X) (s : State) : State :=
  let s' := match ev with
            | Ui a => apply_ui a s
            | _ => s
            end in
  mkState (view s') (interval s') (effect_deps s') (parked s') (mounted s')
    (world s') (Observed ev x :: log s').

Definition park (p : Suspended) (s : State) : State :=
  mkState (view s) (interval s) (effect_deps s) (p :: parked s) (mounted s)
    (world s) (log s).

(** One task: a handler or a resumed async function runs to its next
    request to the backend, or to its end (an error nobody catches is
    dropped). *)
Fixpoint perform (p : Prog unit) (s : State) : State :=
  match p with
  | Ret _ => s
  | Throw _ => s
  | Vis ev k =>
      match sync_answer ev s with
      | Some x => perform (k x) (apply_sync ev x s)
      | None => park (Parked ev k) s
      end
  end.

(** The dependency array of the timer effect:
    [[testSession, isTimeExpired, submitting]]. *)
Definition deps (v : TestTaking.View) : option TestSession * bool * bool :=
  (TestTaking.testSession v, TestTaking.isTimeExpired v, TestTaking.submitting v).

Section Runtime.

Variable autoGradeMCQ : list Question -> gmap string string -> Z.
Variable roundPercent : Z -> Z -> Z.

(** After a task React renders; when a dependency of the timer effect
    changed, its clean-up clears the interval and the effect runs again
    with the handlers of the new render. Unmounting runs the clean-up. *)
Definition render (s : State) : State :=
  if mounted s then
    if bool_decide (deps (view s) = effect_deps s) then s
    else mkState (view s)
           (TestTaking.timerEffect autoGradeMCQ roundPercent (view s))
           (deps (view s)) (parked s) true (world s) (log s)
  else mkState (view s) None (effect_deps s) (parked s) false (world s) (log s).

(** What can happen next: the interval fires, the student clicks the
    submit button, the backend answers the request a function is parked
    at, or time passes. *)
Inductive Action : Type :=
| Tick
| ClickSubmit
| Respond
| Elapse (ms : Z).

(** An action that is not enabled leaves the page as it is. *)
Definition act (a : Action) (s : State) : State :=
  match a with
  | Tick =>
      match interval s with
      | Some callback => render (perform callback s)
      | None => s
      end
  | ClickSubmit =>
      if mounted s && TestTaking.submitButtonEnabled (view s)
      then render (perform (TestTaking.handleSubmit autoGradeMCQ roundPercent (view s)) s)
      else s
  | Respond =>
      match parked s with
      | Parked ev k :: others =>
          let answer := Backend.backend _ ev (world s) in
          render
            (perform (k answer.1)
               (mkState (view s) (interval s) (effect_deps s) others (mounted s)
                  answer.2 (Observed ev answer.1 :: log s)))
      | [] => s
      end
  | Elapse ms =>
      mkState (view s) (interval s) (effect_deps s) (parked s) (mounted s)
        (Backend.advance ms (world s)) (log s)
  end.

Definition step (s s' : State) : Prop := exists a, s' = act a s.

Definition drive (script : list Action) (s : State) : State :=
  fold_left (fun s a => act a s) script s.

(** The page once [initializeTest] has stored the session: rendered, no
    submission in flight. *)
Definition started (v : TestTaking.View) (w : Backend.World) : State :=
  mkState v (TestTaking.timerEffect autoGradeMCQ roundPercent v) (deps v) [] true w [].

End Runtime.

(** *** Reading the log *)

Definition is_finalize_start (o : Obs) : bool :=
  match o with
  | Observed (Ui (SetSubmitting true)) _ => true
  | _ => false
  end.

Definition is_finalize_failure (o : Obs) : bool :=
  match o with
  | Observed (Ui (SetError _)) _ => true
  | _ => false
  end.

Definition is_expiry (o : Obs) : bool :=
  match o with
  | Observed (Ui (SetIsTimeExpired true)) _ => true
  | _ => false
  end.

(** How often [submitTest] started (its first statement after the guard is
    [setSubmitting(true)]), how often it failed (only its catch block calls
    [setError] once the page runs), and how often a tick found the time
    expired. *)
Definition finalize_starts (l : list Obs) : nat :=
  length (List.filter is_finalize_start l).

Definition finalize_failures (l : list Obs) : nat :=
  length (List.filter is_finalize_failure l).

Definition expiries (l : list Obs) : nat :=
  length (List.filter is_expiry l).

(** *** What a resumed [submitTest] does to the page *)

(** A request to the backend, as opposed to a call answered on the spot. *)
Definition is_request {X : Type} (ev : Ev X) : bool :=
  match ev with
  | Ui _ => false
  | DateNow => false
  | Confirm _ => false
  | _ => true
  end.

(** What no part of [submitTest] touches once it has started. *)
Definition same_page (s s' : State) : Prop :=
  TestTaking.testSession (view s') = TestTaking.testSession (view s)
  /\ TestTaking.isTimeExpired (view s') = TestTaking.isTimeExpired (view s)
  /\ interval s' = interval s
  /\ effect_deps s' = effect_deps s
  /\ world s' = world s
  /\ finalize_starts (log s') = finalize_starts (log s)
  /\ expiries (log s') = expiries (log s).

(** The task ended in the catch block: the error is shown and
    [submitting] is false again. *)
Definition fails (s s' : State) : Prop :=
  same_page s s'
  /\ parked s' = parked s
  /\ mounted s' = mounted s
  /\ TestTaking.submitting (view s') = false
  /\ finalize_failures (log s') = S (finalize_failures (log s)).

(** The task ended with [navigate]: the page is left. *)
Definition succeeds (s s' : State) : Prop :=
  same_page s s'
  /\ parked s' = parked s
  /\ mounted s' = false
  /\ TestTaking.submitting (view s') = false
  /\ finalize_failures (log s') = finalize_failures (log s).

(** The task is parked at another request. *)
Definition parks_again (P : Suspended -> Prop) (s s' : State) : Prop :=
  same_page s s'
  /\ (exists p, parked s' = p :: parked s /\ P p)
  /\ mounted s' = mounted s
  /\ TestTaking.submitting (view s') = TestTaking.submitting (view s)
  /\ finalize_failures (log s') = finalize_failures (log s).

(** A parked [submitTest] that comes to its end after at most [n] further
    requests. *)
Fixpoint settles (n : nat) (p : Suspended) : Prop :=
  match p with
  | Parked ev k =>
      is_request ev = true
      /\ forall x s,
           fails s (perform (k x) s)
           \/ succeeds s (perform (k x) s)
           \/ match n with
              | O => False
              | S m => parks_again (settles m) s (perform (k x) s)
              end
  end.

Section Invariant.

Variable autoGradeMCQ : list Question -> gmap string string -> Z.
Variable roundPercent : Z -> Z -> Z.

(** What holds of the page between two tasks. *)
Record Inv (s : State) : Prop := mkInv {
  inv_deps : mounted s = true -> effect_deps s = deps (view s);
  inv_interval :
    forall callback, interval s = Some callback ->
      mounted s = true /\ parked s = []
      /\ TestTaking.isTimeExpired (view s) = false
      /\ TestTaking.submitting (view s) = false
      /\ exists v session,
           TestTaking.testSession v = Some session
           /\ callback = TestTaking.timerCallback autoGradeMCQ roundPercent v session;
  inv_parked :
    parked s = []
    \/ exists p n, parked s = [p] /\ settles n p
                   /\ TestTaking.submitting (view s) = true /\ mounted s = true;
  inv_idle :
    parked s = [] -> mounted s = true ->
    TestTaking.submitting (view s) = false
    /\ finalize_starts (log s) = finalize_failures (log s);
  inv_busy :
    parked s <> [] -> finalize_starts (log s) = S (finalize_failures (log s));
  inv_left :
    mounted s = false ->
    parked s = [] /\ interval s = None
    /\ (finalize_starts (log s) <= S (finalize_failures (log s)))%nat;
  inv_expiry :
    (expiries (log s) <= 1)%nat
    /\ (TestTaking.isTimeExpired (view s) = false -> expiries (log s) = 0%nat)
}.

(** What holds of the page at the end of a task, before React renders:
    as [Inv], except that the interval is in order only if the timer effect
    is not about to run again. *)
Record PreInv (s : State) : Prop := mkPreInv {
  pre_interval :
    forall callback, interval s = Some callback ->
      mounted s = true -> deps (view s) = effect_deps s ->
      parked s = []
      /\ TestTaking.isTimeExpired (view s) = false
      /\ TestTaking.submitting (view s) = false
      /\ exists v session,
           TestTaking.testSession v = Some session
           /\ callback = TestTaking.timerCallback autoGradeMCQ roundPercent v session;
  pre_parked :
    parked s = []
    \/ exists p n, parked s = [p] /\ settles n p
                   /\ TestTaking.submitting (view s) = true /\ mounted s = true;
  pre_idle :
    parked s = [] -> mounted s = true ->
    TestTaking.submitting (view s) = false
    /\ finalize_starts (log s) = finalize_failures (log s);
  pre_busy :
    parked s <> [] -> finalize_starts (log s) = S (finalize_failures (log s));
  pre_left :
    mounted s = false ->
    parked s = []
    /\ (finalize_starts (log s) <= S (finalize_failures (log s)))%nat;
  pre_expiry :
    (expiries (log s) <= 1)%nat
    /\ (TestTaking.isTimeExpired (view s) = false -> expiries (log s) = 0%nat)
}.

End Invariant.

(** *** Counting the runs of [submitTest] *)

(** A run that failed has left its error on the page ([setError] is never
    undone), so the error view is rendered in place of the questions. *)
Definition error_shown (s : State) : Prop :=
  finalize_failures (log s) <> 0%nat ->
  is_Some (TestTaking.errorState (view s)).

(** No click can start a run: a run has failed, the page is left, or a run
    is in flight. *)
Definition blocked (s : State) : Prop :=
  finalize_failures (log s) <> 0%nat \/ mounted s = false \/ parked s <> [].

(** At most one run was not started by an expiry tick, and once there is
    one no click can start another. *)
Record Counted (s : State) : Prop := mkCounted {
  counted_error : error_shown s;
  counted_manual : (finalize_starts (log s) <= S (expiries (log s)))%nat;
  counted_blocked : finalize_starts (log s) = S (expiries (log s)) -> blocked s
}.

End Driver.

(** Every start of [submitTest] in the trace comes after a
    [clearInterval]; [cleared] tells whether one has been seen. *)
Fixpoint cleared_before (cleared : bool) (tr : list Obs) : bool :=
  match tr with
  | [] => true
  | Observed (Ui ClearInterval) _ :: rest => cleared_before true rest
  | Observed (Ui (SetSubmitting true)) _ :: rest =>
      cleared && cleared_before cleared rest
  | _ :: rest => cleared_before cleared rest
  end.

(** The page of [running_view], where the submission insert will be
    rejected. *)
Definition page_rejecting_submission : Driver.State :=
  Driver.started (fun _ _ => 0) (fun _ _ => 0) running_view world_rejecting_submission.

(** A manual submit whose submission insert is rejected, and the expiry
    tick 100 ms later. *)
Definition failed_submit_then_expiry : list Driver.Action :=
  [Driver.ClickSubmit; Driver.Respond; Driver.Respond; Driver.Elapse 100;
   Driver.Tick].

(* ===================================================================== *)
(** ** Further readers of a run and example stores *)
(* ===================================================================== *)

(** A second running session of the same pair, and a store that holds
    both (which the uniqueness constraint of the store excludes). *)
Definition second_running_session : TestSession :=
  mkTestSession "ts-2" "A" "S" 700 None 30 false 700.

Definition world_with_two_running_sessions : Backend.World :=
  Backend.mkWorld [running_session; second_running_session] [] 1000
    (Some (mkAuthUser "S")) true [] [] [].

(** The student answered a [window.confirm] with OK. *)
Definition confirmed (o : Obs) : bool :=
  match o with
  | Observed ev x =>
      match ev in Ev X return X -> bool with
      | Confirm _ => fun ok => ok
      | _ => fun _ => false
      end x
  end.

(** *** Reading a time display back *)

(** The value of a decimal digit. *)
Definition digitValue (c : ascii) : option Z :=
  let n := Z.of_nat (nat_of_ascii c) in
  if (48 <=? n) && (n <=? 57) then Some (n - 48) else None.

(** The seconds a display such as [1h 2m 05s] stands for: decimal numbers,
    each followed by its unit [h], [m] or [s], separated by blanks.
    [total] is the value read so far and [number] the number being read;
    any other text is not a time display. *)
Fixpoint readDisplay (total : Z) (number : option Z) (s : string) : option Z :=
  match s with
  | EmptyString =>
      match number with
      | None => Some total
      | Some _ => None
      end
  | String c rest =>
      match digitValue c with
      | Some d => readDisplay total (Some (default 0 number * 10 + d)) rest
      | None =>
          match number with
          | Some n =>
              if Ascii.eqb c "h" then readDisplay (total + n * 3600) None rest
              else if Ascii.eqb c "m" then readDisplay (total + n * 60) None rest
              else if Ascii.eqb c "s" then readDisplay (total + n) None rest
              else None
          | None =>
              if Ascii.eqb c " " then readDisplay total None rest else None
          end
      end
  end.

Definition displayedSeconds (s : string) : option Z := readDisplay 0 None s.

(** The store with the running session of student S alone, the assessment
    A of 30 minutes and no questions. *)
Definition tables_with_running_session : Tables.World :=
  Tables.mkWorld
    (Backend.mkWorld [running_session] [] 1000 (Some (mkAuthUser "S")) true
       [] [] [])
    {[ "A" := TestTaking.mkAssessment 30 ]} ∅.

(** A property of every run of a script, whatever the environment
    answers. *)
Fixpoint every_run {E : Type -> Type} {R : Type}
    (P : list (Call E) -> Outcome R -> Prop) (p : Script E R) : Prop :=
  match p with
  | Done r => P [] (Returned r)
  | Raise e => P [] (Thrown e)
  | Ask ev k => forall x, every_run (fun tr o => P (Called ev x :: tr) o) (k x)
  end.

(** The calls of a program of the session protocol, as the calls of the
    page. *)
Definition page_call (o : Obs) : Call TestTaking.PageEv :=
  match o with
  | Observed ev x => Called (TestTaking.Protocol ev) x
  end.

(** The same store half a second after the 30 minutes of
    [running_session] are over. *)
Definition tables_after_the_deadline : Tables.World :=
  Tables.mkWorld
    (Backend.mkWorld [running_session] [] 1801000 (Some (mkAuthUser "S")) true
       [] [] [])
    {[ "A" := TestTaking.mkAssessment 30 ]} ∅.

(** The store without sessions. *)
Definition tables_without_sessions : Tables.World :=
  Tables.mkWorld empty_world {[ "A" := TestTaking.mkAssessment 30 ]} ∅.

(* ===================================================================== *)
(** ** Properties of the time authority *)
(* ===================================================================== *)

Lemma ceil_of_remaining (total elapsedMs : Z) :
  Math_ceil_div (Z.max 0 (total * 1000 - elapsedMs)) 1000
  = Z.max 0 (total - elapsedMs / 1000).
Proof.
  unfold Math_ceil_div.
  pose proof (Z.div_mod elapsedMs 1000 ltac:(lia)) as Hdm.
  pose proof (Z.mod_pos_bound elapsedMs 1000 ltac:(lia)) as Hb.
  set (q := elapsedMs / 1000) in *. set (r := elapsedMs mod 1000) in *.
  destruct (Z.max_spec 0 (total * 1000 - elapsedMs)) as [[Hlt ->] | [Hge ->]].
  - assert (Hq : q < total) by nia.
    rewrite Z.max_r by lia.
    assert (Hdiv : (- (total * 1000 - elapsedMs)) / 1000 = q - total).
    { symmetry. apply (Z.div_unique _ 1000 (q - total) r); lia. }
    rewrite Hdiv. lia.
  - assert (Hq : total <= q) by nia.
    rewrite Z.max_l by lia. reflexivity.
Qed.

Lemma utils_remaining_formula (s : TestSession) (now : Z) :
  Utils.calculateRemainingTime s now
  = remainingSeconds_spec (duration_minutes s) (started_at s) now.
Proof.
  unfold Utils.calculateRemainingTime, remainingSeconds_spec. cbv zeta.
  replace (started_at s + duration_minutes s * 60 * 1000 - now)
    with ((duration_minutes s * 60) * 1000 - (now - started_at s)) by lia.
  apply ceil_of_remaining.
Qed.

(** C3. For every session and instant, the remaining time the driver reads
    (src/utils/testTimer.ts, and likewise src/components/testTimer.ts) is
    [max(0, durationMinutes*60 - floor((now - startedAt)/1000))], a
    non-negative whole number; a 30-minute session started at [T] has 1
    second left at [T + 29min59s] and 0 at [T + 30min], where it is
    expired. *)
Theorem C3_remaining_seconds :
  (forall (s : TestSession) (now : Z),
      Utils.calculateRemainingTime s now
        = remainingSeconds_spec (duration_minutes s) (started_at s) now
      /\ Components.calculateRemainingTime s now
        = remainingSeconds_spec (duration_minutes s) (started_at s) now
      /\ 0 <= Utils.calculateRemainingTime s now
      /\ (Utils.isTimeExpired s now = true
          <-> remainingSeconds_spec (duration_minutes s) (started_at s) now = 0))
  /\ (forall T : Z,
      Utils.calculateRemainingTime (session30 T) (T + (29 * 60 + 59) * 1000) = 1
      /\ Utils.calculateRemainingTime (session30 T) (T + 30 * 60 * 1000) = 0
      /\ Utils.isTimeExpired (session30 T) (T + 30 * 60 * 1000) = true
      /\ Utils.isTimeExpired (session30 T) (T + (29 * 60 + 59) * 1000) = false).
Proof.
  split.
  - intros s now. pose proof (utils_remaining_formula s now) as Hu.
    repeat split.
    + exact Hu.
    + rewrite Hu. unfold remainingSeconds_spec. lia.
    + unfold Utils.isTimeExpired. cbv zeta. rewrite Hu.
      unfold remainingSeconds_spec. intros H%Z.leb_le. lia.
    + unfold Utils.isTimeExpired. cbv zeta. rewrite Hu.
      intros ->. reflexivity.
  - intros T.
    assert (E1 : Utils.calculateRemainingTime (session30 T)
                   (T + (29 * 60 + 59) * 1000) = 1).
    { rewrite utils_remaining_formula. unfold remainingSeconds_spec. simpl.
      replace (T + (29 * 60 + 59) * 1000 - T) with 1799000 by lia.
      reflexivity. }
    assert (E2 : Utils.calculateRemainingTime (session30 T)
                   (T + 30 * 60 * 1000) = 0).
    { rewrite utils_remaining_formula. unfold remainingSeconds_spec. simpl.
      replace (T + 30 * 60 * 1000 - T) with 1800000 by lia.
      reflexivity. }
    unfold Utils.isTimeExpired. cbv zeta. rewrite E1, E2. done.
Qed.

(** C10. The two [calculateRemainingTime] implementations agree on every
    session and every instant (whole milliseconds). *)
Theorem C10_remaining_time_versions_agree (s : TestSession) (now : Z) :
  Utils.calculateRemainingTime s now
  = Components.calculateRemainingTime s now.
Proof.
  rewrite utils_remaining_formula. reflexivity.
Qed.

(* ===================================================================== *)
(** ** Programs and environments *)
(* ===================================================================== *)

Lemma always_run {W R : Type} (h : Handler W) (p : Prog R) :
  forall (P : list Obs -> Outcome R -> Prop) (w : W),
    always P p -> P (trace (run h p w)) (outcome (run h p w)).
Proof.
  induction p as [r | e | X ev k IH]; intros P w HP; simpl in *; auto.
  apply (IH _ (fun tr o => P (Observed ev (h X ev w).1 :: tr) o)). apply HP.
Qed.

Lemma always_impl {R : Type} (p : Prog R) :
  forall (P Q : list Obs -> Outcome R -> Prop),
    (forall tr o, P tr o -> Q tr o) -> always P p -> always Q p.
Proof.
  induction p as [r | e | X ev k IH]; intros P Q HPQ HP; simpl in *; auto.
  intros x. eapply IH; [ | apply HP ]. simpl. auto.
Qed.

Lemma always_vacuous {R : Type} (p : Prog R) :
  forall P : list Obs -> Outcome R -> Prop,
    (forall tr o, P tr o) -> always P p.
Proof.
  induction p as [r | e | X ev k IH]; intros P HP; simpl; auto.
Qed.

Lemma always_bind {A B : Type} (p : Prog A) (f : A -> Prog B) :
  forall P : list Obs -> Outcome B -> Prop,
    always (fun tr o =>
              match o with
              | Returned a => always (fun tr' o' => P (tr ++ tr') o') (f a)
              | Thrown e => P tr (Thrown e)
              end) p ->
    always P (bind p f).
Proof.
  induction p as [r | e | X ev k IH]; intros P HP; simpl in *; auto.
Qed.

Lemma always_rethrow {A : Type} (p : Prog A) :
  forall P : list Obs -> Outcome A -> Prop,
    always P p -> always P (try_catch p (fun e => Throw e)).
Proof.
  induction p as [r | e | X ev k IH]; intros P HP; simpl in *; auto.
Qed.

(** Symbolic execution of a program under [always]: take the next answer
    apart, decide the tests that depend on it, and stop where the property
    no longer depends on what follows (the conditions on the answers are
    violated, or the conclusion is already decided). *)
Ltac answer :=
  match goal with
  | |- forall _ : AuthResponse, _ => intros [[?|] [?|]]
  | |- forall _ : PgResponse _, _ => intros [[?|] [?|]]
  | |- forall _ : unit, _ => intros []
  | |- forall _ : Z, _ => intros ?
  | |- forall _ : bool, _ => intros []
  end.

Ltac decide_test :=
  match goal with
  | |- context [Utils.isConflict ?e] =>
      let E := fresh "Hconflict" in destruct (Utils.isConflict e) eqn:E
  | |- context [bool_decide (code ?e = Some ?c)] =>
      destruct (bool_decide (code e = Some c))
  | |- context [Z.ltb ?a 3] => destruct (Z.ltb a 3)
  end.

Ltac settled :=
  solve [ apply always_vacuous; simpl; intros;
          first [ discriminate | repeat split; reflexivity ] ].

Ltac exec :=
  repeat first [ settled | answer | progress simpl | decide_test ].

(* ===================================================================== *)
(** ** The session resolver of src/utils/testTimer.ts *)
(* ===================================================================== *)

Section Resolver.

Variables (assessmentId uid : string) (durationMinutes : Z).

Lemma waits_app (tr tr' : list Obs) : waits (tr ++ tr') = waits tr ++ waits tr'.
Proof.
  induction tr as [| [X ev x] tr IH]; simpl; [ reflexivity | ].
  destruct ev; simpl; congruence.
Qed.

Lemma attemptBody_bounds (attempt : Z) (lastError : option JsError) :
  always (fun tr o =>
            (creation_attempts tr <= 1)%nat /\ (length tr <= 4)%nat
            /\ (waits tr = [] \/ waits tr = [Utils.backoffMs attempt])
            /\ forall e, o <> Thrown e)
    (Utils.attemptBody assessmentId uid durationMinutes attempt lastError).
Proof.
  unfold Utils.attemptBody, Utils.activeSessionQuery, call, creation_attempts.
  exec.
  all: repeat split; try lia; try congruence; auto.
Qed.

Lemma finalRetrieval_bounds (session : option TestSession)
    (lastError : option JsError) :
  always (fun tr o => (creation_attempts tr <= 0)%nat /\ (length tr <= 1)%nat
                      /\ waits tr = [])
    (Utils.finalRetrieval assessmentId uid session lastError).
Proof.
  unfold Utils.finalRetrieval, Utils.activeSessionQuery, call, creation_attempts.
  destruct session; exec; auto.
Qed.

Lemma creationLoop_bounds (remaining : nat) :
  forall (attempt : Z) (lastError : option JsError),
    always (fun tr o =>
              (creation_attempts tr <= remaining)%nat
              /\ (length tr <= 4 * remaining + 1)%nat
              /\ sublist (waits tr) (backoffs attempt remaining))
      (Utils.creationLoop assessmentId uid durationMinutes remaining attempt
         lastError).
Proof.
  induction remaining as [| n IH]; intros attempt lastError.
  - cbn [Utils.creationLoop].
    eapply always_impl; [ | apply finalRetrieval_bounds ].
    simpl. intros tr o (H1 & H2 & ->). repeat split; try lia. constructor.
  - cbn [Utils.creationLoop]. apply always_bind.
    eapply always_impl; [ | apply attemptBody_bounds ].
    intros tr o (Hc & Hl & Hw & Hthrow). destruct o as [ctl | e].
    2: { exfalso. eapply Hthrow. reflexivity. }
    assert (Happ : forall tr', creation_attempts (tr ++ tr')
              = (creation_attempts tr + creation_attempts tr')%nat).
    { intros tr'. unfold creation_attempts.
      rewrite List.filter_app, length_app. reflexivity. }
    assert (Hsub : forall l, sublist l (backoffs (attempt + 1) n) ->
              sublist (waits tr ++ l) (backoffs attempt (S n))).
    { intros l Hl'. cbn [backoffs]. destruct Hw as [-> | ->]; simpl.
      - apply sublist_cons. exact Hl'.
      - apply sublist_skip. exact Hl'. }
    destruct ctl as [lastErr | s lastErr | s].
    + eapply always_impl; [ | apply IH ]. simpl.
      intros tr' o' (H1 & H2 & H3). rewrite Happ, length_app, waits_app.
      repeat split; try lia. apply Hsub. exact H3.
    + eapply always_impl; [ | apply finalRetrieval_bounds ]. simpl.
      intros tr' o' (H1 & H2 & H3). rewrite Happ, length_app, waits_app.
      repeat split; try lia. apply Hsub. rewrite H3. apply sublist_nil_l.
    + simpl. rewrite app_nil_r. repeat split; try lia.
      rewrite <- (app_nil_r (waits tr)). apply Hsub. apply sublist_nil_l.
Qed.

End Resolver.

Lemma getOrCreateTestSession_bounds (assessmentId : string) (durationMinutes : Z) :
  always (fun tr o => (creation_attempts tr <= 3)%nat /\ (length tr <= 15)%nat
                      /\ sublist (waits tr) [200; 400; 800])
    (Utils.getOrCreateTestSession assessmentId durationMinutes).
Proof.
  unfold Utils.getOrCreateTestSession. apply always_rethrow.
  unfold Utils.activeSessionQuery, call. cbn [bind always].
  intros [[u|] ae]; cbn [user always bind].
  2: { unfold creation_attempts. simpl. repeat split; try lia. apply sublist_nil_l. }
  intros [d e]. cbn [data error].
  set (lookup := Observed (SelectSessions
                   [EqAssessmentId assessmentId; EqStudentId (user_id u);
                    EqIsCompleted false] MaybeSingle) (mkPgResponse d e)).
  set (auth := Observed AuthGetUser (mkAuthResponse (Some u) ae)).
  assert (Hloop : always (fun tr o =>
            (creation_attempts (auth :: lookup :: tr) <= 3)%nat
            /\ (length (auth :: lookup :: tr) <= 15)%nat
            /\ sublist (waits (auth :: lookup :: tr)) [200; 400; 800])
          (match d with
           | Some existingSession => Ret existingSession
           | None => Utils.creationLoop assessmentId (user_id u) durationMinutes
                       3 1 None
           end)).
  { destruct d as [s|].
    - unfold creation_attempts. simpl. repeat split; try lia. apply sublist_nil_l.
    - eapply always_impl; [ | apply creationLoop_bounds ].
      unfold creation_attempts. simpl. intros tr o (H1 & H2 & H3).
      repeat split; try lia. exact H3. }
  destruct e as [fe|]; [ | exact Hloop ].
  destruct (negb (bool_decide (code fe = Some "PGRST116"))); [ | exact Hloop ].
  unfold creation_attempts. simpl. repeat split; try lia. apply sublist_nil_l.
Qed.

Lemma getOrCreateTestSession_conflicts (assessmentId : string) (durationMinutes : Z) :
  always (fun tr o =>
            forallb authenticated tr = true ->
            forallb finds_nothing tr = true ->
            forallb creation_conflicts tr = true ->
            map call_name tr
              = [CAuthGetUser; CSelectSessions;
                 CDateNow; CInsertSession; CSetTimeout; CSelectSessions;
                 CDateNow; CInsertSession; CSetTimeout; CSelectSessions;
                 CDateNow; CInsertSession; CSetTimeout; CSelectSessions;
                 CSelectSessions]
            /\ waits tr = [200; 400; 800]
            /\ exists e, last (creation_errors tr) = Some e /\ o = Thrown e)
    (Utils.getOrCreateTestSession assessmentId durationMinutes).
Proof.
  unfold Utils.getOrCreateTestSession, Utils.creationLoop, Utils.attemptBody,
    Utils.finalRetrieval, Utils.activeSessionQuery, call.
  exec.
  all: intros H1 H2 H3; try discriminate.
  all: repeat split; try reflexivity; eauto.
Qed.




Lemma getOrCreateTestSession_first_failure (assessmentId : string)
    (durationMinutes : Z) :
  always (fun tr o =>
            first_creation_fails_otherwise tr = true ->
            take 7 (map call_name tr)
              = [CAuthGetUser; CSelectSessions; CDateNow; CInsertSession;
                 CSetTimeout; CDateNow; CInsertSession]
            /\ head (waits tr) = Some 200)
    (Utils.getOrCreateTestSession assessmentId durationMinutes).
Proof.
  unfold Utils.getOrCreateTestSession, Utils.creationLoop, Utils.attemptBody,
    Utils.finalRetrieval, Utils.activeSessionQuery, call.
  exec.
  all: intros H; discriminate.
Qed.

Lemma getOrCreateTestSession_other_errors (assessmentId : string)
    (durationMinutes : Z) :
  always (fun tr o =>
            forallb authenticated tr = true ->
            forallb finds_nothing tr = true ->
            forallb creation_fails_otherwise tr = true ->
            map call_name tr
              = [CAuthGetUser; CSelectSessions;
                 CDateNow; CInsertSession; CSetTimeout;
                 CDateNow; CInsertSession; CSetTimeout;
                 CDateNow; CInsertSession;
                 CSelectSessions]
            /\ waits tr = [200; 400]
            /\ exists e, last (creation_errors tr) = Some e /\ o = Thrown e)
    (Utils.getOrCreateTestSession assessmentId durationMinutes).
Proof.
  unfold Utils.getOrCreateTestSession, Utils.creationLoop, Utils.attemptBody,
    Utils.finalRetrieval, Utils.activeSessionQuery, call.
  exec.
  all: intros H1 H2 H3; try discriminate.
  all: repeat split; try reflexivity; eauto.
Qed.



(* ===================================================================== *)
(** ** The session resolver of src/components/testTimer.ts *)
(* ===================================================================== *)

(** C9, as stated, fails in its last part: when the store rejects the
    creation with a conflict, the retry-less resolver does not surface that
    error; it throws a new [Error('Failed to create test session')]. *)
Lemma C9_counterexample :
  let r := run Backend.backend (Components.getOrCreateTestSession "A" 30 None)
             (world_rejecting [Backend.unique_violation]) in
  creation_errors (trace r) = [Backend.unique_violation]
  /\ Utils.isConflict Backend.unique_violation = true
  /\ outcome r <> Thrown Backend.unique_violation
  /\ outcome r = Thrown (new_Error "Failed to create test session").
Proof.
  cbv zeta. repeat split; try reflexivity. vm_compute. discriminate.
Qed.

Lemma components_no_retry (assessmentId : string) (durationMinutes : Z)
    (studentId : option string) :
  always (fun tr o =>
            waits tr = [] /\ (creation_attempts tr <= 1)%nat
            /\ (lookups tr <= 1)%nat)
    (Components.getOrCreateTestSession assessmentId durationMinutes studentId).
Proof.
  unfold Components.getOrCreateTestSession, call, creation_attempts, lookups.
  exec. all: repeat split; lia.
Qed.

Lemma components_rejected_creation (assessmentId : string) (durationMinutes : Z)
    (studentId : option string) :
  always (fun tr o =>
            forallb authenticated_without_error tr = true ->
            forallb lookup_without_row tr = true ->
            forallb creation_rejected tr = true ->
            map call_name tr
              = [CAuthGetUser; CSelectSessions; CDateNow; CInsertSession]
            /\ o = Thrown (new_Error "Failed to create test session"))
    (Components.getOrCreateTestSession assessmentId durationMinutes studentId).
Proof.
  unfold Components.getOrCreateTestSession, call.
  exec. all: intros H1 H2 H3; try discriminate; auto.
Qed.

(** C9, amended. The retry-less [getOrCreateTestSession] never waits, makes
    at most one creation attempt and at most one look-up; whenever the
    look-up returns no row and the creation is rejected (a conflict
    included), it fails at once, throwing a new
    [Error('Failed to create test session')] in place of the store's
    error. *)
Theorem C9_retryless_resolver_fails_at_once (W : Type) (h : Handler W) (w : W)
    (assessmentId : string) (durationMinutes : Z) (studentId : option string) :
  let r := run h (Components.getOrCreateTestSession assessmentId durationMinutes
                    studentId) w in
  waits (trace r) = []
  /\ (creation_attempts (trace r) <= 1)%nat
  /\ (lookups (trace r) <= 1)%nat
  /\ (forallb authenticated_without_error (trace r) = true ->
      forallb lookup_without_row (trace r) = true ->
      forallb creation_rejected (trace r) = true ->
      map call_name (trace r)
        = [CAuthGetUser; CSelectSessions; CDateNow; CInsertSession]
      /\ outcome r = Thrown (new_Error "Failed to create test session")).
Proof.
  cbv zeta.
  pose proof (always_run h _ _ w
    (components_no_retry assessmentId durationMinutes studentId)) as (H1 & H2 & H3).
  pose proof (always_run h _ _ w
    (components_rejected_creation assessmentId durationMinutes studentId)) as H4.
  auto.
Qed.

(** Witness of C9, amended: the store answers the creation with a conflict. *)
Lemma C9_retryless_resolver_fails_at_once_witness :
  outcome (run Backend.backend (Components.getOrCreateTestSession "A" 30 None)
             (world_rejecting [Backend.unique_violation]))
  = Thrown (new_Error "Failed to create test session").
Proof.
  destruct (C9_retryless_resolver_fails_at_once _ Backend.backend
              (world_rejecting [Backend.unique_violation]) "A" 30 None)
    as (_ & _ & _ & H).
  destruct H as [_ H]; [reflexivity | reflexivity | reflexivity | exact H].
Defined.

(* ===================================================================== *)
(** ** The resolver against the remote data service *)
(* ===================================================================== *)

Lemma unique_active_filter (rows : list TestSession) (a s : string)
    (r : TestSession) :
  Backend.unique_active rows -> r ∈ rows -> Backend.active_for a s r = true ->
  List.filter (Backend.active_for a s) rows = [r].
Proof.
  intros Hu Hin Hact. specialize (Hu a s).
  assert (Hr : In r (List.filter (Backend.active_for a s) rows)).
  { apply filter_In. split; [ by apply list_elem_of_In | exact Hact ]. }
  destruct (List.filter (Backend.active_for a s) rows) as [| x [| y l]];
    simpl in *; [ tauto | | lia ].
  destruct Hr as [-> | []]. reflexivity.
Qed.

(** C6. When the store holds the non-completed session of the signed-in
    student for the assessment, [getOrCreateTestSession] returns that row
    after the identity call and one look-up, without a creation attempt and
    without changing the store; a second call returns the same row
    again. *)
Theorem C6_existing_session_is_resumed (w : Backend.World)
    (assessmentId : string) (durationMinutes : Z) (u : AuthUser)
    (s : TestSession) :
  Backend.identity w = Some u ->
  Backend.unique_active (Backend.sessions w) ->
  s ∈ Backend.sessions w ->
  Backend.active_for assessmentId (user_id u) s = true ->
  let r1 := run Backend.backend
              (Utils.getOrCreateTestSession assessmentId durationMinutes) w in
  let r2 := run Backend.backend
              (Utils.getOrCreateTestSession assessmentId durationMinutes)
              (final r1) in
  outcome r1 = Returned s
  /\ map call_name (trace r1) = [CAuthGetUser; CSelectSessions]
  /\ creation_attempts (trace r1) = 0%nat
  /\ final r1 = w
  /\ outcome r2 = Returned s
  /\ creation_attempts (trace r2) = 0%nat
  /\ Backend.sessions (final r2) = Backend.sessions w.
Proof.
  intros Hid Huniq Hin Hact.
  pose proof (unique_active_filter _ _ _ _ Huniq Hin Hact) as Hf.
  assert (Hrun : run Backend.backend
            (Utils.getOrCreateTestSession assessmentId durationMinutes) w
          = mkRunResult (Returned s) w
              [Observed AuthGetUser (mkAuthResponse (Some u) None);
               Observed (Utils.activeSessionQuery assessmentId (user_id u))
                 (mkPgResponse (Some s) None)]).
  { unfold Utils.getOrCreateTestSession, Utils.activeSessionQuery, call.
    cbn [run bind try_catch Backend.backend fst snd]. rewrite Hid.
    cbn [user run bind try_catch Backend.backend fst snd
         Backend.select_sessions].
    change (Backend.matches
              [EqAssessmentId assessmentId; EqStudentId (user_id u);
               EqIsCompleted false])
      with (Backend.active_for assessmentId (user_id u)).
    rewrite Hf. reflexivity. }
  cbv zeta. rewrite Hrun. cbn [final outcome trace]. rewrite Hrun.
  repeat split; reflexivity.
Qed.

(** Witness of C6: the store of [world_with_running_session]. *)
Lemma C6_existing_session_is_resumed_witness :
  outcome (run Backend.backend (Utils.getOrCreateTestSession "A" 30)
             world_with_running_session)
  = Returned running_session.
Proof.
  refine (proj1 (C6_existing_session_is_resumed world_with_running_session
                   "A" 30 (mkAuthUser "S") running_session _ _ _ _)).
  - reflexivity.
  - intros a s. unfold world_with_running_session.
    cbn [Backend.sessions List.filter].
    assert (Hfin : Backend.active_for a s finished_session = false).
    { unfold Backend.active_for, Backend.matches. simpl.
      rewrite !andb_false_r. reflexivity. }
    rewrite Hfin.
    destruct (Backend.active_for a s running_session); simpl; lia.
  - unfold world_with_running_session. cbn. set_solver.
  - reflexivity.
Defined.

Arguments Backend.matches : simpl never.

Lemma matches_not_completed (conds : list Cond) (s : TestSession) :
  In (EqIsCompleted false) conds -> Backend.matches conds s = true ->
  is_completed s = false.
Proof.
  unfold Backend.matches. intros Hin Hall.
  rewrite forallb_forall in Hall. specialize (Hall _ Hin). simpl in Hall.
  destruct (is_completed s); [ discriminate | reflexivity ].
Qed.

Section ResolverAnswers.

Variables (assessmentId uid : string) (durationMinutes : Z).

Lemma lookup_answers_app (tr tr' : list Obs) :
  lookup_answers (tr ++ tr') = lookup_answers tr ++ lookup_answers tr'.
Proof.
  induction tr as [| [X ev x] tr IH]; simpl; [ reflexivity | ].
  destruct ev; simpl; try exact IH. destruct (data x); simpl; congruence.
Qed.

Lemma keeps_active_bind {A B : Type} (p : Prog A) (f : A -> Prog B)
    (sa : A -> option TestSession) (sb : B -> option TestSession) :
  always (keeps_active sa) p ->
  (forall a, returns_active sa (Returned a) -> always (keeps_active sb) (f a)) ->
  always (keeps_active sb) (bind p f).
Proof.
  intros Hp Hf. apply always_bind. eapply always_impl; [ | exact Hp ].
  intros tr o Hk. destruct o as [a | e].
  - destruct (forallb sound_answer tr) eqn:Hs.
    + destruct (Hk Hs) as [Hl Hr].
      eapply always_impl; [ | apply (Hf a Hr) ].
      intros tr' o' Hk'. unfold keeps_active. rewrite forallb_app, Hs. simpl.
      intros Hs'. destruct (Hk' Hs') as [Hl' Hr']. split; [ | exact Hr' ].
      rewrite lookup_answers_app. apply Forall_app. auto.
    + apply always_vacuous. intros tr' o'. unfold keeps_active.
      rewrite forallb_app, Hs. discriminate.
  - exact Hk.
Qed.

Lemma attemptBody_keeps_active (attempt : Z) (lastError : option JsError) :
  always (keeps_active ctl_session)
    (Utils.attemptBody assessmentId uid durationMinutes attempt lastError).
Proof.
  unfold Utils.attemptBody, Utils.activeSessionQuery, call, keeps_active.
  exec.
  all: rewrite ?andb_true_r; intros H;
    repeat match goal with
           | H : _ && _ = true |- _ => apply andb_prop in H as [? ?]
           end.
  all: split; simpl; auto; repeat constructor.
  all: try (eapply matches_not_completed; [ | eassumption ]; simpl; tauto).
  all: match goal with
       | H : Bool.eqb (is_completed ?s) false = true |- _ =>
           destruct (is_completed s); [ discriminate | reflexivity ]
       end.
Qed.

Lemma finalRetrieval_keeps_active (session : option TestSession)
    (lastError : option JsError) :
  match session with
  | Some s => is_completed s = false
  | None => True
  end ->
  always (keeps_active Some)
    (Utils.finalRetrieval assessmentId uid session lastError).
Proof.
  unfold Utils.finalRetrieval, Utils.activeSessionQuery, call, keeps_active.
  destruct session as [s |]; intros Hs; exec.
  all: rewrite ?andb_true_r; intros H; split; simpl; auto; repeat constructor.
  all: eapply matches_not_completed; [ | eassumption ]; simpl; tauto.
Qed.

Lemma creationLoop_keeps_active (remaining : nat) :
  forall (attempt : Z) (lastError : option JsError),
    always (keeps_active Some)
      (Utils.creationLoop assessmentId uid durationMinutes remaining attempt
         lastError).
Proof.
  induction remaining as [| n IH]; intros attempt lastError;
    cbn [Utils.creationLoop].
  - apply finalRetrieval_keeps_active. exact I.
  - eapply keeps_active_bind; [ apply attemptBody_keeps_active | ].
    intros [lastErr | s lastErr | s] Hr; simpl in Hr.
    + apply IH.
    + apply finalRetrieval_keeps_active. exact Hr.
    + intros _. split; [ constructor | exact Hr ].
Qed.

End ResolverAnswers.

Lemma getOrCreateTestSession_keeps_active (assessmentId : string)
    (durationMinutes : Z) :
  always (keeps_active Some)
    (Utils.getOrCreateTestSession assessmentId durationMinutes).
Proof.
  unfold Utils.getOrCreateTestSession. apply always_rethrow.
  eapply keeps_active_bind with (sa := fun _ => None).
  { unfold call, keeps_active. simpl. intros x _. split; [ constructor | exact I ]. }
  intros [[u |] ae] _; cbn [user].
  2: { intros _. split; [ constructor | exact I ]. }
  unfold Utils.activeSessionQuery, call. cbn [bind always].
  intros [d e]. cbn [data error].
  assert (Hloop : always
            (fun tr o =>
               keeps_active Some
                 (Observed (SelectSessions
                              [EqAssessmentId assessmentId;
                               EqStudentId (user_id u); EqIsCompleted false]
                              MaybeSingle) (mkPgResponse d e) :: tr) o)
            (match d with
             | Some existingSession => Ret existingSession
             | None => Utils.creationLoop assessmentId (user_id u)
                         durationMinutes 3 1 None
             end)).
  { destruct d as [s |].
    - unfold keeps_active. cbn -[Backend.matches]. rewrite andb_true_r.
      intros Hm.
      assert (is_completed s = false)
        by (eapply matches_not_completed; [ | exact Hm ]; simpl; tauto).
      split; [ repeat constructor | ]; assumption.
    - eapply always_impl; [ | apply creationLoop_keeps_active ].
      intros tr o Hk. unfold keeps_active in *. cbn. exact Hk. }
  destruct e as [fe |]; [ | exact Hloop ].
  destruct (negb (bool_decide (code fe = Some "PGRST116"))); [ | exact Hloop ].
  unfold keeps_active. cbn -[Backend.matches].
  destruct d as [s |]; [ | intros _; split; [ constructor | exact I ] ].
  rewrite andb_true_r. intros Hm. split; [ | exact I ].
  repeat constructor. eapply matches_not_completed; [ | exact Hm ]. simpl. tauto.
Qed.

Lemma backend_answers_sound {R : Type} (p : Prog R) :
  forall w : Backend.World,
    forallb sound_answer (trace (run Backend.backend p w)) = true.
Proof.
  induction p as [r | e | X ev k IH]; intros w; [ reflexivity | reflexivity | ].
  cbn [run trace forallb]. rewrite IH, andb_true_r.
  destruct ev; try reflexivity.
  - cbn [Backend.backend Backend.select_sessions fst sound_answer].
    assert (Hf : Forall (fun s => Backend.matches conds s = true)
                   (List.filter (Backend.matches conds) (Backend.sessions w))).
    { apply Forall_forall. intros s Hs.
      apply list_elem_of_In, filter_In in Hs. tauto. }
    destruct (List.filter (Backend.matches conds) (Backend.sessions w))
      as [| s [| s' l]]; destruct card; simpl; try reflexivity.
    all: inversion Hf; assumption.
  - cbn [Backend.backend sound_answer]. unfold Backend.insert_session.
    destruct (Backend.insert_session_faults w); [ | reflexivity ].
    destruct (negb (new_is_completed row) && _); simpl; [ reflexivity | ].
    destruct (new_is_completed row); reflexivity.
Qed.

(** Scenario 3: the student has finished the assessment and reloads the
    page; the look-up does not match the completed session, and the call
    creates a new one. *)
Example reload_after_completion :
  let r := run Backend.backend (Utils.getOrCreateTestSession "A" 30)
             world_with_finished_session in
  lookup_answers (trace r) = []
  /\ outcome r = Returned (mkTestSession "ts-1" "A" "S" 1000 None 30 false 1000).
Proof. vm_compute. auto. Qed.

(** C7. Whatever the store holds, every row a look-up of
    [getOrCreateTestSession] is answered with, and the session the call
    returns, has [is_completed = false]: a completed session is matched by
    no look-up and is never returned. *)
Theorem C7_completed_session_is_never_resumed (w : Backend.World)
    (assessmentId : string) (durationMinutes : Z) :
  let r := run Backend.backend
             (Utils.getOrCreateTestSession assessmentId durationMinutes) w in
  Forall (fun s => is_completed s = false) (lookup_answers (trace r))
  /\ (forall s, outcome r = Returned s -> is_completed s = false)
  /\ (forall c, c ∈ Backend.sessions w -> is_completed c = true ->
               (c ∉ lookup_answers (trace r)) /\ outcome r <> Returned c).
Proof.
  cbv zeta.
  pose proof (always_run Backend.backend _ _ w
    (getOrCreateTestSession_keeps_active assessmentId durationMinutes)) as H.
  destruct (H (backend_answers_sound _ w)) as [Hl Hr].
  assert (Hret : forall s,
             outcome (run Backend.backend
                        (Utils.getOrCreateTestSession assessmentId
                           durationMinutes) w) = Returned s ->
             is_completed s = false).
  { intros s Hs. rewrite Hs in Hr. exact Hr. }
  split; [ exact Hl | split; [ exact Hret | ] ].
  intros c _ Hc. split.
  - intros Hin. rewrite Forall_forall in Hl. specialize (Hl c Hin). congruence.
  - intros Hs. specialize (Hret c Hs). congruence.
Qed.

(* ===================================================================== *)
(** ** The submission finaliser of src/components/TestTaking.tsx *)
(* ===================================================================== *)

(** C8, as stated, fails in one point: when the completion write succeeds
    and the submission insert is rejected, [submitTest] does not raise the
    error to its caller; its catch block reports it and the call returns
    normally. *)
Lemma C8_counterexample :
  let r := run Backend.backend
             (TestTaking.submitTest (fun _ _ => 0) (fun _ _ => 0) running_view false)
             world_rejecting_submission in
  Backend.insert_submission_faults world_rejecting_submission = [permission_denied]
  /\ outcome r <> Thrown permission_denied
  /\ outcome r = Returned tt.
Proof.
  cbv zeta. repeat split; try reflexivity. vm_compute. discriminate.
Qed.

Section Finaliser.

Variable autoGradeMCQ : list Question -> gmap string string -> Z.
Variable roundPercent : Z -> Z -> Z.

Lemma submitTest_completes_first (v : TestTaking.View) (isAutoSubmit : bool) :
  always (fun tr o => completed_before false tr = true)
    (TestTaking.submitTest autoGradeMCQ roundPercent v isAutoSubmit).
Proof.
  unfold TestTaking.submitTest, Utils.completeTestSession, call.
  destruct (TestTaking.testSession v) as [session |]; [ | reflexivity ].
  exec; reflexivity.
Qed.

Lemma submitTest_submission_rejected (w : Backend.World) (v : TestTaking.View)
    (isAutoSubmit : bool) (session : TestSession) (e : JsError)
    (rest : list JsError) :
  TestTaking.testSession v = Some session ->
  Backend.update_session_faults w = [] ->
  Backend.insert_submission_faults w = e :: rest ->
  let r := run Backend.backend
             (TestTaking.submitTest autoGradeMCQ roundPercent v isAutoSubmit) w in
  outcome r = Returned tt
  /\ map call_name (trace r)
     = [CUi (SetSubmitting true); CDateNow; CUpdateSessions; CDateNow;
        CInsertSubmission;
        CUi (SetError ("Error submitting test: " +:+ TestTaking.messageOrUnknown e));
        CUi (Alert "Error submitting test. Please try again.");
        CUi (SetSubmitting false)]
  /\ Backend.sessions (final r)
     = map (fun row => if Backend.matches [EqId (id session)] row
                       then Backend.apply_patch
                              (mkSessionPatch (Backend.clock w) true) row
                       else row)
         (Backend.sessions w)
  /\ Backend.submissions (final r) = Backend.submissions w.
Proof.
  intros Hts Hup Hsub.
  destruct w as [ss subs clk idn conf isf usf issf]. simpl in Hup, Hsub.
  subst usf issf. unfold TestTaking.submitTest. rewrite Hts. cbv zeta.
  repeat split; reflexivity.
Qed.

End Finaliser.

(** C8, amended. [submitTest] issues the completion write
    ([is_completed: true], [submitted_at]) before the submission insert, in
    every environment. When the store accepts the completion and rejects
    the submission insert, the session rows with that id are left
    completed (no roll-back), no submission row is added, the error is
    shown to the user ([setError], [alert]) and [submitTest] returns
    normally to its caller, with [submitting] reset to false. *)
Theorem C8_completion_precedes_submission
    (autoGradeMCQ : list Question -> gmap string string -> Z)
    (roundPercent : Z -> Z -> Z)
    (w : Backend.World) (v : TestTaking.View) (isAutoSubmit : bool)
    (session : TestSession) (e : JsError) (rest : list JsError) :
  TestTaking.testSession v = Some session ->
  Backend.update_session_faults w = [] ->
  Backend.insert_submission_faults w = e :: rest ->
  let r := run Backend.backend
             (TestTaking.submitTest autoGradeMCQ roundPercent v isAutoSubmit) w in
  (forall (W : Type) (h : Handler W) (w' : W),
      completed_before false
        (trace (run h (TestTaking.submitTest autoGradeMCQ roundPercent v
                         isAutoSubmit) w')) = true)
  /\ outcome r = Returned tt
  /\ map call_name (trace r)
     = [CUi (SetSubmitting true); CDateNow; CUpdateSessions; CDateNow;
        CInsertSubmission;
        CUi (SetError ("Error submitting test: " +:+ TestTaking.messageOrUnknown e));
        CUi (Alert "Error submitting test. Please try again.");
        CUi (SetSubmitting false)]
  /\ Backend.submissions (final r) = Backend.submissions w
  /\ length (Backend.sessions (final r)) = length (Backend.sessions w)
  /\ (forall i row, Backend.sessions w !! i = Some row -> id row = id session ->
        exists row', Backend.sessions (final r) !! i = Some row'
                     /\ id row' = id session
                     /\ is_completed row' = true
                     /\ submitted_at row' = Some (Backend.clock w)).
Proof.
  intros Hts Hup Hsub. cbv zeta.
  destruct (submitTest_submission_rejected autoGradeMCQ roundPercent w v
              isAutoSubmit session e rest Hts Hup Hsub) as (Ho & Htr & Hss & Hsubs).
  split.
  { intros W h w'.
    exact (always_run h _ _ w'
             (submitTest_completes_first autoGradeMCQ roundPercent v isAutoSubmit)). }
  repeat split; try assumption.
  - rewrite Hss. apply length_map.
  - intros i row Hrow Hid. rewrite Hss, list_lookup_fmap, Hrow. simpl.
    assert (Hm : Backend.matches [EqId (id session)] row = true).
    { unfold Backend.matches. simpl. rewrite Hid, String.eqb_refl. reflexivity. }
    rewrite Hm. eexists. split; [ reflexivity | ]. simpl. auto.
Qed.

(** Witness of C8, amended: the page of [running_view] against the store
    of [world_rejecting_submission]. *)
Lemma C8_completion_precedes_submission_witness :
  let r := run Backend.backend
             (TestTaking.submitTest (fun _ _ => 0) (fun _ _ => 0) running_view true)
             world_rejecting_submission in
  outcome r = Returned tt
  /\ Backend.submissions (final r) = [].
Proof.
  cbv zeta.
  destruct (C8_completion_precedes_submission (fun _ _ => 0) (fun _ _ => 0)
              world_rejecting_submission running_view true running_session
              permission_denied [] eq_refl eq_refl eq_refl)
    as (_ & Ho & _ & Hs & _).
  split; [ exact Ho | exact Hs ].
Defined.

(* ===================================================================== *)
(** ** Concurrent callers of the resolver *)
(* ===================================================================== *)

Arguments Backend.insert_session : simpl never.
Arguments Backend.select_sessions : simpl never.
Arguments Backend.active_for : simpl never.

Section Interference.

Variables (assessmentId : string) (student : AuthUser) (durationMinutes : Z).
Variable CanThrow : Prop.

Local Abbreviation uid := (user_id student).
Local Abbreviation is_active_row := (is_active_row assessmentId student).
Local Abbreviation grows := (grows assessmentId student).
Local Abbreviation store_ok := (store_ok student CanThrow).
Local Abbreviation tolerates := (tolerates assessmentId student CanThrow).
Local Abbreviation ctl_ok := (ctl_ok assessmentId student CanThrow).

Lemma grows_refl (w : Backend.World) : grows w w.
Proof. exists []. rewrite app_nil_r. split; [ reflexivity | constructor ]. Qed.

Lemma grows_trans (w1 w2 w3 : Backend.World) :
  grows w1 w2 -> grows w2 w3 -> grows w1 w3.
Proof.
  intros (c1 & E1 & F1) (c2 & E2 & F2). exists (c1 ++ c2).
  rewrite E2, E1, app_assoc. split; [ reflexivity | ].
  apply Forall_app. auto.
Qed.

Lemma grows_same_sessions (w w' : Backend.World) :
  Backend.sessions w' = Backend.sessions w -> grows w w'.
Proof.
  intros E. exists []. rewrite app_nil_r. split; [ exact E | constructor ].
Qed.

Lemma is_active_row_grows (r : TestSession) (w w' : Backend.World) :
  is_active_row r w -> grows w w' -> is_active_row r w'.
Proof.
  intros [Hin Hact] (c & E & _). split; [ | exact Hact ].
  rewrite E. apply elem_of_app. left. exact Hin.
Qed.

Lemma tolerates_stable {R : Type} (Q : R -> Backend.World -> Prop) (p : Prog R) :
  (forall r w w', Q r w -> grows w w' -> Q r w') ->
  forall w w', tolerates Q p w -> grows w w' -> tolerates Q p w'.
Proof.
  intros HQ. induction p as [r | e | X ev k IH]; intros w w' Hp Hg; simpl in *.
  - eauto.
  - exact Hp.
  - intros w1 Hg1 Hok1. apply Hp; [ | exact Hok1 ].
    eapply grows_trans; eassumption.
Qed.

Lemma tolerates_impl {R : Type} (Q Q' : R -> Backend.World -> Prop) (p : Prog R) :
  (forall r w, Q r w -> Q' r w) ->
  forall w, tolerates Q p w -> tolerates Q' p w.
Proof.
  intros HQ. induction p as [r | e | X ev k IH]; intros w Hp; simpl in *; auto.
  intros w1 Hg1 Hok1. destruct (Hp w1 Hg1 Hok1) as (Hg & Hok & Hk). eauto.
Qed.

Lemma tolerates_bind {A B : Type} (Q : B -> Backend.World -> Prop)
    (p : Prog A) (f : A -> Prog B) :
  forall w, tolerates (fun a w' => tolerates Q (f a) w') p w ->
            tolerates Q (bind p f) w.
Proof.
  induction p as [r | e | X ev k IH]; intros w Hp; simpl in *; auto.
  intros w1 Hg1 Hok1. destruct (Hp w1 Hg1 Hok1) as (Hg & Hok & Hk). eauto.
Qed.

Lemma tolerates_try_catch {A : Type} (Q : A -> Backend.World -> Prop)
    (p : Prog A) (h : JsError -> Prog A) :
  (forall e w, CanThrow -> tolerates Q (h e) w) ->
  forall w, tolerates Q p w -> tolerates Q (try_catch p h) w.
Proof.
  intros Hh. induction p as [r | e | X ev k IH]; intros w Hp; simpl in *; auto.
  intros w1 Hg1 Hok1. destruct (Hp w1 Hg1 Hok1) as (Hg & Hok & Hk). eauto.
Qed.

(** *** What the store answers *)

Lemma active_for_eq (a s : string) (r : TestSession) :
  Backend.active_for a s r = true ->
  assessment_id r = a /\ student_id r = s /\ is_completed r = false.
Proof.
  unfold Backend.active_for, Backend.matches. simpl.
  rewrite !andb_true_iff, !String.eqb_eq. intros (Ha & Hs & Hc & _).
  destruct (is_completed r); [ discriminate | auto ].
Qed.

Lemma select_active_cases (w : Backend.World) :
  store_ok w ->
  (Backend.select_sessions
     [EqAssessmentId assessmentId; EqStudentId uid; EqIsCompleted false]
     MaybeSingle w).2 = w
  /\ (((Backend.select_sessions
          [EqAssessmentId assessmentId; EqStudentId uid; EqIsCompleted false]
          MaybeSingle w).1 = mkPgResponse None None
       /\ forall r, ~ is_active_row r w)
      \/ exists r,
           (Backend.select_sessions
              [EqAssessmentId assessmentId; EqStudentId uid; EqIsCompleted false]
              MaybeSingle w).1 = mkPgResponse (Some r) None
           /\ is_active_row r w).
Proof.
  intros (Hu & _ & _). unfold Backend.select_sessions. cbn [fst snd].
  split; [ reflexivity | ].
  change (Backend.matches
            [EqAssessmentId assessmentId; EqStudentId uid; EqIsCompleted false])
    with (Backend.active_for assessmentId uid).
  specialize (Hu assessmentId uid).
  destruct (List.filter (Backend.active_for assessmentId uid) (Backend.sessions w))
    as [| r [| r' l]] eqn:Hf.
  - left. split; [ reflexivity | ]. intros r [Hin Hact].
    assert (In r []) as [].
    rewrite <- Hf. apply filter_In. split; [ by apply list_elem_of_In | exact Hact ].
  - right. exists r. split; [ reflexivity | ].
    assert (Hr : In r (List.filter (Backend.active_for assessmentId uid)
                         (Backend.sessions w))) by (rewrite Hf; left; reflexivity).
    apply filter_In in Hr as [Hin Hact]. split; [ by apply list_elem_of_In | exact Hact ].
  - simpl in Hu. lia.
Qed.

Lemma unique_active_snoc (rows : list TestSession) (r : TestSession) :
  Backend.unique_active rows ->
  existsb (Backend.active_for (assessment_id r) (student_id r)) rows = false ->
  Backend.unique_active (rows ++ [r]).
Proof.
  intros Hu Hex a s. rewrite List.filter_app, length_app.
  cbn [List.filter]. destruct (Backend.active_for a s r) eqn:Hact.
  - apply active_for_eq in Hact as (<- & <- & _).
    assert (Hnil : List.filter
                     (Backend.active_for (assessment_id r) (student_id r)) rows = []).
    { destruct (List.filter _ rows) as [| x l] eqn:Hf; [ reflexivity | ].
      assert (Hx : In x (List.filter
                           (Backend.active_for (assessment_id r) (student_id r))
                           rows)) by (rewrite Hf; left; reflexivity).
      apply filter_In in Hx as [Hin Hx].
      assert (existsb (Backend.active_for (assessment_id r) (student_id r)) rows
              = true) by (apply existsb_exists; eauto).
      congruence. }
    rewrite Hnil. simpl. lia.
  - specialize (Hu a s). simpl. lia.
Qed.

Lemma insert_session_cases (w : Backend.World) (now : Z) :
  store_ok w ->
  let row := mkNewSession assessmentId uid now durationMinutes false in
  grows w (Backend.insert_session row w).2
  /\ store_ok (Backend.insert_session row w).2
  /\ ((exists e, CanThrow
                 /\ (Backend.insert_session row w).1 = mkPgResponse None (Some e))
      \/ ((Backend.insert_session row w).1
            = mkPgResponse None (Some Backend.unique_violation)
          /\ exists r, is_active_row r (Backend.insert_session row w).2)
      \/ (exists r, (Backend.insert_session row w).1 = mkPgResponse (Some r) None
                    /\ is_active_row r (Backend.insert_session row w).2)).
Proof.
  intros Hok. pose proof Hok as (Hu & Hid & Hfaults). cbv zeta.
  unfold Backend.insert_session.
  destruct (Backend.insert_session_faults w) as [| e rest] eqn:Hq.
  - cbn [new_is_completed new_assessment_id new_student_id negb andb].
    destruct (existsb (Backend.active_for assessmentId uid) (Backend.sessions w))
      eqn:Hex; cbn [fst snd].
    + split; [ apply grows_refl | ]. split; [ exact Hok | ].
      right. left. split; [ reflexivity | ].
      apply existsb_exists in Hex as (r & Hin & Hact). exists r.
      split; [ by apply list_elem_of_In | exact Hact ].
    + set (r := Backend.new_row
                  (mkNewSession assessmentId uid now durationMinutes false) w).
      assert (Hact : Backend.active_for assessmentId uid r = true).
      { unfold Backend.active_for, Backend.matches. simpl.
        rewrite !String.eqb_refl. reflexivity. }
      split; [ exists [r]; split; [ reflexivity | repeat constructor; exact Hact ] | ].
      split.
      { split; [ | split; [ exact Hid | intros []; reflexivity ] ].
        cbn [Backend.sessions]. apply unique_active_snoc; [ exact Hu | exact Hex ]. }
      right. right. exists r. split; [ reflexivity | ]. split; [ | exact Hact ].
      cbn [Backend.sessions]. apply elem_of_app. right. apply list_elem_of_singleton.
      reflexivity.
  - assert (Hc : CanThrow) by (apply Hfaults; discriminate).
    cbn [fst snd]. split; [ apply grows_same_sessions; reflexivity | ]. split.
    { split; [ exact Hu | split; [ exact Hid | intros _; exact Hc ] ]. }
    left. exists e. auto.
Qed.

(** *** The resolver under interference *)

Lemma advance_ok (ms : Z) (w : Backend.World) :
  store_ok w -> grows w (Backend.advance ms w) /\ store_ok (Backend.advance ms w).
Proof.
  intros Hok. split; [ apply grows_same_sessions; reflexivity | exact Hok ].
Qed.

Lemma requery_tolerates (createError : JsError) (ms : Z) (w : Backend.World) :
  CanThrow \/ (exists r, is_active_row r w) ->
  tolerates ctl_ok
    (call (SetTimeout ms);;
     retried <- call (Utils.activeSessionQuery assessmentId uid);;
     match error retried, data retried with
     | None, Some retriedSession => Ret (ReturnFromFunction retriedSession)
     | _, _ => Ret (Continue (Some createError))
     end) w.
Proof.
  intros Hpre. unfold call, Utils.activeSessionQuery. cbn [bind tolerates].
  intros w1 Hg1 Hok1. cbn [Backend.backend fst snd].
  destruct (advance_ok ms w1 Hok1) as [Hga Hoka].
  split; [ exact Hga | ]. split; [ exact Hoka | ].
  intros w2 Hg2 Hok2. cbn [Backend.backend].
  destruct (select_active_cases w2 Hok2) as [Hw [[Hx Hnone] | (r & Hx & Hr)]];
    rewrite Hw, Hx; cbn [error data tolerates ctl_ok].
  - split; [ apply grows_refl | ]. split; [ exact Hok2 | ].
    destruct Hpre as [Hc | (r & Hr)]; [ exact Hc | ].
    exfalso. apply (Hnone r).
    eauto using is_active_row_grows, grows_trans.
  - split; [ apply grows_refl | ]. split; [ exact Hok2 | exact Hr ].
Qed.

Lemma attemptBody_tolerates (attempt : Z) (lastError : option JsError)
    (w : Backend.World) :
  tolerates ctl_ok
    (Utils.attemptBody assessmentId uid durationMinutes attempt lastError) w.
Proof.
  unfold Utils.attemptBody. apply tolerates_try_catch.
  { intros e w' Hc. destruct (attempt <? 3); unfold call; cbn [bind tolerates].
    - intros w1 Hg1 Hok1. cbn [Backend.backend fst snd ctl_ok].
      destruct (advance_ok (Utils.backoffMs attempt) w1 Hok1) as [Hga Hoka]. auto.
    - exact Hc. }
  unfold call at 1 2. cbn [bind tolerates].
  intros w1 Hg1 Hok1. cbn [Backend.backend fst snd].
  split; [ apply grows_refl | ]. split; [ exact Hok1 | ].
  intros w2 Hg2 Hok2. cbn [Backend.backend].
  destruct (insert_session_cases w2 (Backend.clock w1) Hok2) as (Hg & Hok & Hcases).
  split; [ exact Hg | ]. split; [ exact Hok | ].
  destruct Hcases as [(e & Hc & ->) | [[-> Hr] | (r & -> & Hr)]]; cbn [error data].
  - destruct (Utils.isConflict e).
    + apply requery_tolerates. left. exact Hc.
    + exact Hc.
  - change (Utils.isConflict Backend.unique_violation) with true. cbv iota.
    apply requery_tolerates. right. exact Hr.
  - exact Hr.
Qed.

Lemma finalRetrieval_tolerates (session : option TestSession)
    (lastError : option JsError) (w : Backend.World) :
  match session with
  | Some s => is_active_row s w
  | None => CanThrow
  end ->
  tolerates is_active_row
    (Utils.finalRetrieval assessmentId uid session lastError) w.
Proof.
  destruct session as [s |]; intros Hpre; [ exact Hpre | ].
  unfold Utils.finalRetrieval, call, Utils.activeSessionQuery.
  cbn [bind tolerates]. intros w1 Hg1 Hok1. cbn [Backend.backend].
  destruct (select_active_cases w1 Hok1) as [Hw [[Hx Hnone] | (r & Hx & Hr)]];
    rewrite Hw, Hx; cbn [error data tolerates].
  - split; [ apply grows_refl | ]. split; [ exact Hok1 | exact Hpre ].
  - split; [ apply grows_refl | ]. split; [ exact Hok1 | exact Hr ].
Qed.

Lemma creationLoop_tolerates (remaining : nat) :
  forall (attempt : Z) (lastError : option JsError) (w : Backend.World),
    (remaining = 0%nat -> CanThrow) ->
    tolerates is_active_row
      (Utils.creationLoop assessmentId uid durationMinutes remaining attempt
         lastError) w.
Proof.
  induction remaining as [| n IH]; intros attempt lastError w Hpre;
    cbn [Utils.creationLoop].
  - apply finalRetrieval_tolerates. auto.
  - apply tolerates_bind.
    eapply tolerates_impl; [ | apply attemptBody_tolerates ].
    intros [lastErr | s lastErr | s] w' Hctl; cbn [ctl_ok] in Hctl.
    + apply IH. intros _. exact Hctl.
    + apply finalRetrieval_tolerates. exact Hctl.
    + exact Hctl.
Qed.

Lemma getOrCreateTestSession_tolerates (w : Backend.World) :
  tolerates is_active_row
    (Utils.getOrCreateTestSession assessmentId durationMinutes) w.
Proof.
  unfold Utils.getOrCreateTestSession. apply tolerates_try_catch.
  { intros e w' Hc. exact Hc. }
  unfold call at 1. cbn [bind tolerates].
  intros w1 Hg1 Hok1. cbn [Backend.backend fst snd user].
  split; [ apply grows_refl | ]. split; [ exact Hok1 | ].
  destruct Hok1 as (_ & -> & _). unfold call, Utils.activeSessionQuery.
  cbn [bind tolerates]. intros w2 Hg2 Hok2. cbn [Backend.backend].
  destruct (select_active_cases w2 Hok2) as [Hw [[Hx Hnone] | (r & Hx & Hr)]];
    rewrite Hw, Hx; cbn [error data tolerates].
  - split; [ apply grows_refl | ]. split; [ exact Hok2 | ].
    apply creationLoop_tolerates. discriminate.
  - split; [ apply grows_refl | ]. split; [ exact Hok2 | exact Hr ].
Qed.

(** *** The pool of callers *)

Local Abbreviation pool_ok := (pool_ok assessmentId student CanThrow).

Lemma pool_ok_step (w0 : Backend.World) (c c' : Backend.World * Pool) :
  pool_ok w0 c -> pool_step c c' -> pool_ok w0 c'.
Proof.
  intros (Hg & Hok & Hall) Hstep.
  destruct Hstep as [w pool i X ev k Hi]. cbn [fst snd] in *.
  assert (Hp : tolerates is_active_row (Vis ev k) w).
  { rewrite Forall_forall in Hall. apply Hall.
    apply list_elem_of_lookup. eauto. }
  destruct (Hp w (grows_refl w) Hok) as (Hg' & Hok' & Hk).
  split; [ eapply grows_trans; eassumption | ]. split; [ exact Hok' | ].
  apply Forall_insert; [ | exact Hk ].
  eapply Forall_impl; [ exact Hall | ].
  intros p Hpw. cbv beta in Hpw.
  eapply tolerates_stable; [ | exact Hpw | exact Hg' ].
  intros r v v'. apply is_active_row_grows.
Qed.

Lemma pool_ok_reachable (w0 : Backend.World) (c c' : Backend.World * Pool) :
  pool_ok w0 c -> rtc pool_step c c' -> pool_ok w0 c'.
Proof.
  intros Hc Hsteps. induction Hsteps as [| c1 c2 c3 Hstep _ IH]; [ exact Hc | ].
  apply IH. eapply pool_ok_step; eassumption.
Qed.

Lemma pool_ok_initial (w0 : Backend.World) (n : nat) :
  store_ok w0 ->
  pool_ok w0 (w0, replicate n
                    (Utils.getOrCreateTestSession assessmentId durationMinutes)).
Proof.
  intros Hok. split; [ apply grows_refl | ]. split; [ exact Hok | ].
  apply Forall_replicate. apply getOrCreateTestSession_tolerates.
Qed.

Lemma active_rows_equal (w : Backend.World) (r1 r2 : TestSession) :
  Backend.unique_active (Backend.sessions w) ->
  is_active_row r1 w -> is_active_row r2 w -> r1 = r2.
Proof.
  intros Hu [Hin1 Ha1] [Hin2 Ha2].
  pose proof (unique_active_filter _ _ _ _ Hu Hin1 Ha1) as E1.
  pose proof (unique_active_filter _ _ _ _ Hu Hin2 Ha2) as E2.
  congruence.
Qed.

End Interference.

Lemma pool_step_fn_reachable (i : nat) (c : Backend.World * Pool) :
  rtc pool_step c (pool_step_fn i c).
Proof.
  unfold pool_step_fn. destruct c as [w pool]. cbn [fst snd].
  destruct (pool !! i) as [[r | e | X ev k] |] eqn:Hi; try apply rtc_refl.
  apply rtc_once. apply pool_step_at. exact Hi.
Qed.

Lemma pool_run_reachable (schedule : list nat) :
  forall c : Backend.World * Pool, rtc pool_step c (pool_run schedule c).
Proof.
  induction schedule as [| i schedule IH]; intros c; [ apply rtc_refl | ].
  cbn [pool_run fold_left]. eapply rtc_trans.
  - apply pool_step_fn_reachable.
  - apply IH.
Qed.

(** The race of scenario 2: the second tab's creation is rejected as a
    conflict, it waits 200 ms, re-queries, and both tabs end with the one
    row the store holds. *)
Example two_tabs_race :
  let c := pool_run racing_schedule two_tabs in
  map caller_result c.2
    = [Some (Returned (mkTestSession "ts-0" "A" "S" 1000 None 30 false 1000));
       Some (Returned (mkTestSession "ts-0" "A" "S" 1000 None 30 false 1000))]
  /\ Backend.sessions c.1
     = [mkTestSession "ts-0" "A" "S" 1000 None 30 false 1000]
  /\ Backend.clock c.1 = 1200.
Proof. vm_compute. auto. Qed.

(** C1. Callers of [getOrCreateTestSession] for one assessment, signed in
    as one student, run concurrently against a store that enforces the
    uniqueness constraint. In every configuration they can reach: the store
    holds at most one non-completed session per pair; the rows created
    since the start are at most one, a non-completed session of the pair,
    and none if the pair had such a session at the start; all callers that
    have returned hold the same row (the same id), which is that session of
    the pair in the store; when no creation is answered with an injected
    store error, no caller ends with an error; and the store rejects the
    creation of a second session of the pair as a conflict, unchanged. *)
Theorem C1_one_active_session (assessmentId : string) (durationMinutes : Z)
    (student : AuthUser) (w0 : Backend.World) (n : nat)
    (c : Backend.World * Pool) :
  Backend.identity w0 = Some student ->
  Backend.unique_active (Backend.sessions w0) ->
  rtc pool_step
    (w0, replicate n (Utils.getOrCreateTestSession assessmentId durationMinutes))
    c ->
  Backend.unique_active (Backend.sessions c.1)
  /\ (exists created,
        Backend.sessions c.1 = Backend.sessions w0 ++ created
        /\ (length created <= 1)%nat
        /\ Forall (fun r => Backend.active_for assessmentId (user_id student) r = true)
             created
        /\ ((exists r0, is_active_row assessmentId student r0 w0) -> created = [])
        /\ (forall i r, c.2 !! i = Some (Ret r) ->
              (forall r0, ~ is_active_row assessmentId student r0 w0) ->
              created = [r]))
  /\ (forall i r, c.2 !! i = Some (Ret r) -> is_active_row assessmentId student r c.1)
  /\ (forall i j r1 r2,
        c.2 !! i = Some (Ret r1) -> c.2 !! j = Some (Ret r2) ->
        r1 = r2 /\ id r1 = id r2)
  /\ (Backend.insert_session_faults w0 = [] ->
      forall i e, c.2 !! i <> Some (Throw e))
  /\ (forall now r0,
        Backend.insert_session_faults c.1 = [] ->
        is_active_row assessmentId student r0 c.1 ->
        Backend.insert_session
          (mkNewSession assessmentId (user_id student) now durationMinutes false)
          c.1
        = (mkPgResponse None (Some Backend.unique_violation), c.1)).
Proof.
  intros Hid Hu Hreach.
  set (CanThrow := Backend.insert_session_faults w0 <> []).
  assert (Hok0 : store_ok student CanThrow w0).
  { split; [ exact Hu | split; [ exact Hid | auto ] ]. }
  pose proof (pool_ok_reachable assessmentId student CanThrow
                w0 _ _ (pool_ok_initial assessmentId student durationMinutes
                          CanThrow w0 n Hok0) Hreach)
    as (Hg & (Hu' & Hid' & _) & Hall).
  rewrite Forall_forall in Hall.
  assert (Hret : forall i r, c.2 !! i = Some (Ret r) ->
                             is_active_row assessmentId student r c.1).
  { intros i r Hi. apply (Hall (Ret r)). apply list_elem_of_lookup. eauto. }
  destruct Hg as (created & Hs & Hact).
  assert (Hfilter : List.filter (Backend.active_for assessmentId (user_id student))
                      created = created).
  { clear -Hact. induction Hact as [| r l Hr _ IH]; [ reflexivity | ].
    cbn [List.filter]. rewrite Hr, IH. reflexivity. }
  pose proof (Hu' assessmentId (user_id student)) as Hlen.
  rewrite Hs, List.filter_app, length_app, Hfilter in Hlen.
  split; [ exact Hu' | ]. split.
  { exists created. split; [ exact Hs | ]. split; [ lia | ]. split; [ exact Hact | ].
    split.
    - intros (r0 & Hin0 & Hact0).
      assert (In r0 (List.filter (Backend.active_for assessmentId (user_id student))
                       (Backend.sessions w0)))
        by (apply filter_In; split; [ by apply list_elem_of_In | exact Hact0 ]).
      destruct (List.filter _ (Backend.sessions w0)); [ contradiction | ].
      destruct created; [ reflexivity | simpl in Hlen; lia ].
    - intros i r Hi Hnone. destruct (Hret i r Hi) as [Hin Hr].
      rewrite Hs in Hin. apply elem_of_app in Hin as [Hin | Hin].
      + exfalso. apply (Hnone r). split; assumption.
      + destruct created as [| x [| y l]]; [ | | simpl in Hlen; lia ].
        * apply elem_of_nil in Hin as [].
        * apply list_elem_of_singleton in Hin. congruence. }
  split; [ exact Hret | ]. split.
  { intros i j r1 r2 Hi Hj.
    assert (r1 = r2) as ->; [ | auto ].
    eapply active_rows_equal; eauto. }
  split.
  { intros Hnofault i e Hi.
    assert (Hthrow : tolerates assessmentId student CanThrow
                       (is_active_row assessmentId student) (Throw e) c.1).
    { apply Hall. apply list_elem_of_lookup. eauto. }
    apply Hthrow. exact Hnofault. }
  intros now r0 Hq [Hin0 Hact0]. unfold Backend.insert_session. rewrite Hq.
  cbn [new_is_completed new_assessment_id new_student_id negb andb].
  assert (Hex : existsb (Backend.active_for assessmentId (user_id student))
                  (Backend.sessions c.1) = true).
  { apply existsb_exists. exists r0. split; [ by apply list_elem_of_In | exact Hact0 ]. }
  rewrite Hex. reflexivity.
Qed.

(** Witness of C1: the two racing tabs. *)
Lemma C1_one_active_session_witness :
  Backend.unique_active (Backend.sessions (pool_run racing_schedule two_tabs).1).
Proof.
  refine (proj1 (C1_one_active_session "A" 30 (mkAuthUser "S") empty_world 2
                   (pool_run racing_schedule two_tabs) _ _ _)).
  - reflexivity.
  - intros a s. simpl. lia.
  - apply (pool_run_reachable racing_schedule two_tabs).
Defined.

(* ===================================================================== *)
(** ** The countdown driver *)
(* ===================================================================== *)

Section DriverProofs.

Variable autoGradeMCQ : list Question -> gmap string string -> Z.
Variable roundPercent : Z -> Z -> Z.

Local Abbreviation submitTest := (TestTaking.submitTest autoGradeMCQ roundPercent).
Local Abbreviation timerCallback := (TestTaking.timerCallback autoGradeMCQ roundPercent).
Local Abbreviation timerEffect := (TestTaking.timerEffect autoGradeMCQ roundPercent).
Local Abbreviation handleSubmit := (TestTaking.handleSubmit autoGradeMCQ roundPercent).
Local Abbreviation render := (Driver.render autoGradeMCQ roundPercent).
Local Abbreviation act := (Driver.act autoGradeMCQ roundPercent).
Local Abbreviation Inv := (Driver.Inv autoGradeMCQ roundPercent).

Ltac page_facts :=
  unfold Driver.fails, Driver.succeeds, Driver.parks_again, Driver.same_page,
    Driver.finalize_starts, Driver.finalize_failures, Driver.expiries;
  cbn; repeat split; try reflexivity.

(** [submitTest], once started, parks at the completion write; from there
    it fails, or parks at the submission insert; from there it fails or
    succeeds. *)
Lemma submitTest_starts (v : TestTaking.View) (isAutoSubmit : bool)
    (session : TestSession) (s : Driver.State) :
  TestTaking.testSession v = Some session ->
  let s' := Driver.perform (submitTest v isAutoSubmit) s in
  Driver.same_page
    (Driver.mkState (Driver.view s) (Driver.interval s) (Driver.effect_deps s)
       (Driver.parked s) (Driver.mounted s) (Driver.world s)
       (Observed (Ui (SetSubmitting true)) tt :: Driver.log s)) s'
  /\ (exists p, Driver.parked s' = p :: Driver.parked s /\ Driver.settles 1 p)
  /\ Driver.mounted s' = Driver.mounted s
  /\ TestTaking.submitting (Driver.view s') = true
  /\ Driver.finalize_failures (Driver.log s') = Driver.finalize_failures (Driver.log s).
Proof.
  intros Hts. cbv zeta. unfold TestTaking.submitTest. rewrite Hts.
  unfold Utils.completeTestSession, call.
  cbn [Driver.perform bind try_catch try_finally Driver.sync_answer
       Driver.apply_sync Driver.apply_ui Driver.park Driver.set_view
       Driver.view Driver.interval Driver.effect_deps Driver.parked
       Driver.mounted Driver.world Driver.log].
  split; [ page_facts | ].
  split; [ | page_facts ].
  eexists. split; [ reflexivity | ].
  split; [ reflexivity | ].
  intros [d [e |]] s1.
  - left. page_facts.
  - right. right. page_facts.
    eexists. split; [ reflexivity | ]. split; [ reflexivity | ].
    intros [[sub |] [e |]] s2.
    + left. page_facts.
    + right. left. page_facts.
    + left. page_facts.
    + left. page_facts.
Qed.

Local Abbreviation PreInv := (Driver.PreInv autoGradeMCQ roundPercent).

Lemma timerEffect_some (v : TestTaking.View) (callback : Prog unit) :
  timerEffect v = Some callback ->
  TestTaking.isTimeExpired v = false
  /\ TestTaking.submitting v = false
  /\ exists session, TestTaking.testSession v = Some session
                     /\ callback = timerCallback v session.
Proof.
  unfold TestTaking.timerEffect.
  destruct (TestTaking.testSession v) as [session |]; [ | discriminate ].
  destruct (TestTaking.isTimeExpired v), (TestTaking.submitting v);
    simpl; try discriminate.
  intros [= <-]. eauto.
Qed.

Lemma Inv_started (v : TestTaking.View) (w : Backend.World) :
  TestTaking.submitting v = false ->
  Inv (Driver.started autoGradeMCQ roundPercent v w).
Proof.
  intros Hsub. split; cbn.
  - reflexivity.
  - intros callback Hcb.
    apply timerEffect_some in Hcb as (He & Hs & session & Hts & ->).
    repeat split; try assumption. eauto.
  - left. reflexivity.
  - intros _ _. split; [ exact Hsub | reflexivity ].
  - intros []. reflexivity.
  - discriminate.
  - split; [ lia | reflexivity ].
Qed.

(** Rendering after a task restores the invariant. *)
Lemma Inv_render (s : Driver.State) : PreInv s -> Inv (render s).
Proof.
  intros [Hint Hpar Hidle Hbusy Hleft Hexp]. unfold Driver.render.
  remember (Driver.mounted s) as m eqn:Hm in |- *. symmetry in Hm.
  destruct m.
  - destruct (bool_decide (Driver.deps (Driver.view s) = Driver.effect_deps s))
      eqn:Hd.
    + apply bool_decide_eq_true in Hd. split.
      * intros _. symmetry. exact Hd.
      * intros callback Hcb.
        destruct (Hint callback Hcb Hm Hd) as (H1 & H2 & H3 & H4). auto.
      * exact Hpar.
      * exact Hidle.
      * exact Hbusy.
      * rewrite Hm. discriminate.
      * exact Hexp.
    + split; cbn.
      * reflexivity.
      * intros callback Hcb.
        apply timerEffect_some in Hcb as (He & Hs & session & Hts & ->).
        repeat split; try assumption; [ | eauto ].
        destruct Hpar as [Hnil | (p & n & _ & _ & Hsub & _)]; [ exact Hnil | ].
        congruence.
      * destruct Hpar as [Hnil | (p & n & Hp & Hset & Hsub & _)];
          [ left; exact Hnil | ].
        right. exists p, n. auto.
      * intros Hnil _. apply Hidle; [ exact Hnil | exact Hm ].
      * exact Hbusy.
      * discriminate.
      * exact Hexp.
  - destruct (Hleft Hm) as [Hnil Hle]. split; cbn.
    + discriminate.
    + discriminate.
    + left. exact Hnil.
    + discriminate.
    + intros Hne. contradiction.
    + auto.
    + exact Hexp.
Qed.

Ltac run_task :=
  cbn [Driver.perform bind try_catch try_finally Driver.sync_answer
       Driver.apply_sync Driver.apply_ui Driver.park Driver.set_view
       Driver.view Driver.interval Driver.effect_deps Driver.parked
       Driver.mounted Driver.world Driver.log].

Ltac read_fields H :=
  cbn [Driver.view Driver.interval Driver.effect_deps Driver.parked
       Driver.mounted Driver.world Driver.log] in H.

Ltac unfold_counters :=
  unfold Driver.same_page, Driver.finalize_starts, Driver.finalize_failures,
    Driver.expiries in *.

(** A tick of the interval. *)
Lemma PreInv_tick (s : Driver.State) (callback : Prog unit) :
  Inv s -> Driver.interval s = Some callback ->
  PreInv (Driver.perform callback s).
Proof.
  intros [Hdeps Hint Hpar Hidle Hbusy Hleft Hexp] Hcb.
  destruct (Hint callback Hcb) as (Hm & Hnil & Hte & Hsub & v & session & Hts & ->).
  destruct (Hidle Hnil Hm) as [_ Hcount]. destruct Hexp as [Hle Hzero].
  specialize (Hzero Hte).
  unfold TestTaking.timerCallback, call. run_task.
  destruct (Utils.calculateRemainingTime session (Backend.clock (Driver.world s)) <=? 0).
  - run_task. unfold TestTaking.handleAutoSubmit. rewrite Hts.
    match goal with
    | |- PreInv (Driver.perform _ ?mid) =>
        destruct (submitTest_starts v true session mid Hts)
          as (Hsame & (p & Hp & Hset) & Hm' & Hsub' & Hfail');
        set (s1 := Driver.perform (submitTest v true) mid) in *
    end.
    unfold_counters. cbn in Hsame, Hp, Hm', Hfail'.
    destruct Hsame as (E1 & E2 & E3 & E4 & E5 & E6 & E7).
    rewrite Hnil in Hp.
    split.
    + intros cb Hcb'. rewrite E3 in Hcb'. discriminate.
    + right. exists p, 1%nat. rewrite Hm', Hm. auto.
    + intros Hnil'. rewrite Hp in Hnil'. discriminate.
    + intros _. unfold_counters. rewrite E6, Hfail', Hcount. reflexivity.
    + rewrite Hm', Hm. discriminate.
    + unfold_counters. rewrite E7, E2, Hzero. split; [ lia | discriminate ].
  - run_task. split; cbn.
    + intros cb Hcb' _ _. rewrite Hcb in Hcb'. injection Hcb' as <-.
      repeat split; try assumption. eauto.
    + left. exact Hnil.
    + intros _ _. unfold_counters. cbn. auto.
    + intros Hne. contradiction.
    + rewrite Hm. discriminate.
    + unfold_counters. cbn. split; [ exact Hle | intros _; exact Hzero ].
Qed.

(** A click on the enabled submit button. *)
Lemma PreInv_click (s : Driver.State) :
  Inv s -> Driver.mounted s = true ->
  TestTaking.submitButtonEnabled (Driver.view s) = true ->
  PreInv (Driver.perform (handleSubmit (Driver.view s)) s).
Proof.
  intros [Hdeps Hint Hpar Hidle Hbusy Hleft Hexp] Hm Hbtn.
  unfold TestTaking.submitButtonEnabled in Hbtn.
  apply andb_prop in Hbtn as [Hbtn Hns]. apply andb_prop in Hbtn as [Hbtn Hne].
  apply andb_prop in Hbtn as [_ Hts]. apply bool_decide_eq_true in Hts as [session Hts].
  apply negb_true_iff in Hne. apply negb_true_iff, orb_false_iff in Hns as [Hns _].
  assert (Hnil : Driver.parked s = []).
  { destruct Hpar as [Hnil | (p & n & _ & _ & Hsub & _)]; [ exact Hnil | congruence ]. }
  destruct (Hidle Hnil Hm) as [_ Hcount]. destruct Hexp as [Hle Hzero].
  unfold TestTaking.handleSubmit, call. rewrite Hns. run_task.
  destruct (Backend.confirms (Driver.world s)); cbn [negb].
  - match goal with
    | |- PreInv (Driver.perform _ ?mid) =>
        destruct (submitTest_starts (Driver.view s) false session mid Hts)
          as (Hsame & (p & Hp & Hset) & Hm' & Hsub' & Hfail');
        set (s1 := Driver.perform (submitTest (Driver.view s) false) mid) in *
    end.
    unfold_counters. cbn in Hsame, Hp, Hm', Hfail'.
    destruct Hsame as (E1 & E2 & E3 & E4 & E5 & E6 & E7).
    rewrite Hnil in Hp.
    split.
    + intros cb Hcb Hm1 Hd. rewrite E4, Hdeps in Hd by exact Hm.
      unfold Driver.deps in Hd. rewrite Hsub', Hns in Hd. discriminate.
    + right. exists p, 1%nat. rewrite Hm', Hm. auto.
    + intros Hnil'. rewrite Hp in Hnil'. discriminate.
    + intros _. unfold_counters. rewrite E6, Hfail', Hcount. reflexivity.
    + rewrite Hm', Hm. discriminate.
    + unfold_counters. rewrite E7, E2. split; [ exact Hle | exact Hzero ].
  - run_task. split; cbn.
    + intros cb Hcb _ _. destruct (Hint cb Hcb) as (_ & _ & H3 & H4 & H5). auto.
    + left. exact Hnil.
    + intros _ _. unfold_counters. cbn. auto.
    + intros Hne'. contradiction.
    + rewrite Hm. discriminate.
    + unfold_counters. cbn. split; [ exact Hle | exact Hzero ].
Qed.

Lemma request_counters {X : Type} (ev : Ev X) (x : X) (l : list Obs) :
  Driver.is_request ev = true ->
  Driver.finalize_starts (Observed ev x :: l) = Driver.finalize_starts l
  /\ Driver.finalize_failures (Observed ev x :: l) = Driver.finalize_failures l
  /\ Driver.expiries (Observed ev x :: l) = Driver.expiries l.
Proof.
  destruct ev; try discriminate; intros _; repeat split; reflexivity.
Qed.

Lemma settles_inv (n : nat) (X : Type) (ev : Ev X) (k : X -> Prog unit) :
  Driver.settles n (Driver.Parked ev k) ->
  Driver.is_request ev = true
  /\ forall x s,
       Driver.fails s (Driver.perform (k x) s)
       \/ Driver.succeeds s (Driver.perform (k x) s)
       \/ exists m, n = S m
                    /\ Driver.parks_again (Driver.settles m) s
                         (Driver.perform (k x) s).
Proof.
  destruct n as [| m]; cbn [Driver.settles]; intros [Hreq Hk]; (split; [ exact Hreq | ]).
  - intros x s. destruct (Hk x s) as [H | [H | []]]; auto.
  - intros x s. destruct (Hk x s) as [H | [H | H]]; eauto.
Qed.

(** The answer to the request a [submitTest] is parked at. *)
Lemma PreInv_respond (s : Driver.State) (X : Type) (ev : Ev X)
    (k : X -> Prog unit) (others : list Driver.Suspended) (x : X)
    (w' : Backend.World) :
  Inv s -> Driver.parked s = Driver.Parked ev k :: others ->
  PreInv (Driver.perform (k x)
            (Driver.mkState (Driver.view s) (Driver.interval s)
               (Driver.effect_deps s) others (Driver.mounted s) w'
               (Observed ev x :: Driver.log s))).
Proof.
  intros [Hdeps Hint Hpar Hidle Hbusy Hleft Hexp] Hp.
  destruct Hpar as [Hnil | (p & n & Hp' & Hset & Hsub & Hm)]; [ congruence | ].
  rewrite Hp in Hp'. injection Hp' as Hpe Ho. subst p others.
  assert (Hnone : Driver.interval s = None).
  { destruct (Driver.interval s) as [cb |] eqn:Hcb; [ | reflexivity ].
    destruct (Hint cb eq_refl) as (_ & Hnil & _). congruence. }
  assert (Hcount : Driver.finalize_starts (Driver.log s)
                   = S (Driver.finalize_failures (Driver.log s))).
  { apply Hbusy. rewrite Hp. discriminate. }
  destruct Hexp as [Hle Hzero].
  apply settles_inv in Hset as [Hreq Hk].
  destruct (request_counters ev x (Driver.log s) Hreq) as (C1 & C2 & C3).
  set (mid := Driver.mkState (Driver.view s) (Driver.interval s)
                (Driver.effect_deps s) [] (Driver.mounted s) w'
                (Observed ev x :: Driver.log s)).
  specialize (Hk x mid). set (s1 := Driver.perform (k x) mid) in *.
  destruct Hk as [Hk | [Hk | Hk]].
  - destruct Hk as ((E1 & E2 & E3 & E4 & E5 & E6 & E7) & F1 & F2 & F3 & F4).
    unfold mid in E1, E2, E3, E4, E5, E6, E7, F1, F2, F3, F4.
    read_fields E1; read_fields E2; read_fields E3; read_fields E4;
      read_fields E5; read_fields E6; read_fields E7; read_fields F1;
      read_fields F2; read_fields F3; read_fields F4.
    split.
    + intros cb Hcb. rewrite E3, Hnone in Hcb. discriminate.
    + left. exact F1.
    + intros _ _. split; [ exact F3 | ]. rewrite E6, F4, C1, C2. exact Hcount.
    + intros Hne. contradiction.
    + rewrite F2, Hm. discriminate.
    + rewrite E7, E2, C3. split; [ exact Hle | exact Hzero ].
  - destruct Hk as ((E1 & E2 & E3 & E4 & E5 & E6 & E7) & F1 & F2 & F3 & F4).
    unfold mid in E1, E2, E3, E4, E5, E6, E7, F1, F2, F3, F4.
    read_fields E1; read_fields E2; read_fields E3; read_fields E4;
      read_fields E5; read_fields E6; read_fields E7; read_fields F1;
      read_fields F2; read_fields F3; read_fields F4.
    split.
    + intros cb Hcb. rewrite E3, Hnone in Hcb. discriminate.
    + left. exact F1.
    + intros _ Hm1. congruence.
    + intros Hne. contradiction.
    + intros _. split; [ exact F1 | ]. rewrite E6, F4, C1, C2, Hcount. lia.
    + rewrite E7, E2, C3. split; [ exact Hle | exact Hzero ].
  - destruct Hk as (m & -> & Hk).
    destruct Hk as ((E1 & E2 & E3 & E4 & E5 & E6 & E7) & (p' & Hp1 & Hset') & F2 & F3 & F4).
    unfold mid in E1, E2, E3, E4, E5, E6, E7, Hp1, F2, F3, F4.
    read_fields E1; read_fields E2; read_fields E3; read_fields E4;
      read_fields E5; read_fields E6; read_fields E7; read_fields Hp1;
      read_fields F2; read_fields F3; read_fields F4.
    split.
    + intros cb Hcb. rewrite E3, Hnone in Hcb. discriminate.
    + right. exists p', m. rewrite F2, F3. auto.
    + intros Hnil. rewrite Hp1 in Hnil. discriminate.
    + intros _. rewrite E6, F4, C1, C2. exact Hcount.
    + rewrite F2, Hm. discriminate.
    + rewrite E7, E2, C3. split; [ exact Hle | exact Hzero ].
Qed.

(** Every action keeps the invariant. *)
Lemma Inv_act (a : Driver.Action) (s : Driver.State) : Inv s -> Inv (act a s).
Proof.
  intros HI. destruct a as [| | | ms]; unfold Driver.act.
  - destruct (Driver.interval s) as [callback |] eqn:Hcb; [ | exact HI ].
    apply Inv_render. apply PreInv_tick; assumption.
  - destruct (Driver.mounted s) eqn:Hm; cbn [andb]; [ | exact HI ].
    destruct (TestTaking.submitButtonEnabled (Driver.view s)) eqn:Hbtn; [ | exact HI ].
    apply Inv_render. apply PreInv_click; assumption.
  - destruct (Driver.parked s) as [| [X ev k] others] eqn:Hp; [ exact HI | ].
    cbv zeta. apply Inv_render. apply PreInv_respond; assumption.
  - destruct HI as [Hdeps Hint Hpar Hidle Hbusy Hleft Hexp]. split; cbn; assumption.
Qed.

Lemma Inv_reachable (s s' : Driver.State) :
  Inv s -> rtc (Driver.step autoGradeMCQ roundPercent) s s' -> Inv s'.
Proof.
  intros HI Hsteps. induction Hsteps as [| s1 s2 s3 [a ->] _ IH]; [ exact HI | ].
  apply IH. apply Inv_act. exact HI.
Qed.

Lemma drive_reachable (script : list Driver.Action) :
  forall s, rtc (Driver.step autoGradeMCQ roundPercent) s
              (Driver.drive autoGradeMCQ roundPercent script s).
Proof.
  induction script as [| a script IH]; intros s; [ apply rtc_refl | ].
  cbn [Driver.drive fold_left]. eapply rtc_l; [ exists a; reflexivity | apply IH ].
Qed.

(** In every environment the tick callback clears the interval before it
    starts [submitTest]. *)
Lemma timerCallback_clears_first (v : TestTaking.View) (session : TestSession) :
  always (fun tr o => cleared_before false tr = true) (timerCallback v session).
Proof.
  unfold TestTaking.timerCallback, call. cbn [bind always]. intros now.
  destruct (Utils.calculateRemainingTime session now <=? 0).
  - unfold TestTaking.handleAutoSubmit, TestTaking.submitTest,
      Utils.completeTestSession, call.
    destruct (TestTaking.testSession v); exec; reflexivity.
  - cbn. intros []. reflexivity.
Qed.

(** *** How many runs start *)

Local Abbreviation Counted := Driver.Counted.

Lemma error_shown_apply_sync {X : Type} (ev : Ev X) (x : X) (s : Driver.State) :
  Driver.error_shown s -> Driver.error_shown (Driver.apply_sync ev x s).
Proof.
  unfold Driver.error_shown, Driver.finalize_failures, Driver.apply_sync.
  intros Hs. destruct ev; cbn; try exact Hs.
  destruct a; cbn; try exact Hs. intros _. eauto.
Qed.

(** Whatever a task runs, an error once set stays on the page. *)
Lemma error_shown_perform (p : Prog unit) :
  forall s, Driver.error_shown s -> Driver.error_shown (Driver.perform p s).
Proof.
  induction p as [r | e | X ev k IH]; intros s Hs; cbn [Driver.perform];
    try exact Hs.
  destruct (Driver.sync_answer ev s) as [x |].
  - apply IH. apply error_shown_apply_sync. exact Hs.
  - exact Hs.
Qed.

Lemma Counted_started (v : TestTaking.View) (w : Backend.World) :
  Counted (Driver.started autoGradeMCQ roundPercent v w).
Proof.
  split.
  - intros H. cbn in H. contradiction.
  - cbn. lia.
  - cbn. discriminate.
Qed.

Lemma Counted_render (s : Driver.State) : Counted s -> Counted (render s).
Proof.
  intros [He Hm Hb]. unfold Driver.render.
  remember (Driver.mounted s) as m eqn:Hmt in |- *. symmetry in Hmt.
  destruct m.
  - destruct (bool_decide _); [ split; assumption | ].
    split; [ exact He | exact Hm | ].
    intros Heq. destruct (Hb Heq) as [H | [H | H]];
      [ left; exact H | congruence | right; right; exact H ].
  - split; [ exact He | exact Hm | ].
    intros _. right. left. reflexivity.
Qed.

(** A tick of the interval. *)
Lemma Counted_tick (s : Driver.State) (callback : Prog unit) :
  Inv s -> Counted s -> Driver.interval s = Some callback ->
  Counted (Driver.perform callback s).
Proof.
  intros [Hdeps Hint Hpar Hidle Hbusy Hleft Hexp] [He Hmn Hb] Hcb.
  pose proof (error_shown_perform callback s He) as He'.
  destruct (Hint callback Hcb) as (Hm & Hnil & Hte & Hsub & v & session & Hts & ->).
  revert He'. unfold TestTaking.timerCallback, call. run_task.
  destruct (Utils.calculateRemainingTime session (Backend.clock (Driver.world s)) <=? 0).
  - run_task. unfold TestTaking.handleAutoSubmit. rewrite Hts.
    match goal with
    | |- _ (Driver.perform _ ?mid) -> _ =>
        destruct (submitTest_starts v true session mid Hts)
          as (Hsame & (p & Hp & Hset) & Hm' & Hsub' & Hfail');
        set (s1 := Driver.perform (submitTest v true) mid) in *
    end.
    intros He'. unfold_counters. cbn in Hsame, Hp.
    destruct Hsame as (E1 & E2 & E3 & E4 & E5 & E6 & E7).
    split; [ exact He' | | ].
    + unfold_counters. rewrite E6, E7. lia.
    + intros _. right. right. rewrite Hp. discriminate.
  - run_task. intros He'. split; [ exact He' | exact Hmn | ].
    intros Heq. destruct (Hb Heq) as [H | [H | H]];
      [ left; exact H | right; left; exact H | right; right; exact H ].
Qed.

(** Where the submit button is enabled, no run has been started by a
    click. *)
Lemma enabled_not_blocked (s : Driver.State) :
  Inv s -> Counted s -> Driver.mounted s = true ->
  TestTaking.submitButtonEnabled (Driver.view s) = true ->
  Driver.parked s = []
  /\ (Driver.finalize_starts (Driver.log s) <= Driver.expiries (Driver.log s))%nat.
Proof.
  intros [Hdeps Hint Hpar Hidle Hbusy Hleft Hexp] [He Hmn Hb] Hm Hbtn.
  unfold TestTaking.submitButtonEnabled in Hbtn.
  apply andb_prop in Hbtn as [Hbtn Hns]. apply andb_prop in Hbtn as [Hbtn _].
  apply andb_prop in Hbtn as [Hbtn _]. apply andb_prop in Hbtn as [Hbtn _].
  apply andb_prop in Hbtn as [_ Herr].
  apply negb_true_iff, bool_decide_eq_false in Herr.
  apply negb_true_iff, orb_false_iff in Hns as [Hns _].
  assert (Hnil : Driver.parked s = []).
  { destruct Hpar as [Hnil | (p & n & _ & _ & Hsub & _)]; [ exact Hnil | congruence ]. }
  split; [ exact Hnil | ].
  destruct (decide (Driver.finalize_starts (Driver.log s)
                    = S (Driver.expiries (Driver.log s)))) as [Heq | Hne]; [ | lia ].
  destruct (Hb Heq) as [H | [H | H]]; [ | congruence | contradiction ].
  exfalso. apply Herr, He, H.
Qed.

(** A click on the enabled submit button. *)
Lemma Counted_click (s : Driver.State) :
  Inv s -> Counted s -> Driver.mounted s = true ->
  TestTaking.submitButtonEnabled (Driver.view s) = true ->
  Counted (Driver.perform (handleSubmit (Driver.view s)) s).
Proof.
  intros HI HC Hm Hbtn.
  destruct (enabled_not_blocked s HI HC Hm Hbtn) as [Hnil Hle].
  destruct HC as [He Hmn Hb].
  pose proof (error_shown_perform (handleSubmit (Driver.view s)) s He) as He'.
  unfold TestTaking.submitButtonEnabled in Hbtn.
  apply andb_prop in Hbtn as [Hbtn Hns]. apply andb_prop in Hbtn as [Hbtn _].
  apply andb_prop in Hbtn as [_ Hts]. apply bool_decide_eq_true in Hts as [session Hts].
  apply negb_true_iff, orb_false_iff in Hns as [Hns _].
  revert He'. unfold TestTaking.handleSubmit, call. rewrite Hns. run_task.
  destruct (Backend.confirms (Driver.world s)); cbn [negb].
  - match goal with
    | |- _ (Driver.perform _ ?mid) -> _ =>
        destruct (submitTest_starts (Driver.view s) false session mid Hts)
          as (Hsame & (p & Hp & Hset) & Hm' & Hsub' & Hfail');
        set (s1 := Driver.perform (submitTest (Driver.view s) false) mid) in *
    end.
    intros He'. unfold_counters. cbn in Hsame, Hp.
    destruct Hsame as (E1 & E2 & E3 & E4 & E5 & E6 & E7).
    split; [ exact He' | | ].
    + unfold_counters. rewrite E6, E7. lia.
    + intros _. right. right. rewrite Hp. discriminate.
  - run_task. intros He'. split; [ exact He' | | ].
    + unfold_counters. cbn. lia.
    + unfold_counters. cbn. lia.
Qed.

(** The answer to the request a [submitTest] is parked at. *)
Lemma Counted_respond (s : Driver.State) (X : Type) (ev : Ev X)
    (k : X -> Prog unit) (others : list Driver.Suspended) (x : X)
    (w' : Backend.World) :
  Inv s -> Counted s -> Driver.parked s = Driver.Parked ev k :: others ->
  Counted (Driver.perform (k x)
             (Driver.mkState (Driver.view s) (Driver.interval s)
                (Driver.effect_deps s) others (Driver.mounted s) w'
                (Observed ev x :: Driver.log s))).
Proof.
  intros [Hdeps Hint Hpar Hidle Hbusy Hleft Hexp] [He Hmn Hb] Hp.
  destruct Hpar as [Hnil | (p & n & Hp' & Hset & Hsub & Hm)]; [ congruence | ].
  rewrite Hp in Hp'. injection Hp' as Hpe Ho. subst p others.
  apply settles_inv in Hset as [Hreq Hk].
  destruct (request_counters ev x (Driver.log s) Hreq) as (C1 & C2 & C3).
  set (mid := Driver.mkState (Driver.view s) (Driver.interval s)
                (Driver.effect_deps s) [] (Driver.mounted s) w'
                (Observed ev x :: Driver.log s)).
  assert (Hmid : Driver.error_shown mid).
  { unfold Driver.error_shown, mid. cbn [Driver.log Driver.view]. rewrite C2.
    exact He. }
  pose proof (error_shown_perform (k x) mid Hmid) as He'.
  specialize (Hk x mid). set (s1 := Driver.perform (k x) mid) in *.
  destruct Hk as [Hk | [Hk | Hk]].
  - destruct Hk as ((E1 & E2 & E3 & E4 & E5 & E6 & E7) & F1 & F2 & F3 & F4).
    unfold mid in E6, E7, F4. read_fields E6; read_fields E7; read_fields F4.
    split; [ exact He' | rewrite E6, E7, C1, C3; exact Hmn | ].
    intros _. left. rewrite F4. discriminate.
  - destruct Hk as ((E1 & E2 & E3 & E4 & E5 & E6 & E7) & F1 & F2 & F3 & F4).
    unfold mid in E6, E7. read_fields E6; read_fields E7.
    split; [ exact He' | rewrite E6, E7, C1, C3; exact Hmn | ].
    intros _. right. left. exact F2.
  - destruct Hk as (m & -> & Hk).
    destruct Hk as ((E1 & E2 & E3 & E4 & E5 & E6 & E7) & (p' & Hp1 & Hset') & F2 & F3 & F4).
    unfold mid in E6, E7. read_fields E6; read_fields E7.
    split; [ exact He' | rewrite E6, E7, C1, C3; exact Hmn | ].
    intros _. right. right. rewrite Hp1. discriminate.
Qed.

Lemma Counted_act (a : Driver.Action) (s : Driver.State) :
  Inv s -> Counted s -> Counted (act a s).
Proof.
  intros HI HC. destruct a as [| | | ms]; unfold Driver.act.
  - destruct (Driver.interval s) as [callback |] eqn:Hcb; [ | exact HC ].
    apply Counted_render. apply Counted_tick; assumption.
  - destruct (Driver.mounted s) eqn:Hm; cbn [andb]; [ | exact HC ].
    destruct (TestTaking.submitButtonEnabled (Driver.view s)) eqn:Hbtn; [ | exact HC ].
    apply Counted_render. apply Counted_click; assumption.
  - destruct (Driver.parked s) as [| [X ev k] others] eqn:Hp; [ exact HC | ].
    cbv zeta. apply Counted_render. apply Counted_respond; assumption.
  - destruct HC as [He Hmn Hb]. split; assumption.
Qed.

Lemma Counted_reachable (s s' : Driver.State) :
  Inv s -> Counted s -> rtc (Driver.step autoGradeMCQ roundPercent) s s' ->
  Counted s'.
Proof.
  intros HI HC Hsteps. induction Hsteps as [| s1 s2 s3 [a ->] _ IH]; [ exact HC | ].
  apply IH; [ apply Inv_act; exact HI | apply Counted_act; assumption ].
Qed.

End DriverProofs.




(* ===================================================================== *)
(** ** The countdown over time *)
(* ===================================================================== *)

(** X1. The remaining time never increases as the clock advances, and
    between two readings it drops by no more than the seconds that passed
    (rounded up). *)
Theorem remaining_time_never_increases (s : TestSession) (now1 now2 : Z) :
  now1 <= now2 ->
  Utils.calculateRemainingTime s now2 <= Utils.calculateRemainingTime s now1
  /\ Utils.calculateRemainingTime s now1 - Utils.calculateRemainingTime s now2
     <= Math_ceil_div (now2 - now1) 1000.
Proof.
  intros Hle. rewrite !utils_remaining_formula.
  unfold remainingSeconds_spec, Math_ceil_div.
  pose proof (Z.div_le_mono (now1 - started_at s) (now2 - started_at s) 1000
                ltac:(lia) ltac:(lia)) as Hmono.
  pose proof (Z.div_mod (now1 - started_at s) 1000 ltac:(lia)) as E1.
  pose proof (Z.mod_pos_bound (now1 - started_at s) 1000 ltac:(lia)) as B1.
  pose proof (Z.div_mod (now2 - started_at s) 1000 ltac:(lia)) as E2.
  pose proof (Z.mod_pos_bound (now2 - started_at s) 1000 ltac:(lia)) as B2.
  pose proof (Z.div_mod (- (now2 - now1)) 1000 ltac:(lia)) as E3.
  pose proof (Z.mod_pos_bound (- (now2 - now1)) 1000 ltac:(lia)) as B3.
  split; lia.
Qed.

(** Witness of X1: a session of 30 minutes read at 1000 and at 2500. *)
Lemma remaining_time_never_increases_witness :
  Utils.calculateRemainingTime (session30 0) 2500
  <= Utils.calculateRemainingTime (session30 0) 1000.
Proof.
  apply (remaining_time_never_increases (session30 0) 1000 2500). lia.
Defined.

Lemma isTimeExpired_iff (s : TestSession) (now : Z) :
  Utils.isTimeExpired s now = true
  <-> started_at s + duration_minutes s * 60 * 1000 <= now.
Proof.
  unfold Utils.isTimeExpired. cbv zeta.
  rewrite utils_remaining_formula. unfold remainingSeconds_spec.
  rewrite Z.leb_le.
  pose proof (Z.div_mod (now - started_at s) 1000 ltac:(lia)) as E.
  pose proof (Z.mod_pos_bound (now - started_at s) 1000 ltac:(lia)) as B.
  split; intros H; lia.
Qed.

(** X2. A session is expired exactly from the instant
    [started_at + duration_minutes] on: [isTimeExpired] holds iff the clock
    has reached that instant, and it keeps holding afterwards. *)
Theorem expired_exactly_from_the_deadline (s : TestSession) (now : Z) :
  (Utils.isTimeExpired s now = true
   <-> started_at s + duration_minutes s * 60 * 1000 <= now)
  /\ (forall later : Z, now <= later -> Utils.isTimeExpired s now = true ->
        Utils.isTimeExpired s later = true).
Proof.
  split; [ apply isTimeExpired_iff | ].
  intros later Hle H. apply isTimeExpired_iff.
  apply isTimeExpired_iff in H. lia.
Qed.

(** X3. For a session of non-negative duration: once the clock has reached
    [started_at], the remaining time is at most the whole duration; read by
    a clock that is behind [started_at], it exceeds the duration. *)
Theorem remaining_time_and_the_duration (s : TestSession) (now : Z) :
  0 <= duration_minutes s ->
  (started_at s <= now ->
   Utils.calculateRemainingTime s now <= duration_minutes s * 60)
  /\ (now < started_at s ->
      duration_minutes s * 60 < Utils.calculateRemainingTime s now).
Proof.
  intros Hd. rewrite utils_remaining_formula. unfold remainingSeconds_spec.
  pose proof (Z.div_mod (now - started_at s) 1000 ltac:(lia)) as E.
  pose proof (Z.mod_pos_bound (now - started_at s) 1000 ltac:(lia)) as B.
  split; intros H; lia.
Qed.

(** Witness of X3: the clock is one millisecond behind [started_at]. *)
Lemma remaining_time_and_the_duration_witness :
  30 * 60 < Utils.calculateRemainingTime (session30 5000) 4999.
Proof.
  apply (remaining_time_and_the_duration (session30 5000) 4999);
    simpl; lia.
Defined.
(* ===================================================================== *)
(** ** The resolvers: identity, look-up errors, new sessions *)
(* ===================================================================== *)

(** X4. Without a signed-in user both resolvers stop after the identity
    call: they throw their "not authenticated" error and send no request to
    the store; the resolver of src/components does so also when the
    identity call reports an error together with a user. *)
Theorem resolvers_require_identity (W : Type) (h : Handler W) (w : W)
    (assessmentId : string) (durationMinutes : Z) (studentId : option string) :
  let auth := (h _ AuthGetUser w).1 in
  user auth = None \/ is_Some (authError auth) ->
  let r := run h (Components.getOrCreateTestSession assessmentId
                    durationMinutes studentId) w in
  outcome r = Thrown (new_Error "Not authenticated")
  /\ trace r = [Observed AuthGetUser auth]
  /\ (user auth = None ->
      let r' := run h (Utils.getOrCreateTestSession assessmentId
                         durationMinutes) w in
      outcome r' = Thrown (new_Error "User not authenticated")
      /\ trace r' = [Observed AuthGetUser auth]).
Proof.
  cbv zeta. intros Hauth.
  unfold Components.getOrCreateTestSession, Utils.getOrCreateTestSession, call.
  cbn [run bind try_catch outcome trace final].
  destruct (h AuthResponse AuthGetUser w) as [[u ae] w'] eqn:E. cbn [fst snd] in *.
  cbn [user authError] in *.
  destruct Hauth as [-> | [e ->]]; [ destruct ae | destruct u ];
    (split; [ reflexivity | split; [ reflexivity | ] ]).
  all: intros Hu; try discriminate Hu; split; reflexivity.
Qed.

(** Witness of X4: nobody is signed in. *)
Lemma resolvers_require_identity_witness :
  outcome (run Backend.backend (Components.getOrCreateTestSession "A" 30 None)
             (Backend.mkWorld [] [] 1000 None true [] [] []))
  = Thrown (new_Error "Not authenticated").
Proof.
  exact (proj1 (resolvers_require_identity Backend.World Backend.backend
                  (Backend.mkWorld [] [] 1000 None true [] [] []) "A" 30 None
                  (or_introl eq_refl))).
Defined.

(** X5. The first look-up of the resolver of src/utils: an error whose code
    is not PGRST116 is thrown at once, after the identity call and the
    look-up, without a creation attempt; an error with code PGRST116 and no
    row is ignored, and the call goes on to a creation attempt. *)
Theorem first_lookup_error_handling (W : Type) (h : Handler W) (w : W)
    (assessmentId : string) (durationMinutes : Z) (u : AuthUser) (e : JsError) :
  let auth := h _ AuthGetUser w in
  let looked := h _ (Utils.activeSessionQuery assessmentId (user_id u)) auth.2 in
  let r := run h (Utils.getOrCreateTestSession assessmentId durationMinutes) w in
  user auth.1 = Some u ->
  error looked.1 = Some e ->
  (code e <> Some "PGRST116" ->
   outcome r = Thrown e
   /\ map call_name (trace r) = [CAuthGetUser; CSelectSessions])
  /\ (code e = Some "PGRST116" -> data looked.1 = None ->
      (1 <= creation_attempts (trace r))%nat).
Proof.
  cbv zeta. unfold Utils.activeSessionQuery. intros Hu He.
  unfold Utils.getOrCreateTestSession, Utils.activeSessionQuery, call.
  cbn [run bind try_catch outcome trace final]. rewrite Hu.
  cbn [run bind try_catch outcome trace final]. rewrite He.
  split.
  - intros Hc. rewrite bool_decide_eq_false_2 by exact Hc.
    cbn [negb run bind try_catch outcome trace final map call_name].
    split; reflexivity.
  - intros Hc Hd. rewrite bool_decide_eq_true_2 by exact Hc. rewrite Hd.
    cbn [negb Utils.creationLoop Utils.attemptBody call run bind try_catch
         outcome trace final].
    unfold creation_attempts, Utils.activeSessionQuery.
    cbn [List.filter is_insert_session length].
    lia.
Qed.

(** Witness of X5: the store holds two running sessions of the pair, so
    the look-up is answered with the PGRST116 error. *)
Lemma first_lookup_error_handling_witness :
  (1 <= creation_attempts
          (trace (run Backend.backend (Utils.getOrCreateTestSession "A" 30)
                    world_with_two_running_sessions)))%nat.
Proof.
  exact (proj2 (first_lookup_error_handling Backend.World Backend.backend
                  world_with_two_running_sessions "A" 30 (mkAuthUser "S")
                  Backend.pgrst116 eq_refl eq_refl) eq_refl eq_refl).
Defined.
(* ===================================================================== *)
(** ** The resolvers against the store: new sessions *)
(* ===================================================================== *)

Lemma filter_nil_existsb {A : Type} (f : A -> bool) (l : list A) :
  List.filter f l = [] -> existsb f l = false.
Proof.
  induction l as [| x l IH]; simpl; [ reflexivity | ].
  destruct (f x); [ discriminate | exact IH ].
Qed.

(** The store after it accepted the row [row]. *)
Lemma insert_session_accepted (row : NewSession) (w : Backend.World) :
  Backend.insert_session_faults w = [] ->
  new_is_completed row = false ->
  List.filter (Backend.active_for (new_assessment_id row) (new_student_id row))
    (Backend.sessions w) = [] ->
  Backend.insert_session row w
  = (mkPgResponse (Some (Backend.new_row row w)) None,
     Backend.mkWorld (Backend.sessions w ++ [Backend.new_row row w])
       (Backend.submissions w) (Backend.clock w) (Backend.identity w)
       (Backend.confirms w) [] (Backend.update_session_faults w)
       (Backend.insert_submission_faults w)).
Proof.
  intros Hf Hc Hn. unfold Backend.insert_session.
  rewrite Hf, Hc, (filter_nil_existsb _ _ Hn). reflexivity.
Qed.

Lemma utils_resolver_creates (w : Backend.World) (assessmentId : string)
    (durationMinutes : Z) (u : AuthUser) :
  Backend.identity w = Some u ->
  Backend.insert_session_faults w = [] ->
  List.filter (Backend.active_for assessmentId (user_id u)) (Backend.sessions w)
  = [] ->
  let row := mkNewSession assessmentId (user_id u) (Backend.clock w)
               durationMinutes false in
  run Backend.backend
    (Utils.getOrCreateTestSession assessmentId durationMinutes) w
  = mkRunResult (Returned (Backend.new_row row w))
      (Backend.insert_session row w).2
      [Observed AuthGetUser (mkAuthResponse (Some u) None);
       Observed (Utils.activeSessionQuery assessmentId (user_id u))
         (mkPgResponse None None);
       Observed DateNow (Backend.clock w);
       Observed (InsertSession row)
         (mkPgResponse (Some (Backend.new_row row w)) None)].
Proof.
  intros Hid Hf Hn. cbv zeta.
  pose proof (insert_session_accepted
                (mkNewSession assessmentId (user_id u) (Backend.clock w)
                   durationMinutes false) w Hf eq_refl Hn) as Hins.
  rewrite Hins.
  unfold Utils.getOrCreateTestSession, Utils.activeSessionQuery, call.
  cbn [run bind try_catch Backend.backend fst snd]. rewrite Hid.
  cbn [user run bind try_catch Backend.backend fst snd].
  unfold Backend.select_sessions.
  change (Backend.matches
            [EqAssessmentId assessmentId; EqStudentId (user_id u);
             EqIsCompleted false])
    with (Backend.active_for assessmentId (user_id u)).
  rewrite Hn.
  cbn [Backend.close_select fst snd data error Utils.creationLoop
       Utils.attemptBody call run bind try_catch Backend.backend].
  rewrite Hins.
  cbn [fst snd data error run bind try_catch outcome final trace
       Utils.finalRetrieval].
  rewrite ?Hid. reflexivity.
Qed.

Lemma utils_resolver_resumes (w : Backend.World) (assessmentId : string)
    (durationMinutes : Z) (u : AuthUser) (s : TestSession) :
  Backend.identity w = Some u ->
  List.filter (Backend.active_for assessmentId (user_id u)) (Backend.sessions w)
  = [s] ->
  run Backend.backend
    (Utils.getOrCreateTestSession assessmentId durationMinutes) w
  = mkRunResult (Returned s) w
      [Observed AuthGetUser (mkAuthResponse (Some u) None);
       Observed (Utils.activeSessionQuery assessmentId (user_id u))
         (mkPgResponse (Some s) None)].
Proof.
  intros Hid Hrows.
  unfold Utils.getOrCreateTestSession, Utils.activeSessionQuery, call.
  cbn [run bind try_catch Backend.backend fst snd]. rewrite Hid.
  cbn [user run bind try_catch Backend.backend fst snd].
  unfold Backend.select_sessions.
  change (Backend.matches
            [EqAssessmentId assessmentId; EqStudentId (user_id u);
             EqIsCompleted false])
    with (Backend.active_for assessmentId (user_id u)).
  rewrite Hrows. reflexivity.
Qed.

Lemma components_resolver_creates (w : Backend.World) (assessmentId : string)
    (durationMinutes : Z) (studentId : option string) (u : AuthUser) :
  Backend.identity w = Some u ->
  Backend.insert_session_faults w = [] ->
  List.filter (Backend.active_for assessmentId (Components.userIdOf studentId u))
    (Backend.sessions w) = [] ->
  let row := mkNewSession assessmentId (Components.userIdOf studentId u)
               (Backend.clock w) durationMinutes false in
  run Backend.backend
    (Components.getOrCreateTestSession assessmentId durationMinutes studentId) w
  = mkRunResult (Returned (Backend.new_row row w))
      (Backend.insert_session row w).2
      [Observed AuthGetUser (mkAuthResponse (Some u) None);
       Observed (SelectSessions
                   [EqAssessmentId assessmentId;
                    EqStudentId (Components.userIdOf studentId u);
                    EqIsCompleted false] Single)
         (mkPgResponse None (Some Backend.pgrst116));
       Observed DateNow (Backend.clock w);
       Observed (InsertSession row)
         (mkPgResponse (Some (Backend.new_row row w)) None)].
Proof.
  intros Hid Hf Hn. cbv zeta.
  pose proof (insert_session_accepted
                (mkNewSession assessmentId (Components.userIdOf studentId u)
                   (Backend.clock w) durationMinutes false) w Hf eq_refl Hn)
    as Hins.
  rewrite Hins.
  unfold Components.getOrCreateTestSession, call.
  cbn [run bind try_catch Backend.backend fst snd]. rewrite Hid.
  cbn [user authError run bind try_catch Backend.backend fst snd].
  unfold Backend.select_sessions.
  change (Backend.matches
            [EqAssessmentId assessmentId;
             EqStudentId (Components.userIdOf studentId u);
             EqIsCompleted false])
    with (Backend.active_for assessmentId (Components.userIdOf studentId u)).
  rewrite Hn.
  cbn [Backend.close_select fst snd data error call run bind try_catch
       Backend.backend].
  rewrite Hins.
  cbn [fst snd data error run bind try_catch outcome final trace
       Utils.finalRetrieval].
  rewrite ?Hid. reflexivity.
Qed.

(** X6. Where the store holds no running session of the signed-in student
    for the assessment and accepts the insert, [getOrCreateTestSession]
    creates one at the first attempt, without waiting: the returned row
    belongs to the pair, is not completed, starts at the instant the call
    read the clock, and is the only row added; read at that instant it has
    its whole duration left. *)
Theorem new_session_has_full_duration (w : Backend.World)
    (assessmentId : string) (durationMinutes : Z) (u : AuthUser) :
  Backend.identity w = Some u ->
  Backend.insert_session_faults w = [] ->
  List.filter (Backend.active_for assessmentId (user_id u)) (Backend.sessions w)
  = [] ->
  0 <= durationMinutes ->
  let r := run Backend.backend
             (Utils.getOrCreateTestSession assessmentId durationMinutes) w in
  exists s,
    outcome r = Returned s
    /\ Backend.sessions (final r) = Backend.sessions w ++ [s]
    /\ assessment_id s = assessmentId /\ student_id s = user_id u
    /\ is_completed s = false /\ submitted_at s = None
    /\ started_at s = Backend.clock w
    /\ duration_minutes s = durationMinutes
    /\ creation_attempts (trace r) = 1%nat
    /\ waits (trace r) = []
    /\ Utils.calculateRemainingTime s (Backend.clock w) = durationMinutes * 60.
Proof.
  intros Hid Hf Hn Hd. cbv zeta.
  rewrite (utils_resolver_creates w assessmentId durationMinutes u Hid Hf Hn).
  rewrite (insert_session_accepted
             (mkNewSession assessmentId (user_id u) (Backend.clock w)
                durationMinutes false) w Hf eq_refl Hn).
  eexists. cbn [outcome final trace Backend.sessions snd].
  repeat split; try reflexivity.
  rewrite utils_remaining_formula. unfold remainingSeconds_spec.
  cbn [Backend.new_row duration_minutes started_at new_started_at
       new_duration_minutes].
  rewrite Z.sub_diag. change (0 / 1000) with 0. lia.
Qed.

(** Witness of X6: student S opens assessment A on an empty store. *)
Lemma new_session_has_full_duration_witness :
  exists s,
    outcome (run Backend.backend (Utils.getOrCreateTestSession "A" 30)
               empty_world) = Returned s
    /\ Utils.calculateRemainingTime s 1000 = 30 * 60.
Proof.
  destruct (new_session_has_full_duration empty_world "A" 30 (mkAuthUser "S")
              eq_refl eq_refl eq_refl ltac:(lia))
    as (s & Ho & _ & _ & _ & _ & _ & _ & _ & _ & _ & Hr).
  exists s. split; [ exact Ho | exact Hr ].
Defined.

(** X7. On a store that keeps the uniqueness constraint and has no fault
    pending for an insert, the resolver of src/utils and the resolver of
    src/components (called without a student id) return the same session
    and leave the same store. *)
Theorem resolvers_agree_without_faults (w : Backend.World)
    (assessmentId : string) (durationMinutes : Z) (u : AuthUser) :
  Backend.identity w = Some u ->
  Backend.insert_session_faults w = [] ->
  Backend.unique_active (Backend.sessions w) ->
  let r1 := run Backend.backend
              (Utils.getOrCreateTestSession assessmentId durationMinutes) w in
  let r2 := run Backend.backend
              (Components.getOrCreateTestSession assessmentId durationMinutes
                 None) w in
  outcome r1 = outcome r2 /\ final r1 = final r2
  /\ exists s, outcome r1 = Returned s.
Proof.
  intros Hid Hf Hu. cbv zeta.
  destruct (List.filter (Backend.active_for assessmentId (user_id u))
              (Backend.sessions w)) as [| s [| s' l]] eqn:Hrows.
  - rewrite (utils_resolver_creates w assessmentId durationMinutes u Hid Hf Hrows).
    rewrite (components_resolver_creates w assessmentId durationMinutes None u
               Hid Hf Hrows).
    cbn [outcome final Components.userIdOf]. eauto.
  - pose proof (utils_resolver_resumes w assessmentId durationMinutes u s Hid
                  Hrows) as Hrun1.
    assert (Hrun2 : run Backend.backend
              (Components.getOrCreateTestSession assessmentId durationMinutes
                 None) w
            = mkRunResult (Returned s) w
                [Observed AuthGetUser (mkAuthResponse (Some u) None);
                 Observed (SelectSessions
                             [EqAssessmentId assessmentId;
                              EqStudentId (user_id u); EqIsCompleted false]
                             Single)
                   (mkPgResponse (Some s) None)]).
    { unfold Components.getOrCreateTestSession, call.
      cbn [run bind try_catch Backend.backend fst snd]. rewrite Hid.
      cbn [user authError Components.userIdOf run bind try_catch
           Backend.backend fst snd].
      unfold Backend.select_sessions.
      change (Backend.matches
                [EqAssessmentId assessmentId; EqStudentId (user_id u);
                 EqIsCompleted false])
        with (Backend.active_for assessmentId (user_id u)).
      rewrite Hrows. reflexivity. }
    rewrite Hrun1, Hrun2. cbn [outcome final]. eauto.
  - specialize (Hu assessmentId (user_id u)). rewrite Hrows in Hu.
    simpl in Hu. lia.
Qed.

(** Witness of X7: the store of [world_with_running_session]. *)
Lemma resolvers_agree_without_faults_witness :
  outcome (run Backend.backend (Utils.getOrCreateTestSession "A" 30)
             world_with_running_session)
  = outcome (run Backend.backend
               (Components.getOrCreateTestSession "A" 30 None)
               world_with_running_session).
Proof.
  refine (proj1 (resolvers_agree_without_faults world_with_running_session
                   "A" 30 (mkAuthUser "S") eq_refl eq_refl _)).
  intros a s. unfold world_with_running_session.
  cbn [Backend.sessions List.filter].
  assert (Hfin : Backend.active_for a s finished_session = false).
  { unfold Backend.active_for, Backend.matches. simpl.
    rewrite !andb_false_r. reflexivity. }
  rewrite Hfin.
  destruct (Backend.active_for a s running_session); simpl; lia.
Defined.

(** X8. The resolver of src/components creates the session for the
    student id its caller passes, whoever is signed in: the identity call
    only has to succeed. Without a student id, or with an empty one, the
    session belongs to the signed-in user. *)
Theorem components_resolver_uses_the_given_student (w : Backend.World)
    (assessmentId : string) (durationMinutes : Z) (studentId : option string)
    (u : AuthUser) :
  Backend.identity w = Some u ->
  Backend.insert_session_faults w = [] ->
  List.filter (Backend.active_for assessmentId (Components.userIdOf studentId u))
    (Backend.sessions w) = [] ->
  let r := run Backend.backend
             (Components.getOrCreateTestSession assessmentId durationMinutes
                studentId) w in
  exists s,
    outcome r = Returned s
    /\ Backend.sessions (final r) = Backend.sessions w ++ [s]
    /\ assessment_id s = assessmentId
    /\ (forall given, studentId = Some given -> given <> "" ->
          student_id s = given)
    /\ (studentId = None \/ studentId = Some "" -> student_id s = user_id u).
Proof.
  intros Hid Hf Hn. cbv zeta.
  rewrite (components_resolver_creates w assessmentId durationMinutes studentId u
             Hid Hf Hn).
  rewrite (insert_session_accepted
             (mkNewSession assessmentId (Components.userIdOf studentId u)
                (Backend.clock w) durationMinutes false) w Hf eq_refl Hn).
  eexists. cbn [outcome final snd Backend.sessions].
  split; [ reflexivity | ]. split; [ reflexivity | ]. split; [ reflexivity | ].
  cbn [Backend.new_row student_id new_student_id]. split.
  - intros given -> Hne. cbn [Components.userIdOf].
    destruct (String.eqb_spec given ""); [ contradiction | reflexivity ].
  - intros [-> | ->]; reflexivity.
Qed.

(** Witness of X8: student S is signed in and the caller passes the id
    T. *)
Lemma components_resolver_uses_the_given_student_witness :
  exists s,
    outcome (run Backend.backend
               (Components.getOrCreateTestSession "A" 30 (Some "T"))
               empty_world) = Returned s
    /\ student_id s = "T".
Proof.
  destruct (components_resolver_uses_the_given_student empty_world "A" 30
              (Some "T") (mkAuthUser "S") eq_refl eq_refl eq_refl)
    as (s & Ho & _ & _ & Hgiven & _).
  exists s. split; [ exact Ho | ]. apply (Hgiven "T"); [ reflexivity | discriminate ].
Defined.
(* ===================================================================== *)
(** ** Completing a session and reading sessions back *)
(* ===================================================================== *)

Lemma run_rethrow {W R : Type} (h : Handler W) (p : Prog R) :
  forall w : W, run h (try_catch p (fun e => Throw e)) w = run h p w.
Proof.
  induction p as [r | e | X ev k IH]; intros w; try reflexivity.
  cbn [try_catch run]. rewrite IH. reflexivity.
Qed.

(** X9. The two [completeTestSession] implementations behave alike in
    every environment: the same calls with the same answers, the same
    result or error, the same final state. *)
Theorem completeTestSession_versions_agree (W : Type) (h : Handler W) (w : W)
    (sessionId : string) :
  run h (Utils.completeTestSession sessionId) w
  = run h (Components.completeTestSession sessionId) w.
Proof.
  unfold Utils.completeTestSession. rewrite run_rethrow. reflexivity.
Qed.

Lemma matches_id (sid : string) (row : TestSession) :
  Backend.matches [EqId sid] row = String.eqb (id row) sid.
Proof. unfold Backend.matches. simpl. apply andb_true_r. Qed.

Lemma run_completeTestSession (w : Backend.World) (sid : string) :
  run Backend.backend (Utils.completeTestSession sid) w
  = mkRunResult
      (match Backend.update_session_faults w with
       | [] => Returned tt
       | e :: _ => Thrown e
       end)
      (Backend.update_sessions (mkSessionPatch (Backend.clock w) true)
         [EqId sid] w).2
      [Observed DateNow (Backend.clock w);
       Observed (UpdateSessions (mkSessionPatch (Backend.clock w) true) [EqId sid])
         (mkPgResponse None (head (Backend.update_session_faults w)))].
Proof.
  unfold Utils.completeTestSession. rewrite run_rethrow. unfold call.
  cbn [run bind Backend.backend fst snd]. unfold Backend.update_sessions.
  destruct (Backend.update_session_faults w); reflexivity.
Qed.

(** X10. What [completeTestSession] does to the store. It changes no row
    with another id, keeps the number of rows, the submissions and the
    other fields of every row, and turns no completed row back into a
    running one. Where the store accepts the write, every row with the id
    is completed and stamped with the instant of the call; where the store
    rejects it, the error is thrown and the rows are as before. *)
Theorem completion_touches_only_its_session (w : Backend.World) (sid : string) :
  let r := run Backend.backend (Utils.completeTestSession sid) w in
  length (Backend.sessions (final r)) = length (Backend.sessions w)
  /\ Backend.submissions (final r) = Backend.submissions w
  /\ (forall i row, Backend.sessions w !! i = Some row ->
        exists row', Backend.sessions (final r) !! i = Some row'
          /\ (id row <> sid -> row' = row)
          /\ (is_completed row = true -> is_completed row' = true)
          /\ id row' = id row /\ assessment_id row' = assessment_id row
          /\ student_id row' = student_id row
          /\ started_at row' = started_at row
          /\ duration_minutes row' = duration_minutes row)
  /\ match Backend.update_session_faults w with
     | [] =>
         outcome r = Returned tt
         /\ forall row', row' ∈ Backend.sessions (final r) -> id row' = sid ->
              is_completed row' = true
              /\ submitted_at row' = Some (Backend.clock w)
     | e :: _ =>
         outcome r = Thrown e
         /\ Backend.sessions (final r) = Backend.sessions w
     end.
Proof.
  cbv zeta. rewrite run_completeTestSession. cbn [outcome final].
  unfold Backend.update_sessions.
  destruct (Backend.update_session_faults w) as [| e rest];
    cbn [snd Backend.sessions Backend.submissions].
  - split; [ apply length_map | ]. split; [ reflexivity | ]. split.
    + intros i row Hrow. rewrite list_lookup_fmap, Hrow. cbn [fmap option_fmap option_map].
      eexists. split; [ reflexivity | ]. rewrite matches_id.
      destruct (String.eqb_spec (id row) sid) as [Heq | Hne].
      * repeat split; try reflexivity. intros Hne. contradiction.
      * repeat split; reflexivity || auto.
    + split; [ reflexivity | ].
      intros row' Hin Hid. apply list_elem_of_fmap in Hin as (row & -> & _).
      rewrite matches_id in *.
      destruct (String.eqb_spec (id row) sid) as [Heq | Hne].
      * split; reflexivity.
      * contradiction.
  - split; [ reflexivity | ]. split; [ reflexivity | ]. split.
    + intros i row Hrow. exists row. repeat split; auto.
    + split; reflexivity.
Qed.

(** X11. Completing a session a second time, [ms] milliseconds later,
    moves its [submitted_at] to the later instant: the completion write is
    not idempotent. *)
Theorem second_completion_moves_submission_time (w : Backend.World)
    (sid : string) (ms : Z) :
  Backend.update_session_faults w = [] ->
  let r1 := run Backend.backend (Utils.completeTestSession sid) w in
  let r2 := run Backend.backend (Utils.completeTestSession sid)
              (Backend.advance ms (final r1)) in
  outcome r1 = Returned tt /\ outcome r2 = Returned tt
  /\ (forall row, row ∈ Backend.sessions (final r1) -> id row = sid ->
        submitted_at row = Some (Backend.clock w))
  /\ (forall row, row ∈ Backend.sessions (final r2) -> id row = sid ->
        submitted_at row = Some (Backend.clock w + Z.max 0 ms)
        /\ is_completed row = true).
Proof.
  intros Hup. cbv zeta. rewrite !run_completeTestSession. cbn [outcome final].
  unfold Backend.update_sessions. rewrite Hup.
  cbn [snd Backend.advance Backend.sessions Backend.update_session_faults
       Backend.clock].
  assert (Hrows : forall (t : Z) (rows : list TestSession) (row : TestSession),
             row ∈ map (fun r => if Backend.matches [EqId sid] r
                                 then Backend.apply_patch (mkSessionPatch t true) r
                                 else r) rows ->
             id row = sid ->
             submitted_at row = Some t /\ is_completed row = true).
  { intros t rows row Hin Hid.
    apply list_elem_of_fmap in Hin as (row0 & -> & _). rewrite matches_id in *.
    destruct (String.eqb_spec (id row0) sid); [ split; reflexivity | contradiction ]. }
  split; [ reflexivity | ]. split; [ reflexivity | ]. split.
  - intros row Hin Hid. exact (proj1 (Hrows _ _ row Hin Hid)).
  - intros row Hin Hid. exact (Hrows _ _ row Hin Hid).
Qed.

(** Witness of X11: the running session of [world_with_running_session],
    completed at 1000 and again 500 ms later. *)
Lemma second_completion_moves_submission_time_witness :
  let r1 := run Backend.backend (Utils.completeTestSession "ts-1")
              world_with_running_session in
  let r2 := run Backend.backend (Utils.completeTestSession "ts-1")
              (Backend.advance 500 (final r1)) in
  let row := mkTestSession "ts-1" "A" "S" 500 (Some 1500) 30 true 500 in
  row ∈ Backend.sessions (final r2) /\ submitted_at row = Some (1000 + Z.max 0 500).
Proof.
  cbv zeta.
  assert (Hin : mkTestSession "ts-1" "A" "S" 500 (Some 1500) 30 true 500
                ∈ Backend.sessions
                    (final (run Backend.backend (Utils.completeTestSession "ts-1")
                              (Backend.advance 500
                                 (final (run Backend.backend
                                           (Utils.completeTestSession "ts-1")
                                           world_with_running_session)))))).
  { apply list_elem_of_In. vm_compute. right. left. reflexivity. }
  split; [ exact Hin | ].
  exact (proj1 (proj2 (proj2 (proj2
           (second_completion_moves_submission_time world_with_running_session
              "ts-1" 500 eq_refl))) _ Hin eq_refl)).
Defined.

Lemma filter_patched (sid : string) (p : SessionPatch) (rows : list TestSession) :
  List.filter (Backend.matches [EqId sid])
    (map (fun r => if Backend.matches [EqId sid] r
                   then Backend.apply_patch p r else r) rows)
  = map (Backend.apply_patch p) (List.filter (Backend.matches [EqId sid]) rows).
Proof.
  induction rows as [| r rows IH]; [ reflexivity | ].
  cbn [map List.filter]. destruct (Backend.matches [EqId sid] r) eqn:Hm.
  - assert (Hm' : Backend.matches [EqId sid] (Backend.apply_patch p r) = true).
    { rewrite matches_id in *. exact Hm. }
    rewrite Hm'. cbn [map]. rewrite IH. reflexivity.
  - rewrite Hm. exact IH.
Qed.

Lemma run_getTestSessionById (w : Backend.World) (sid : string) :
  outcome (run Backend.backend (Components.getTestSessionById sid) w)
  = Returned
      (match List.filter (Backend.matches [EqId sid]) (Backend.sessions w) with
       | [row] => Some row
       | _ => None
       end)
  /\ final (run Backend.backend (Components.getTestSessionById sid) w) = w.
Proof.
  unfold Components.getTestSessionById, call.
  cbn [run bind Backend.backend fst snd outcome final].
  unfold Backend.select_sessions. cbn [fst snd].
  destruct (List.filter (Backend.matches [EqId sid]) (Backend.sessions w))
    as [| row [| row' rows]]; split; reflexivity.
Qed.

(** X12. Write and read back: where the store holds exactly one row with
    the id of [s], [getTestSessionById] returns [s]; after an accepted
    [completeTestSession] it returns the same row completed and stamped
    with the instant of the completion. An id that no row or several rows
    carry is answered with [null], not with an error. *)
Theorem completed_session_reads_back (w : Backend.World) (s : TestSession) :
  Backend.update_session_faults w = [] ->
  List.filter (Backend.matches [EqId (id s)]) (Backend.sessions w) = [s] ->
  let r1 := run Backend.backend (Utils.completeTestSession (id s)) w in
  let r2 := run Backend.backend (Components.getTestSessionById (id s))
              (final r1) in
  outcome (run Backend.backend (Components.getTestSessionById (id s)) w)
  = Returned (Some s)
  /\ outcome r2
     = Returned (Some (mkTestSession (id s) (assessment_id s) (student_id s)
                         (started_at s) (Some (Backend.clock w))
                         (duration_minutes s) true (created_at s)))
  /\ (forall sid,
        length (List.filter (Backend.matches [EqId sid]) (Backend.sessions w))
        <> 1%nat ->
        outcome (run Backend.backend (Components.getTestSessionById sid) w)
        = Returned None).
Proof.
  intros Hup Hone. cbv zeta. split; [ | split ].
  - rewrite (proj1 (run_getTestSessionById w (id s))), Hone. reflexivity.
  - rewrite (proj1 (run_getTestSessionById _ (id s))).
    rewrite run_completeTestSession. cbn [final].
    unfold Backend.update_sessions. rewrite Hup. cbn [snd Backend.sessions].
    rewrite filter_patched, Hone. reflexivity.
  - intros sid Hlen. rewrite (proj1 (run_getTestSessionById w sid)).
    destruct (List.filter (Backend.matches [EqId sid]) (Backend.sessions w))
      as [| row [| row' rows]]; try reflexivity.
    simpl in Hlen. congruence.
Qed.

(** Witness of X12: the running session of
    [world_with_running_session]. *)
Lemma completed_session_reads_back_witness :
  outcome (run Backend.backend (Components.getTestSessionById "ts-1")
             (final (run Backend.backend (Utils.completeTestSession "ts-1")
                       world_with_running_session)))
  = Returned (Some (mkTestSession "ts-1" "A" "S" 500 (Some 1000) 30 true 500)).
Proof.
  exact (proj1 (proj2 (completed_session_reads_back world_with_running_session
                         running_session eq_refl eq_refl))).
Defined.
Lemma active_for_pair (a s : string) (r : TestSession) :
  Backend.active_for a s r
  = Backend.matches [EqAssessmentId a; EqStudentId s] r && negb (is_completed r).
Proof.
  unfold Backend.active_for, Backend.matches. simpl.
  destruct (String.eqb (assessment_id r) a), (String.eqb (student_id r) s),
    (is_completed r); reflexivity.
Qed.

Lemma filter_active_of_pair (a s : string) (rows : list TestSession) :
  List.filter (Backend.active_for a s) rows
  = List.filter (fun r => negb (is_completed r))
      (List.filter (Backend.matches [EqAssessmentId a; EqStudentId s]) rows).
Proof.
  induction rows as [| r rows IH]; [ reflexivity | ].
  cbn [List.filter]. rewrite active_for_pair.
  destruct (Backend.matches [EqAssessmentId a; EqStudentId s] r);
    cbn [andb List.filter]; [ | exact IH ].
  destruct (is_completed r); cbn [negb]; rewrite IH; reflexivity.
Qed.

Lemma run_getStudentTestSession (w : Backend.World) (a s : string) :
  outcome (run Backend.backend (Utils.getStudentTestSession a s) w)
  = match List.filter (Backend.matches [EqAssessmentId a; EqStudentId s])
            (Backend.sessions w) with
    | [] => Returned None
    | [row] => Returned (Some row)
    | _ => Thrown Backend.pgrst116
    end.
Proof.
  unfold Utils.getStudentTestSession. rewrite run_rethrow. unfold call.
  cbn [run bind Backend.backend fst snd outcome].
  unfold Backend.select_sessions. cbn [fst snd].
  destruct (List.filter (Backend.matches [EqAssessmentId a; EqStudentId s])
              (Backend.sessions w)) as [| row [| row' rows]]; reflexivity.
Qed.

(** X13. A student whose only session for an assessment is completed:
    [getStudentTestSession] returns that session. When the student opens
    the assessment again, [getOrCreateTestSession] creates a second,
    running session for the pair (the look-up does not match the completed
    one), and from then on [getStudentTestSession] fails with the
    several-rows error PGRST116, its [.maybeSingle()] look-up having no
    filter on [is_completed]. *)
Theorem reopening_breaks_the_student_lookup (w : Backend.World)
    (assessmentId : string) (durationMinutes : Z) (u : AuthUser)
    (c : TestSession) :
  Backend.identity w = Some u ->
  Backend.insert_session_faults w = [] ->
  List.filter (Backend.matches
                 [EqAssessmentId assessmentId; EqStudentId (user_id u)])
    (Backend.sessions w) = [c] ->
  is_completed c = true ->
  let r0 := run Backend.backend
              (Utils.getStudentTestSession assessmentId (user_id u)) w in
  let r1 := run Backend.backend
              (Utils.getOrCreateTestSession assessmentId durationMinutes) w in
  let r2 := run Backend.backend
              (Utils.getStudentTestSession assessmentId (user_id u))
              (final r1) in
  outcome r0 = Returned (Some c)
  /\ (exists s, outcome r1 = Returned s /\ is_completed s = false
                /\ Backend.sessions (final r1) = Backend.sessions w ++ [s])
  /\ outcome r2 = Thrown Backend.pgrst116.
Proof.
  intros Hid Hf Hpair Hc. cbv zeta.
  assert (Hn : List.filter (Backend.active_for assessmentId (user_id u))
                 (Backend.sessions w) = []).
  { rewrite filter_active_of_pair, Hpair. cbn [List.filter]. rewrite Hc.
    reflexivity. }
  split; [ rewrite run_getStudentTestSession, Hpair; reflexivity | ].
  rewrite (utils_resolver_creates w assessmentId durationMinutes u Hid Hf Hn).
  rewrite (insert_session_accepted
             (mkNewSession assessmentId (user_id u) (Backend.clock w)
                durationMinutes false) w Hf eq_refl Hn).
  cbn [outcome final snd]. split.
  - eexists. repeat split; reflexivity.
  - rewrite run_getStudentTestSession. cbn [Backend.sessions].
    rewrite List.filter_app, Hpair. cbn [List.filter app].
    unfold Backend.matches at 1.
    cbn [forallb Backend.cond_holds Backend.new_row assessment_id student_id
         new_assessment_id new_student_id].
    rewrite !String.eqb_refl. reflexivity.
Qed.

(** Witness of X13: the store of [world_with_finished_session]. *)
Lemma reopening_breaks_the_student_lookup_witness :
  outcome (run Backend.backend (Utils.getStudentTestSession "A" "S")
             (final (run Backend.backend (Utils.getOrCreateTestSession "A" 30)
                       world_with_finished_session)))
  = Thrown Backend.pgrst116.
Proof.
  exact (proj2 (proj2 (reopening_breaks_the_student_lookup
                         world_with_finished_session "A" 30 (mkAuthUser "S")
                         finished_session eq_refl eq_refl eq_refl eq_refl))).
Defined.
(* ===================================================================== *)
(** ** The test-taking page: submitting, ticking, answering *)
(* ===================================================================== *)

(** X14. Where the store accepts both writes, [submitTest] completes the
    session and adds exactly one submission row: it refers to the session
    and the student, carries the answers, the MCQ score, no theory score,
    the percentage (0 when the questions carry no marks), the
    [is_auto_submitted] flag it was called with and the instant of the
    insert; the page then goes to the result of that submission and
    [submitting] is reset. *)
Theorem submitTest_records_one_submission
    (autoGradeMCQ : list Question -> gmap string string -> Z)
    (roundPercent : Z -> Z -> Z)
    (w : Backend.World) (v : TestTaking.View) (isAutoSubmit : bool)
    (session : TestSession) :
  TestTaking.testSession v = Some session ->
  Backend.update_session_faults w = [] ->
  Backend.insert_submission_faults w = [] ->
  let r := run Backend.backend
             (TestTaking.submitTest autoGradeMCQ roundPercent v isAutoSubmit) w in
  let mcqScore := autoGradeMCQ (TestTaking.questions v) (TestTaking.answers v) in
  let totalMarks :=
    fold_left (fun sum q => sum + marks q) (TestTaking.questions v) 0 in
  let submission :=
    mkSubmission ("sub-" +:+ pretty (length (Backend.submissions w)))
      (mkNewSubmission (TestTaking.assessmentId v)
         (user_id (TestTaking.userProp v)) (id session) (TestTaking.answers v)
         mcqScore None
         (if 0 <? totalMarks then roundPercent mcqScore totalMarks else 0)
         isAutoSubmit (Backend.clock w)) in
  outcome r = Returned tt
  /\ Backend.submissions (final r) = Backend.submissions w ++ [submission]
  /\ Backend.sessions (final r)
     = map (fun row => if Backend.matches [EqId (id session)] row
                       then Backend.apply_patch
                              (mkSessionPatch (Backend.clock w) true) row
                       else row)
         (Backend.sessions w)
  /\ map call_name (trace r)
     = [CUi (SetSubmitting true); CDateNow; CUpdateSessions; CDateNow;
        CInsertSubmission;
        CUi (Alert (if isAutoSubmit
                    then "✅ Test auto-submitted due to time expiry!"
                    else "✅ Test submitted successfully!"));
        CUi (Navigate ("/results/" +:+ submission_id submission));
        CUi (SetSubmitting false)].
Proof.
  intros Hts Hup Hsub.
  destruct w as [ss subs clk idn conf isf usf issf]. simpl in Hup, Hsub.
  subst usf issf. unfold TestTaking.submitTest. rewrite Hts. cbv zeta.
  repeat split; reflexivity.
Qed.

(** Witness of X14: the page of [running_view] against the store of
    [world_with_running_session]. *)
Lemma submitTest_records_one_submission_witness :
  outcome (run Backend.backend
             (TestTaking.submitTest (fun _ _ => 0) (fun _ _ => 0) running_view
                true)
             world_with_running_session)
  = Returned tt.
Proof.
  exact (proj1 (submitTest_records_one_submission (fun _ _ => 0) (fun _ _ => 0)
                  world_with_running_session running_view true running_session
                  eq_refl eq_refl eq_refl)).
Defined.

(** X15. A manual submit does nothing without the student's consent: while
    a submission is in progress [handleSubmit] makes no call at all, and
    unless the student answers the confirmation with OK it makes no call
    but the confirmation itself -- no write to the store, no change of the
    page. *)
Theorem manual_submit_needs_confirmation
    (autoGradeMCQ : list Question -> gmap string string -> Z)
    (roundPercent : Z -> Z -> Z)
    (W : Type) (h : Handler W) (w : W) (v : TestTaking.View) :
  let r := run h (TestTaking.handleSubmit autoGradeMCQ roundPercent v) w in
  TestTaking.submitting v = true \/ existsb confirmed (trace r) = false ->
  outcome r = Returned tt
  /\ map call_name (trace r)
     = (if TestTaking.submitting v then [] else [CConfirm]).
Proof.
  cbv zeta. unfold TestTaking.handleSubmit, call.
  destruct (TestTaking.submitting v); [ intros _; split; reflexivity | ].
  cbn [run bind outcome trace].
  destruct (h bool (Confirm "Are you sure you want to submit your test?") w)
    as [[|] w']; cbn [fst snd negb].
  - intros [Hs | Hc]; [ discriminate Hs | ].
    cbn [existsb confirmed orb] in Hc. discriminate Hc.
  - intros _. split; reflexivity.
Qed.

(** Witness of X15: a submission is already in progress. *)
Lemma manual_submit_needs_confirmation_witness :
  let v := TestTaking.mkView (Some "A") (mkAuthUser "S")
             (Some (TestTaking.mkAssessment 30)) [mkQuestion "q1" 1] ∅ 1770
             false true (Some running_session) false None in
  trace (run Backend.backend
           (TestTaking.handleSubmit (fun _ _ => 0) (fun _ _ => 0) v)
           world_with_running_session) = [].
Proof.
  cbv zeta.
  pose proof (proj2 (manual_submit_needs_confirmation (fun _ _ => 0)
                       (fun _ _ => 0) Backend.World Backend.backend
                       world_with_running_session
                       (TestTaking.mkView (Some "A") (mkAuthUser "S")
                          (Some (TestTaking.mkAssessment 30))
                          [mkQuestion "q1" 1] ∅ 1770 false true
                          (Some running_session) false None)
                       (or_introl eq_refl))) as H.
  apply map_eq_nil in H. exact H.
Defined.

(** X16. A tick of the countdown before the deadline of the session only
    reads the clock and shows the remaining time, which is positive: it
    does not mark the time as expired, does not stop the interval and
    starts no submission. *)
Theorem tick_before_the_deadline_only_shows_the_time
    (autoGradeMCQ : list Question -> gmap string string -> Z)
    (roundPercent : Z -> Z -> Z)
    (W : Type) (h : Handler W) (w : W) (v : TestTaking.View)
    (session : TestSession) :
  let now := (h _ DateNow w).1 in
  let r := run h (TestTaking.timerCallback autoGradeMCQ roundPercent v session) w in
  now < started_at session + duration_minutes session * 60 * 1000 ->
  outcome r = Returned tt
  /\ map call_name (trace r)
     = [CDateNow; CUi (SetTimeLeft (Utils.calculateRemainingTime session now))]
  /\ 0 < Utils.calculateRemainingTime session now.
Proof.
  cbv zeta. intros Hnow. unfold TestTaking.timerCallback, call.
  cbn [run bind outcome trace].
  pose proof (isTimeExpired_iff session (h Z DateNow w).1) as Hiff.
  unfold Utils.isTimeExpired in Hiff. cbv zeta in Hiff.
  destruct (Utils.calculateRemainingTime session (h Z DateNow w).1 <=? 0) eqn:E.
  - pose proof (proj1 Hiff eq_refl). lia.
  - cbn [run bind outcome trace map call_name fst snd].
    apply Z.leb_gt in E. split; [ | split; [ reflexivity | exact E ] ].
    destruct (h unit _ _).1. reflexivity.
Qed.

(** Witness of X16: the page of [running_view] at 1000, half a second
    after the session started. *)
Lemma tick_before_the_deadline_only_shows_the_time_witness :
  map call_name
    (trace (run Backend.backend
              (TestTaking.timerCallback (fun _ _ => 0) (fun _ _ => 0)
                 running_view running_session)
              world_with_running_session))
  = [CDateNow; CUi (SetTimeLeft 1800)].
Proof.
  refine (proj1 (proj2 (tick_before_the_deadline_only_shows_the_time
                          (fun _ _ => 0) (fun _ _ => 0) Backend.World
                          Backend.backend world_with_running_session
                          running_view running_session _))).
  vm_compute. reflexivity.
Defined.

(** X17. Answering a question: [handleAnswerChange] records the answer
    under the question and leaves the other answers as they are; the count
    of answered questions the page shows grows by one for a question not
    answered before and otherwise stays, so it never decreases -- a
    question whose text answer is emptied again still counts as
    answered. *)
Theorem answering_never_lowers_the_count (questionId answer : string)
    (prev : gmap string string) :
  let next := TestTaking.handleAnswerChange questionId answer prev in
  next !! questionId = Some answer
  /\ (forall other, other <> questionId -> next !! other = prev !! other)
  /\ TestTaking.answeredCount next
     = (if decide (is_Some (prev !! questionId))
        then TestTaking.answeredCount prev
        else TestTaking.answeredCount prev + 1)
  /\ 1 <= TestTaking.answeredCount
            (TestTaking.handleAnswerChange questionId "" next).
Proof.
  cbv zeta. unfold TestTaking.handleAnswerChange, TestTaking.answeredCount.
  split; [ apply lookup_insert_eq | ]. split.
  { intros other Hne. apply lookup_insert_ne. congruence. }
  split.
  - destruct (decide (is_Some (prev !! questionId))) as [[a Ha] | Hnone].
    + rewrite map_size_insert_Some by eauto. reflexivity.
    + rewrite map_size_insert_None; [ lia | ].
      destruct (prev !! questionId) eqn:E; [ exfalso; eauto | reflexivity ].
  - rewrite insert_insert_eq.
    destruct (prev !! questionId) eqn:E.
    + rewrite map_size_insert_Some by eauto.
      assert (size prev <> 0%nat); [ | lia ].
      intros Hz. apply map_size_empty_inv in Hz. subst prev.
      rewrite lookup_empty in E. discriminate.
    + rewrite map_size_insert_None by exact E. lia.
Qed.
(* ===================================================================== *)
(** ** Time displays *)
(* ===================================================================== *)

Lemma append_assoc (a b c : string) : (a +:+ b) +:+ c = a +:+ (b +:+ c).
Proof.
  induction a as [| x a IH]; [ reflexivity | ].
  change (String x ((a +:+ b) +:+ c) = String x (a +:+ (b +:+ c))).
  f_equal. exact IH.
Qed.

Lemma append_cons (x : ascii) (a b : string) :
  String x a +:+ b = String x (a +:+ b).
Proof. reflexivity. Qed.

Lemma append_nil (b : string) : "" +:+ b = b.
Proof. reflexivity. Qed.

Lemma digitValue_pretty_N_char (d : N) :
  (d < 10)%N -> digitValue (pretty_N_char d) = Some (Z.of_N d).
Proof.
  intros Hd.
  assert (d = 0 \/ d = 1 \/ d = 2 \/ d = 3 \/ d = 4 \/ d = 5 \/ d = 6 \/ d = 7
          \/ d = 8 \/ d = 9)%N as H by lia.
  repeat destruct H as [-> | H]; try subst d; reflexivity.
Qed.

Lemma pretty_N_go_app (x : N) :
  forall s : string, pretty_N_go x s = pretty_N_go x "" +:+ s.
Proof.
  induction (N.lt_wf_0 x) as [x _ IH]. intros s.
  assert (x = 0 \/ 0 < x)%N as [-> | Hx] by lia.
  - rewrite !pretty_N_go_0. reflexivity.
  - rewrite !(pretty_N_go_step x) by exact Hx.
    rewrite (IH (x `div` 10)%N) by (apply N.div_lt; lia).
    rewrite (IH (x `div` 10)%N ltac:(apply N.div_lt; lia) (String _ "")).
    rewrite append_assoc. reflexivity.
Qed.

(** Reading the decimal digits of [x] yields [x]. *)
Lemma readDisplay_pretty_N_go (x : N) :
  forall (total : Z) (number : option Z) (s : string),
    (0 < x)%N -> default 0 number = 0 ->
    readDisplay total number (pretty_N_go x s)
    = readDisplay total (Some (Z.of_N x)) s.
Proof.
  induction (N.lt_wf_0 x) as [x _ IH]. intros total number s Hx Hn.
  rewrite pretty_N_go_step by exact Hx.
  pose proof (N.mod_lt x 10 ltac:(lia)) as Hm.
  pose proof (N.div_mod x 10 ltac:(lia)) as Hdm.
  assert (x `div` 10 = 0 \/ 0 < x `div` 10)%N as [Hz | Hpos] by lia.
  - rewrite Hz, pretty_N_go_0. cbn [readDisplay].
    rewrite digitValue_pretty_N_char by exact Hm. rewrite Hn.
    replace (0 * 10 + Z.of_N (x `mod` 10)) with (Z.of_N x) by lia.
    reflexivity.
  - rewrite IH; [ | apply N.div_lt; lia | exact Hpos | exact Hn ].
    cbn [readDisplay]. rewrite digitValue_pretty_N_char by exact Hm.
    cbn [default from_option Datatypes.id].
    replace (Z.of_N (x `div` 10) * 10 + Z.of_N (x `mod` 10)) with (Z.of_N x)
      by lia.
    reflexivity.
Qed.

Lemma readDisplay_pretty (n total : Z) (number : option Z) (rest : string) :
  0 <= n -> default 0 number = 0 ->
  readDisplay total number (pretty n +:+ rest)
  = readDisplay total (Some n) rest.
Proof.
  intros Hn Hd. destruct n as [| p | p]; [ | | lia ].
  - change (pretty 0) with "0". rewrite append_cons, append_nil.
    cbn [readDisplay]. change (digitValue "0") with (Some 0). rewrite Hd.
    reflexivity.
  - change (pretty (Z.pos p)) with (pretty_N_go (N.pos p) "").
    rewrite <- pretty_N_go_app.
    rewrite readDisplay_pretty_N_go by (done || lia). reflexivity.
Qed.

Lemma readDisplay_padStart (n total : Z) (rest : string) :
  0 <= n ->
  readDisplay total None
    (TestTaking.String_padStart 2 "0" (pretty n) +:+ rest)
  = readDisplay total (Some n) rest.
Proof.
  intros Hn. unfold TestTaking.String_padStart.
  destruct (2 - String.length (pretty n))%nat as [| [| k]] eqn:E.
  - cbn [replicate String.string_of_list_ascii]. rewrite append_nil.
    apply readDisplay_pretty; done.
  - cbn [replicate String.string_of_list_ascii].
    rewrite !append_cons, append_nil. cbn [readDisplay].
    change (digitValue "0") with (Some 0). cbn [default from_option Datatypes.id].
    apply readDisplay_pretty; done.
  - assert (k = 0)%nat as -> by lia.
    cbn [replicate String.string_of_list_ascii].
    rewrite !append_cons, append_nil. cbn [readDisplay].
    change (digitValue "0") with (Some 0). cbn [default from_option Datatypes.id].
    apply readDisplay_pretty; done.
Qed.

Lemma readDisplay_unit (total n : Z) (rest : string) :
  readDisplay total (Some n) (String "h" rest)
  = readDisplay (total + n * 3600) None rest
  /\ readDisplay total (Some n) (String "m" rest)
    = readDisplay (total + n * 60) None rest
  /\ readDisplay total (Some n) (String "s" rest)
    = readDisplay (total + n) None rest
  /\ readDisplay total None (String " " rest) = readDisplay total None rest.
Proof. repeat split; reflexivity. Qed.

(** Reading a display whose parts are written out. *)
Ltac read_display :=
  repeat first
    [ rewrite append_assoc
    | rewrite append_cons
    | rewrite append_nil
    | rewrite readDisplay_pretty by (done || lia)
    | rewrite readDisplay_padStart by lia
    | rewrite (proj1 (readDisplay_unit _ _ _))
    | rewrite (proj1 (proj2 (readDisplay_unit _ _ _)))
    | rewrite (proj1 (proj2 (proj2 (readDisplay_unit _ _ _))))
    | rewrite (proj2 (proj2 (proj2 (readDisplay_unit _ 0 _)))) ].

Lemma clock_parts (seconds : Z) :
  0 <= seconds ->
  let hours := Math_floor_div seconds 3600 in
  let minutes := Math_floor_div (Z.rem seconds 3600) 60 in
  let secs := Z.rem seconds 60 in
  0 <= hours /\ 0 <= minutes < 60 /\ 0 <= secs < 60
  /\ hours * 3600 + minutes * 60 + secs = seconds.
Proof.
  intros Hs. cbv zeta. unfold Math_floor_div.
  rewrite !Z.rem_mod_nonneg by lia.
  pose proof (Z.div_mod seconds 3600 ltac:(lia)) as E1.
  pose proof (Z.mod_pos_bound seconds 3600 ltac:(lia)) as B1.
  pose proof (Z.div_mod (seconds mod 3600) 60 ltac:(lia)) as E2.
  pose proof (Z.mod_pos_bound (seconds mod 3600) 60 ltac:(lia)) as B2.
  pose proof (Z.div_mod seconds 60 ltac:(lia)) as E3.
  pose proof (Z.mod_pos_bound seconds 60 ltac:(lia)) as B3.
  pose proof (Z.div_pos seconds 3600 Hs ltac:(lia)) as P1.
  lia.
Qed.

Lemma formatTimeDisplay_reads_back (seconds : Z) :
  displayedSeconds (Utils.formatTimeDisplay seconds) = Some (Z.max 0 seconds).
Proof.
  unfold Utils.formatTimeDisplay, displayedSeconds.
  destruct (seconds <=? 0) eqn:Hs0.
  { apply Z.leb_le in Hs0. rewrite Z.max_l by lia. reflexivity. }
  apply Z.leb_gt in Hs0. rewrite Z.max_r by lia.
  destruct (clock_parts seconds ltac:(lia)) as (Hh & Hm & Hsec & Hsum).
  cbv zeta in *.
  set (hours := Math_floor_div seconds 3600) in *.
  set (minutes := Math_floor_div (Z.rem seconds 3600) 60) in *.
  set (secs := Z.rem seconds 60) in *.
  destruct (0 <? hours) eqn:Eh, (0 <? minutes) eqn:Em, (0 <? secs) eqn:Es;
    cbn [app length Nat.eqb orb String.concat]; read_display;
    cbn [readDisplay]; f_equal; lia.
Qed.

Lemma formatTime_reads_back (seconds : Z) :
  0 <= seconds ->
  displayedSeconds (TestTaking.formatTime seconds) = Some seconds.
Proof.
  intros Hs. unfold TestTaking.formatTime, displayedSeconds.
  destruct (clock_parts seconds Hs) as (Hh & Hm & Hsec & Hsum).
  cbv zeta in *.
  set (hours := Math_floor_div seconds 3600) in *.
  set (mins := Math_floor_div (Z.rem seconds 3600) 60) in *.
  set (secs := Z.rem seconds 60) in *.
  destruct (0 <? hours) eqn:Eh; read_display; cbn [readDisplay]; f_equal; lia.
Qed.

(** The seconds field of [formatTime]: two digits. *)
Lemma padStart_two_digits (secs : Z) :
  0 <= secs < 60 ->
  TestTaking.String_padStart 2 "0" (pretty secs)
  = (if secs <? 10 then "0" else "") +:+ pretty secs
  /\ String.length (TestTaking.String_padStart 2 "0" (pretty secs)) = 2%nat.
Proof.
  intros Hs.
  assert (Hall : forallb
                   (fun n =>
                      String.eqb (TestTaking.String_padStart 2 "0" (pretty n))
                        ((if n <? 10 then "0" else "") +:+ pretty n)
                      && Nat.eqb
                           (String.length
                              (TestTaking.String_padStart 2 "0" (pretty n))) 2)
                   (seqZ 0 60) = true) by (vm_compute; reflexivity).
  rewrite forallb_forall in Hall.
  assert (Hin : In secs (seqZ 0 60)).
  { apply list_elem_of_In, elem_of_seqZ. lia. }
  apply Hall, andb_prop in Hin as [H1 H2].
  apply String.eqb_eq in H1. apply Nat.eqb_eq in H2. auto.
Qed.

(** X18. What [formatTimeDisplay] writes. Nothing or less is written as
    [0s]. A positive number of seconds is split into hours, minutes below
    60 and seconds below 60 that add up to it, written in decimal in that
    order, each followed by its unit, separated by one blank, the parts
    that are zero left out. The text reads back to the seconds it was
    given, so two different non-negative durations are never displayed
    alike. *)
Theorem formatTimeDisplay_is_unambiguous :
  (forall seconds : Z, seconds <= 0 -> Utils.formatTimeDisplay seconds = "0s")
  /\ (forall seconds : Z, 0 < seconds ->
        exists h m s : Z,
          0 <= h /\ 0 <= m < 60 /\ 0 <= s < 60
          /\ seconds = h * 3600 + m * 60 + s
          /\ Utils.formatTimeDisplay seconds
             = String.concat " "
                 ((if 0 <? h then [pretty h +:+ "h"] else [])
                  ++ (if 0 <? m then [pretty m +:+ "m"] else [])
                  ++ (if 0 <? s then [pretty s +:+ "s"] else [])))
  /\ (forall seconds : Z,
        displayedSeconds (Utils.formatTimeDisplay seconds) = Some (Z.max 0 seconds))
  /\ (forall s1 s2 : Z, 0 <= s1 -> 0 <= s2 ->
        Utils.formatTimeDisplay s1 = Utils.formatTimeDisplay s2 -> s1 = s2).
Proof.
  split; [ | split; [ | split ] ].
  - intros seconds Hs. unfold Utils.formatTimeDisplay.
    rewrite (proj2 (Z.leb_le seconds 0) Hs). reflexivity.
  - intros seconds Hs. unfold Utils.formatTimeDisplay.
    rewrite (proj2 (Z.leb_gt seconds 0) Hs).
    destruct (clock_parts seconds ltac:(lia)) as (Hh & Hm & Hsec & Hsum).
    cbv zeta in *.
    set (hours := Math_floor_div seconds 3600) in *.
    set (minutes := Math_floor_div (Z.rem seconds 3600) 60) in *.
    set (secs := Z.rem seconds 60) in *.
    exists hours, minutes, secs.
    split; [ exact Hh | ]. split; [ exact Hm | ]. split; [ exact Hsec | ].
    split; [ lia | ].
    destruct (0 <? hours) eqn:Eh, (0 <? minutes) eqn:Em, (0 <? secs) eqn:Es;
      cbn [app length Nat.eqb orb]; try reflexivity.
    exfalso. apply Z.ltb_ge in Eh, Em, Es. lia.
  - exact formatTimeDisplay_reads_back.
  - intros s1 s2 H1 H2 Heq.
    pose proof (formatTimeDisplay_reads_back s1) as R1.
    pose proof (formatTimeDisplay_reads_back s2) as R2.
    rewrite Heq, R2 in R1. injection R1. lia.
Qed.

(** X19. What [formatTime] renders for the seconds left. They are split
    into hours, minutes below 60 and seconds below 60 that add up to them;
    the text is the hours followed by [h] and a blank if there are any,
    the minutes followed by [m] and a blank, and the seconds in exactly
    two digits followed by [s]. The text reads back to [timeLeft], so two
    different values are never rendered alike, and it denotes the same
    duration as [formatTimeDisplay] does. *)
Theorem formatTime_is_unambiguous :
  (forall seconds : Z, 0 <= seconds ->
      exists h m s : Z,
        0 <= h /\ 0 <= m < 60 /\ 0 <= s < 60
        /\ seconds = h * 3600 + m * 60 + s
        /\ TestTaking.formatTime seconds
           = (if 0 <? h then pretty h +:+ "h " else "")
             +:+ pretty m +:+ "m "
             +:+ ((if s <? 10 then "0" else "") +:+ pretty s) +:+ "s"
        /\ String.length ((if s <? 10 then "0" else "") +:+ pretty s) = 2%nat)
  /\ (forall seconds : Z, 0 <= seconds ->
        displayedSeconds (TestTaking.formatTime seconds) = Some seconds
        /\ displayedSeconds (TestTaking.formatTime seconds)
           = displayedSeconds (Utils.formatTimeDisplay seconds))
  /\ (forall s1 s2 : Z, 0 <= s1 -> 0 <= s2 ->
        TestTaking.formatTime s1 = TestTaking.formatTime s2 -> s1 = s2).
Proof.
  split; [ | split ].
  - intros seconds Hs. unfold TestTaking.formatTime.
    destruct (clock_parts seconds Hs) as (Hh & Hm & Hsec & Hsum).
    cbv zeta in *.
    set (hours := Math_floor_div seconds 3600) in *.
    set (mins := Math_floor_div (Z.rem seconds 3600) 60) in *.
    set (secs := Z.rem seconds 60) in *.
    destruct (padStart_two_digits secs Hsec) as [Hpad Hlen].
    exists hours, mins, secs.
    split; [ exact Hh | ]. split; [ exact Hm | ]. split; [ exact Hsec | ].
    split; [ lia | ]. rewrite <- Hpad. split; [ | exact Hlen ].
    destruct (0 <? hours); [ | reflexivity ].
    rewrite !append_assoc. reflexivity.
  - intros seconds Hs. rewrite formatTime_reads_back by exact Hs.
    rewrite formatTimeDisplay_reads_back, Z.max_r by exact Hs.
    split; reflexivity.
  - intros s1 s2 H1 H2 Heq.
    pose proof (formatTime_reads_back s1 H1) as R1.
    pose proof (formatTime_reads_back s2 H2) as R2.
    rewrite Heq, R2 in R1. congruence.
Qed.
(* ===================================================================== *)
(** ** Session statistics *)
(* ===================================================================== *)

(** [Math.floor((totalTime / n) / 1000)] on whole numbers. *)
Lemma floor_of_average (totalTime n : Z) :
  0 < n ->
  Qround.Qfloor
    (QArith_base.Qdiv
       (QArith_base.Qdiv (QArith_base.inject_Z totalTime) (QArith_base.inject_Z n))
       (QArith_base.inject_Z 1000))
  = totalTime / (n * 1000).
Proof.
  intros Hn. rewrite Qround.Zdiv_Qdiv. apply Qround.Qfloor_comp.
  unfold QArith_base.Qdiv. rewrite QArith_base.inject_Z_mult.
  rewrite QArith_base.Qinv_mult_distr.
  apply QArith_base.Qeq_sym, QArith_base.Qmult_assoc.
Qed.

Lemma fold_left_sum {A : Type} (g : A -> Z) (l : list A) :
  forall acc : Z,
    fold_left (fun acc x => acc + g x) l acc
    = acc + foldr (fun x r => g x + r) 0 l.
Proof.
  induction l as [| x l IH]; intros acc; simpl; [ lia | ].
  rewrite IH. lia.
Qed.

Lemma sum_Permutation {A : Type} (g : A -> Z) (l l' : list A) :
  l ≡ₚ l' ->
  foldr (fun x r => g x + r) 0 l = foldr (fun x r => g x + r) 0 l'.
Proof. induction 1; simpl; lia. Qed.

Lemma sum_bounds {A : Type} (g : A -> Z) (lo hi : Z) (l : list A) :
  Forall (fun x => lo <= g x <= hi) l ->
  Z.of_nat (length l) * lo <= foldr (fun x r => g x + r) 0 l
                           <= Z.of_nat (length l) * hi.
Proof.
  induction 1 as [| x l Hx _ IH]; [ simpl; lia | ].
  cbn [foldr length]. lia.
Qed.

Lemma filter_length_complement {A : Type} (f : A -> bool) (l : list A) :
  (length (List.filter f l) + length (List.filter (fun x => negb (f x)) l)
   = length l)%nat.
Proof.
  induction l as [| x l IH]; [ reflexivity | ].
  cbn [List.filter]. destruct (f x); cbn [negb length]; lia.
Qed.

Lemma List_filter_Permutation {A : Type} (f : A -> bool) (l l' : list A) :
  l ≡ₚ l' -> List.filter f l ≡ₚ List.filter f l'.
Proof.
  induction 1 as [| x l l' _ IH | x y l | l1 l2 l3 _ IH1 _ IH2].
  - reflexivity.
  - cbn [List.filter]. destruct (f x); [ constructor | ]; exact IH.
  - cbn [List.filter]. destruct (f x), (f y); try reflexivity. constructor.
  - etransitivity; eassumption.
Qed.

(** The elapsed time [getSessionStats] adds up for a session. *)
Local Abbreviation elapsed :=
  (fun session : TestSession =>
     default 0 (submitted_at session) - started_at session).

Lemma averageSubmissionTime_eq (sessions : list TestSession) :
  let submitted := List.filter Utils.submittedAndCompleted sessions in
  Utils.averageSubmissionTime (Utils.getSessionStats sessions)
  = match submitted with
    | [] => "—"
    | _ =>
        Utils.formatTimeDisplay
          (foldr (fun s r => elapsed s + r) 0 submitted
           / (Z.of_nat (length submitted) * 1000))
    end.
Proof.
  cbv zeta. unfold Utils.getSessionStats. cbv zeta.
  cbn [Utils.averageSubmissionTime].
  destruct (List.filter Utils.submittedAndCompleted sessions) as [| s l] eqn:E;
    [ reflexivity | ].
  change (0 <? length (s :: l))%nat with true. cbv iota.
  rewrite floor_of_average by (cbn [length]; lia).
  rewrite (fold_left_sum elapsed). rewrite Z.add_0_l. reflexivity.
Qed.

(** X20. The counts of [getSessionStats]: every row is counted once, as
    completed or as pending; the pending ones are the rows that are not
    completed; and the statistics do not depend on the order of the
    rows. *)
Theorem session_stats_count_every_row_once (sessions : list TestSession) :
  let stats := Utils.getSessionStats sessions in
  Utils.totalSessions stats = Z.of_nat (length sessions)
  /\ Utils.completedSessions stats + Utils.pendingSessions stats
     = Utils.totalSessions stats
  /\ Utils.pendingSessions stats
     = Z.of_nat (length (List.filter (fun s => negb (is_completed s)) sessions))
  /\ 0 <= Utils.completedSessions stats <= Utils.totalSessions stats
  /\ (forall sessions', sessions ≡ₚ sessions' ->
        Utils.getSessionStats sessions' = Utils.getSessionStats sessions).
Proof.
  cbv zeta. pose proof (filter_length_complement is_completed sessions) as Hc.
  split; [ reflexivity | ]. split; [ cbn; lia | ]. split; [ cbn; lia | ].
  split; [ cbn; lia | ].
  intros sessions' Hp.
  assert (Havg : Utils.averageSubmissionTime (Utils.getSessionStats sessions')
                 = Utils.averageSubmissionTime (Utils.getSessionStats sessions)).
  { rewrite !averageSubmissionTime_eq. cbv zeta.
    pose proof (List_filter_Permutation Utils.submittedAndCompleted _ _ Hp) as Hf.
    pose proof (Permutation_length Hf) as Hl.
    pose proof (sum_Permutation elapsed _ _ Hf) as Hs.
    destruct (List.filter Utils.submittedAndCompleted sessions) as [| s l],
      (List.filter Utils.submittedAndCompleted sessions') as [| s' l'];
      try discriminate Hl; [ reflexivity | ].
    rewrite Hs, Hl. reflexivity. }
  pose proof (Permutation_length Hp) as Hlen.
  pose proof (Permutation_length (List_filter_Permutation is_completed _ _ Hp))
    as Hlenc.
  unfold Utils.getSessionStats in *. cbv zeta in *.
  cbn [Utils.averageSubmissionTime] in Havg. rewrite Havg, Hlen, Hlenc.
  reflexivity.
Qed.

(** X21. The average submission time is the dash exactly when no session
    is both submitted and completed. Otherwise it is the display of a
    whole number of seconds that lies between the shortest and the longest
    time ([submitted_at - started_at], in whole seconds) of those
    sessions. *)
Theorem average_submission_time_is_between_the_extremes
    (sessions : list TestSession) :
  let stats := Utils.getSessionStats sessions in
  let submitted := List.filter Utils.submittedAndCompleted sessions in
  (submitted = [] <-> Utils.averageSubmissionTime stats = "—")
  /\ (forall lo hi : Z,
        submitted <> [] ->
        (forall s t, s ∈ sessions -> is_completed s = true ->
                     submitted_at s = Some t -> lo <= t - started_at s <= hi) ->
        exists avg,
          Utils.averageSubmissionTime stats = Utils.formatTimeDisplay avg
          /\ lo / 1000 <= avg <= hi / 1000).
Proof.
  cbv zeta. rewrite averageSubmissionTime_eq. cbv zeta.
  destruct (List.filter Utils.submittedAndCompleted sessions) as [| s l] eqn:E.
  { split; [ split; reflexivity | ]. intros lo hi Hne. contradiction. }
  cbv beta iota. split.
  - split; [ discriminate | ]. intros Hdash.
    pose proof (formatTimeDisplay_reads_back
                  (foldr (fun s r => elapsed s + r) 0 (s :: l)
                   / (Z.of_nat (length (s :: l)) * 1000))) as Hread.
    cbv beta in Hread. rewrite Hdash in Hread. vm_compute in Hread.
    discriminate Hread.
  - intros lo hi _ Hb. eexists. split; [ reflexivity | ].
    assert (Hall : Forall (fun x => lo <= elapsed x <= hi) (s :: l)).
    { rewrite <- E. apply Forall_forall. intros x Hx.
      apply list_elem_of_In, filter_In in Hx as [Hin Hsc].
      unfold Utils.submittedAndCompleted in Hsc.
      destruct (submitted_at x) as [t |] eqn:Et; [ | discriminate ].
      cbn [default from_option Datatypes.id].
      apply (Hb x t); [ apply list_elem_of_In; exact Hin | exact Hsc | exact Et ]. }
    pose proof (sum_bounds elapsed lo hi _ Hall) as Hsum.
    set (n := Z.of_nat (length (s :: l))) in *.
    assert (Hn : 0 < n) by (subst n; cbn [length]; lia).
    set (total := foldr (fun s r => elapsed s + r) 0 (s :: l)) in *.
    split.
    + rewrite <- (Z.div_mul_cancel_l lo 1000 n) by lia.
      apply Z.div_le_mono; lia.
    + rewrite <- (Z.div_mul_cancel_l hi 1000 n) by lia.
      apply Z.div_le_mono; lia.
Qed.
(* ===================================================================== *)
(** ** Scripts and the wider store *)
(* ===================================================================== *)

Lemma srun_scatch_rethrow {E : Type -> Type} {W R : Type}
    (h : forall X : Type, E X -> W -> X * W) (p : Script E R) :
  forall w : W, srun h (scatch p (fun e => Raise e)) w = srun h p w.
Proof.
  induction p as [r | e | X ev k IH]; intros w; try reflexivity.
  cbn [scatch srun]. rewrite IH. reflexivity.
Qed.

Lemma filter_map_commute {A : Type} (f : A -> bool) (g : A -> A) (l : list A) :
  (forall x, f (g x) = f x) ->
  List.filter f (map g l) = map g (List.filter f l).
Proof.
  intros Hfg. induction l as [| x l IH]; [ reflexivity | ].
  cbn [map List.filter]. rewrite Hfg. destruct (f x); cbn [map]; congruence.
Qed.

Local Abbreviation granted := (Utils.mkAccessDecision true "Access granted").
Local Abbreviation denied := (Utils.mkAccessDecision false).

Lemma validateTestAccess_decision (w : Tables.World) (assessmentId : string) :
  result (srun Tables.tables (Utils.validateTestAccess assessmentId) w)
  = Returned
         (match Backend.identity (Tables.store w) with
          | None => denied "Please log in to take the test"
          | Some u =>
              match Tables.assessments w !! assessmentId with
              | None => denied "Assessment not found"
              | Some _ =>
                  match List.filter
                          (Backend.matches
                             [EqAssessmentId assessmentId; EqStudentId (user_id u)])
                          (Backend.sessions (Tables.store w)) with
                  | [] => granted
                  | [row] =>
                      if is_completed row
                      then denied "You have already completed this assessment"
                      else granted
                  | _ => denied "Error checking test status"
                  end
              end
          end)
  /\ world (srun Tables.tables (Utils.validateTestAccess assessmentId) w) = w.
Proof.
  destruct w as [st asm qs]. unfold Utils.validateTestAccess, ask.
  cbn [srun scatch sbind Tables.tables Tables.core Backend.backend fst snd
       Tables.store Tables.assessments Tables.questions result world calls user].
  destruct (Backend.identity st) as [u |]; [ | split; reflexivity ].
  cbn [srun scatch sbind Tables.tables Tables.core Backend.backend fst snd
       Tables.store Tables.assessments Tables.questions result world calls
       data error].
  destruct (asm !! assessmentId) as [a |]; [ | split; reflexivity ].
  cbn [srun scatch sbind Tables.tables Tables.core Backend.backend fst snd
       Tables.store Tables.assessments Tables.questions result world calls
       data error].
  unfold Backend.select_sessions. cbn [fst snd].
  destruct (List.filter _ (Backend.sessions st)) as [| row [| row' rows]];
    cbn [Backend.close_select data error srun result world calls];
    [ split; reflexivity | | split; reflexivity ].
  destruct (is_completed row); split; reflexivity.
Qed.

(** X22. What [validateTestAccess] decides against the store, and that it
    changes nothing there: nobody signed in -- "Please log in"; no such
    assessment -- "Assessment not found"; no session of the student for
    the assessment, or one that is running -- access granted; one that is
    completed -- "already completed"; several sessions of the pair --
    "Error checking test status". *)
Theorem access_decision_on_the_store (w : Tables.World) (assessmentId : string) :
  let r := srun Tables.tables (Utils.validateTestAccess assessmentId) w in
  world r = w
  /\ result r
     = Returned
         (match Backend.identity (Tables.store w) with
          | None => Utils.mkAccessDecision false "Please log in to take the test"
          | Some u =>
              match Tables.assessments w !! assessmentId with
              | None => Utils.mkAccessDecision false "Assessment not found"
              | Some _ =>
                  match List.filter
                          (Backend.matches
                             [EqAssessmentId assessmentId; EqStudentId (user_id u)])
                          (Backend.sessions (Tables.store w)) with
                  | [] => Utils.mkAccessDecision true "Access granted"
                  | [row] =>
                      if is_completed row
                      then Utils.mkAccessDecision false
                             "You have already completed this assessment"
                      else Utils.mkAccessDecision true "Access granted"
                  | _ => Utils.mkAccessDecision false "Error checking test status"
                  end
              end
          end).
Proof.
  cbv zeta. destruct (validateTestAccess_decision w assessmentId) as [Hr Hw].
  split; [ exact Hw | exact Hr ].
Qed.

(** X23. A student with one running session for an assessment is granted
    access. Once that session is completed, access is denied as "already
    completed". But [getOrCreateTestSession] does not ask
    [validateTestAccess]: called again it creates a second session, and
    from then on the access check reports "Error checking test status". *)
Theorem access_after_completion_and_reopening (w : Tables.World)
    (assessmentId : string) (durationMinutes : Z) (u : AuthUser)
    (s : TestSession) :
  Backend.identity (Tables.store w) = Some u ->
  is_Some (Tables.assessments w !! assessmentId) ->
  Backend.update_session_faults (Tables.store w) = [] ->
  Backend.insert_session_faults (Tables.store w) = [] ->
  List.filter (Backend.matches
                 [EqAssessmentId assessmentId; EqStudentId (user_id u)])
    (Backend.sessions (Tables.store w)) = [s] ->
  is_completed s = false ->
  let completed :=
    final (run Backend.backend (Utils.completeTestSession (id s))
             (Tables.store w)) in
  let reopened :=
    final (run Backend.backend
             (Utils.getOrCreateTestSession assessmentId durationMinutes)
             completed) in
  let decision st :=
    result (srun Tables.tables (Utils.validateTestAccess assessmentId)
              (Tables.mkWorld st (Tables.assessments w) (Tables.questions w))) in
  decision (Tables.store w)
  = Returned (Utils.mkAccessDecision true "Access granted")
  /\ decision completed
     = Returned (Utils.mkAccessDecision false
                   "You have already completed this assessment")
  /\ decision reopened
     = Returned (Utils.mkAccessDecision false "Error checking test status")
  /\ length (Backend.sessions reopened)
     = S (length (Backend.sessions (Tables.store w))).
Proof.
  intros Hid [asm Hasm] Hup Hins Hpair Hrun. cbv zeta.
  set (pair := Backend.matches
                 [EqAssessmentId assessmentId; EqStudentId (user_id u)]) in *.
  set (patch := fun r => if Backend.matches [EqId (id s)] r
                         then Backend.apply_patch
                                (mkSessionPatch (Backend.clock (Tables.store w)) true) r
                         else r).
  assert (Hpatch : forall x, pair (patch x) = pair x).
  { intros x. unfold patch. destruct (Backend.matches [EqId (id s)] x); reflexivity. }
  rewrite run_completeTestSession. cbn [final].
  unfold Backend.update_sessions. rewrite Hup. cbn [snd].
  fold patch.
  set (st1 := Backend.mkWorld (map patch (Backend.sessions (Tables.store w)))
                (Backend.submissions (Tables.store w))
                (Backend.clock (Tables.store w))
                (Backend.identity (Tables.store w))
                (Backend.confirms (Tables.store w))
                (Backend.insert_session_faults (Tables.store w)) []
                (Backend.insert_submission_faults (Tables.store w))).
  assert (Hs : patch s = Backend.apply_patch
                 (mkSessionPatch (Backend.clock (Tables.store w)) true) s).
  { unfold patch. rewrite matches_id, String.eqb_refl. reflexivity. }
  assert (Hpair1 : List.filter pair (Backend.sessions st1) = [patch s]).
  { cbn [st1 Backend.sessions]. rewrite filter_map_commute by exact Hpatch.
    rewrite Hpair. reflexivity. }
  assert (Hn1 : List.filter (Backend.active_for assessmentId (user_id u))
                  (Backend.sessions st1) = []).
  { rewrite filter_active_of_pair. fold pair. rewrite Hpair1, Hs. reflexivity. }
  rewrite !(proj1 (validateTestAccess_decision _ _)).
  cbn [Tables.store Tables.assessments].
  rewrite Hasm.
  rewrite (utils_resolver_creates st1 assessmentId durationMinutes u Hid Hins Hn1).
  rewrite (insert_session_accepted
             (mkNewSession assessmentId (user_id u) (Backend.clock st1)
                durationMinutes false) st1 Hins eq_refl Hn1).
  cbn [final snd Backend.sessions Backend.identity st1]. rewrite Hid.
  fold pair. rewrite Hpair, List.filter_app.
  change (List.filter pair (map patch (Backend.sessions (Tables.store w))))
    with (List.filter pair (Backend.sessions st1)).
  rewrite Hpair1, Hs, Hrun.
  cbn [Backend.apply_patch is_completed patch_is_completed List.filter app].
  assert (Hnew : forall t,
             pair (Backend.new_row
                     (mkNewSession assessmentId (user_id u) t durationMinutes
                        false) st1) = true).
  { intros t. unfold pair, Backend.matches.
    cbn [forallb Backend.cond_holds Backend.new_row assessment_id student_id
         new_assessment_id new_student_id].
    rewrite !String.eqb_refl. reflexivity. }
  rewrite Hnew. repeat split; try reflexivity.
  rewrite length_app, length_map. cbn [length]. lia.
Qed.

(** Witness of X23: the store of [tables_with_running_session]. *)
Lemma access_after_completion_and_reopening_witness :
  result (srun Tables.tables (Utils.validateTestAccess "A")
            tables_with_running_session)
  = Returned (Utils.mkAccessDecision true "Access granted").
Proof.
  refine (proj1 (access_after_completion_and_reopening
                   tables_with_running_session "A" 30 (mkAuthUser "S")
                   running_session eq_refl _ eq_refl eq_refl eq_refl eq_refl)).
  eexists. vm_compute. reflexivity.
Defined.

Lemma newer_or_equal_total : Total Tables.newer_or_equal.
Proof. intros r1 r2. unfold Tables.newer_or_equal. lia. Qed.

Lemma newer_or_equal_trans : Transitive Tables.newer_or_equal.
Proof. intros r1 r2 r3. unfold Tables.newer_or_equal. lia. Qed.

Lemma matches_student (s : string) (row : TestSession) :
  Backend.matches [EqStudentId s] row = String.eqb (student_id row) s.
Proof. unfold Backend.matches. simpl. apply andb_true_r. Qed.

Lemma matches_assessment (a : string) (row : TestSession) :
  Backend.matches [EqAssessmentId a] row = String.eqb (assessment_id row) a.
Proof. unfold Backend.matches. simpl. apply andb_true_r. Qed.

Lemma newest_first_spec (rows : list TestSession) :
  Tables.newest_first rows ≡ₚ rows
  /\ StronglySorted Tables.newer_or_equal (Tables.newest_first rows).
Proof.
  split; [ apply merge_sort_Permutation | ].
  apply StronglySorted_merge_sort;
    [ exact newer_or_equal_trans | exact newer_or_equal_total ].
Qed.

Lemma run_getMyTestSessions (w : Tables.World) :
  srun Tables.tables Utils.getMyTestSessions w
  = match Backend.identity (Tables.store w) with
    | None =>
        mkScriptResult (Thrown (new_Error "User not authenticated")) w
          [Called (Core AuthGetUser) (mkAuthResponse None None)]
    | Some u =>
        let rows :=
          Tables.newest_first
            (List.filter (Backend.matches [EqStudentId (user_id u)])
               (Backend.sessions (Tables.store w))) in
        mkScriptResult (Returned rows) w
          [Called (Core AuthGetUser) (mkAuthResponse (Some u) None);
           Called (SelectSessionsNewestFirst [EqStudentId (user_id u)])
             (mkPgResponse (Some rows) None)]
    end.
Proof.
  unfold Utils.getMyTestSessions. rewrite srun_scatch_rethrow.
  destruct w as [st asm qs]. unfold ask.
  cbn [srun sbind Tables.tables Tables.core Backend.backend fst snd Tables.store
       Tables.assessments Tables.questions result world calls user].
  destruct (Backend.identity st) as [u |]; reflexivity.
Qed.

Lemma run_getAssessmentSessions (w : Tables.World) (assessmentId : string) :
  srun Tables.tables (Utils.getAssessmentSessions assessmentId) w
  = let rows :=
      Tables.newest_first
        (List.filter (Backend.matches [EqAssessmentId assessmentId])
           (Backend.sessions (Tables.store w))) in
    mkScriptResult (Returned rows) w
      [Called (SelectSessionsNewestFirst [EqAssessmentId assessmentId])
         (mkPgResponse (Some rows) None)].
Proof.
  unfold Utils.getAssessmentSessions. rewrite srun_scatch_rethrow. reflexivity.
Qed.

(** X24. [getMyTestSessions] against the store: without a signed-in user
    it throws "User not authenticated"; otherwise it returns the sessions
    of that user -- each of them once and no session of anyone else --
    with the newest first, and it changes nothing in the store. *)
Theorem my_sessions_are_exactly_mine (w : Tables.World) :
  let r := srun Tables.tables Utils.getMyTestSessions w in
  world r = w
  /\ match Backend.identity (Tables.store w) with
     | None => result r = Thrown (new_Error "User not authenticated")
     | Some u =>
         exists rows,
           result r = Returned rows
           /\ rows ≡ₚ List.filter
                        (fun row => String.eqb (student_id row) (user_id u))
                        (Backend.sessions (Tables.store w))
           /\ (forall row, row ∈ rows <->
                 row ∈ Backend.sessions (Tables.store w)
                 /\ student_id row = user_id u)
           /\ StronglySorted (fun r1 r2 => created_at r2 <= created_at r1) rows
     end.
Proof.
  cbv zeta. rewrite run_getMyTestSessions.
  destruct (Backend.identity (Tables.store w)) as [u |];
    [ | split; reflexivity ].
  cbv zeta. cbn [result world]. split; [ reflexivity | ].
  eexists. split; [ reflexivity | ].
  destruct (newest_first_spec
              (List.filter (Backend.matches [EqStudentId (user_id u)])
                 (Backend.sessions (Tables.store w)))) as [Hp Hs].
  assert (Hf : List.filter (Backend.matches [EqStudentId (user_id u)])
                 (Backend.sessions (Tables.store w))
               = List.filter (fun row => String.eqb (student_id row) (user_id u))
                   (Backend.sessions (Tables.store w))).
  { apply List.filter_ext. intros row. apply matches_student. }
  rewrite Hf in *. split; [ exact Hp | ]. split; [ | exact Hs ].
  intros row. rewrite Hp. rewrite list_elem_of_In, filter_In.
  rewrite <- list_elem_of_In, String.eqb_eq. reflexivity.
Qed.

Lemma utils_resolver_returns_stored (w : Backend.World) (assessmentId : string)
    (durationMinutes : Z) (u : AuthUser) :
  Backend.identity w = Some u ->
  Backend.insert_session_faults w = [] ->
  Backend.unique_active (Backend.sessions w) ->
  let r := run Backend.backend
             (Utils.getOrCreateTestSession assessmentId durationMinutes) w in
  exists s, outcome r = Returned s
            /\ s ∈ Backend.sessions (final r)
            /\ Backend.active_for assessmentId (user_id u) s = true.
Proof.
  intros Hid Hf Hu. cbv zeta.
  destruct (List.filter (Backend.active_for assessmentId (user_id u))
              (Backend.sessions w)) as [| s [| s' l]] eqn:Hrows.
  - rewrite (utils_resolver_creates w assessmentId durationMinutes u Hid Hf Hrows).
    rewrite (insert_session_accepted
               (mkNewSession assessmentId (user_id u) (Backend.clock w)
                  durationMinutes false) w Hf eq_refl Hrows).
    cbn [outcome final snd Backend.sessions]. eexists.
    split; [ reflexivity | ]. split; [ set_solver | ].
    unfold Backend.active_for, Backend.matches.
    cbn [forallb Backend.cond_holds Backend.new_row assessment_id student_id
         is_completed new_assessment_id new_student_id new_is_completed].
    rewrite !String.eqb_refl. reflexivity.
  - assert (Hin : In s (List.filter (Backend.active_for assessmentId (user_id u))
                          (Backend.sessions w))) by (rewrite Hrows; left; reflexivity).
    apply filter_In in Hin as [Hin Hact].
    pose proof (utils_resolver_resumes w assessmentId durationMinutes u s Hid
                  Hrows) as Hrun.
    rewrite Hrun. cbn [outcome final]. exists s.
    split; [ reflexivity | ]. split; [ apply list_elem_of_In; exact Hin | exact Hact ].
  - specialize (Hu assessmentId (user_id u)). rewrite Hrows in Hu.
    simpl in Hu. lia.
Qed.

(** X25. From the resolver to the lists and the statistics: on a store
    that keeps the uniqueness constraint and has no fault pending for an
    insert, the session [getOrCreateTestSession] returns is among the
    sessions [getMyTestSessions] and [getAssessmentSessions] return
    afterwards, and [getSessionStats] of the latter counts every session
    of the assessment and at least this one as pending. *)
Theorem resolved_session_is_listed_and_counted (w : Tables.World)
    (assessmentId : string) (durationMinutes : Z) (u : AuthUser) :
  Backend.identity (Tables.store w) = Some u ->
  Backend.insert_session_faults (Tables.store w) = [] ->
  Backend.unique_active (Backend.sessions (Tables.store w)) ->
  let r := run Backend.backend
             (Utils.getOrCreateTestSession assessmentId durationMinutes)
             (Tables.store w) in
  let w' := Tables.mkWorld (final r) (Tables.assessments w) (Tables.questions w) in
  exists s mine theirs,
    outcome r = Returned s
    /\ result (srun Tables.tables Utils.getMyTestSessions w') = Returned mine
    /\ result (srun Tables.tables (Utils.getAssessmentSessions assessmentId) w')
       = Returned theirs
    /\ s ∈ mine /\ s ∈ theirs
    /\ Utils.totalSessions (Utils.getSessionStats theirs)
       = Z.of_nat (length (List.filter
                             (fun row => String.eqb (assessment_id row) assessmentId)
                             (Backend.sessions (final r))))
    /\ 1 <= Utils.pendingSessions (Utils.getSessionStats theirs).
Proof.
  intros Hid Hf Hu. cbv zeta.
  destruct (utils_resolver_returns_stored (Tables.store w) assessmentId
              durationMinutes u Hid Hf Hu) as (s & Ho & Hin & Hact).
  set (r := run Backend.backend
              (Utils.getOrCreateTestSession assessmentId durationMinutes)
              (Tables.store w)) in *.
  assert (Hid' : Backend.identity (final r) = Some u).
  { destruct (List.filter (Backend.active_for assessmentId (user_id u))
                (Backend.sessions (Tables.store w))) as [| s0 [| s1 l]] eqn:Hrows.
    - subst r.
      rewrite (utils_resolver_creates _ assessmentId durationMinutes u Hid Hf Hrows).
      rewrite (insert_session_accepted
                 (mkNewSession assessmentId (user_id u)
                    (Backend.clock (Tables.store w)) durationMinutes false)
                 _ Hf eq_refl Hrows).
      exact Hid.
    - subst r.
      rewrite (utils_resolver_resumes _ assessmentId durationMinutes u s0 Hid Hrows).
      exact Hid.
    - specialize (Hu assessmentId (user_id u)). rewrite Hrows in Hu.
      simpl in Hu. lia. }
  rewrite active_for_pair in Hact. apply andb_prop in Hact as [Hpair Hrunning].
  unfold Backend.matches in Hpair. cbn [forallb Backend.cond_holds] in Hpair.
  apply andb_prop in Hpair as [Ha Hs']. apply andb_prop in Hs' as [Hs' _].
  rewrite run_getMyTestSessions, run_getAssessmentSessions.
  cbn [Tables.store]. rewrite Hid'. cbv zeta. cbn [result].
  eexists s, _, _. split; [ exact Ho | ]. split; [ reflexivity | ].
  split; [ reflexivity | ].
  set (theirs := Tables.newest_first
                   (List.filter (Backend.matches [EqAssessmentId assessmentId])
                      (Backend.sessions (final r)))).
  assert (Hp : theirs ≡ₚ List.filter (Backend.matches [EqAssessmentId assessmentId])
                            (Backend.sessions (final r)))
    by apply merge_sort_Permutation.
  assert (Hmine : s ∈ Tables.newest_first
                        (List.filter (Backend.matches [EqStudentId (user_id u)])
                           (Backend.sessions (final r)))).
  { unfold Tables.newest_first. rewrite merge_sort_Permutation.
    apply list_elem_of_In, filter_In. split; [ apply list_elem_of_In; exact Hin | ].
    rewrite matches_student. exact Hs'. }
  assert (Htheirs : s ∈ theirs).
  { rewrite Hp. apply list_elem_of_In, filter_In.
    split; [ apply list_elem_of_In; exact Hin | ].
    rewrite matches_assessment. exact Ha. }
  split; [ exact Hmine | ]. split; [ exact Htheirs | ]. split.
  - cbn [Utils.getSessionStats Utils.totalSessions]. rewrite Hp.
    do 2 f_equal. apply List.filter_ext. intros row. apply matches_assessment.
  - pose proof (filter_length_complement is_completed theirs) as Hc.
    assert (Hpending : s ∈ List.filter (fun x => negb (is_completed x)) theirs).
    { apply list_elem_of_In, filter_In. split; [ apply list_elem_of_In; exact Htheirs | ].
      exact Hrunning. }
    destruct (List.filter (fun x => negb (is_completed x)) theirs) as [| x l] eqn:E;
      [ inversion Hpending | ].
    cbn [length] in Hc. cbn. lia.
Qed.

(** Witness of X25: the store of [tables_with_running_session]. *)
Lemma resolved_session_is_listed_and_counted_witness :
  exists s,
    outcome (run Backend.backend (Utils.getOrCreateTestSession "A" 30)
               (Tables.store tables_with_running_session)) = Returned s.
Proof.
  assert (Hu : Backend.unique_active
                 (Backend.sessions (Tables.store tables_with_running_session))).
  { intros a s. cbn [tables_with_running_session Tables.store Backend.sessions
                     List.filter].
    destruct (Backend.active_for a s running_session); simpl; lia. }
  destruct (resolved_session_is_listed_and_counted tables_with_running_session
              "A" 30 (mkAuthUser "S") eq_refl eq_refl Hu)
    as (s & _ & _ & Ho & _).
  exists s. exact Ho.
Defined.
(* ===================================================================== *)
(** ** The initialisation effect of the test-taking page *)
(* ===================================================================== *)

Lemma every_run_srun {E : Type -> Type} {W R : Type}
    (h : forall X : Type, E X -> W -> X * W) (p : Script E R) :
  forall (P : list (Call E) -> Outcome R -> Prop) (w : W),
    every_run P p -> P (calls (srun h p w)) (result (srun h p w)).
Proof.
  induction p as [r | e | X ev k IH]; intros P w HP; simpl in *; auto.
  apply (IH _ (fun tr o => P (Called ev (h X ev w).1 :: tr) o)). apply HP.
Qed.

Lemma every_run_impl {E : Type -> Type} {R : Type} (p : Script E R) :
  forall (P Q : list (Call E) -> Outcome R -> Prop),
    (forall tr o, P tr o -> Q tr o) -> every_run P p -> every_run Q p.
Proof.
  induction p as [r | e | X ev k IH]; intros P Q HPQ HP; simpl in *; auto.
  intros x. eapply IH; [ | apply HP ]. simpl. auto.
Qed.

Lemma every_run_any {E : Type -> Type} {R : Type} (p : Script E R) :
  forall P : list (Call E) -> Outcome R -> Prop,
    (forall tr o, P tr o) -> every_run P p.
Proof.
  induction p as [r | e | X ev k IH]; intros P HP; simpl; auto.
Qed.

Lemma every_run_sbind {E : Type -> Type} {A B : Type} (p : Script E A)
    (f : A -> Script E B) :
  forall P : list (Call E) -> Outcome B -> Prop,
    every_run (fun tr o =>
                 match o with
                 | Returned a => every_run (fun tr' o' => P (tr ++ tr') o') (f a)
                 | Thrown e => P tr (Thrown e)
                 end) p ->
    every_run P (sbind p f).
Proof.
  induction p as [r | e | X ev k IH]; intros P HP; simpl in *; auto.
Qed.

Lemma every_run_scatch {E : Type -> Type} {A : Type} (p : Script E A)
    (h : JsError -> Script E A) :
  forall P : list (Call E) -> Outcome A -> Prop,
    every_run (fun tr o =>
                 match o with
                 | Returned a => P tr (Returned a)
                 | Thrown e => every_run (fun tr' o' => P (tr ++ tr') o') (h e)
                 end) p ->
    every_run P (scatch p h).
Proof.
  induction p as [r | e | X ev k IH]; intros P HP; simpl in *; auto.
Qed.

(** The property of the runs of the initialisation: it returns, and its
    last call is [setLoading(false)]. *)
Local Abbreviation ends_loading :=
  (fun (tr : list (Call TestTaking.PageEv)) (o : Outcome unit) =>
     o = Returned tt /\ last tr = Some (Called (TestTaking.SetLoading false) tt)).

Ltac solve_last :=
  rewrite ?app_comm_cons;
  repeat first [ rewrite last_app_cons | rewrite last_cons_cons ];
  reflexivity.

Ltac ends_well :=
  cbn [sbind every_run app]; intros;
  repeat match goal with x : unit |- _ => destruct x end;
  (split; [ reflexivity | solve_last ]).

Lemma initializeTest_ends_loading (assessmentId : string) :
  every_run ends_loading (TestTaking.initializeTest assessmentId).
Proof.
  unfold TestTaking.initializeTest. apply every_run_scatch. unfold ask.
  cbn [sbind every_run]. intros [] [[a |] [e |]]; cbn [data error sbind every_run].
  1, 3, 4: ends_well.
  intros [] [qs [e |]]; cbn [data error sbind every_run]; [ ends_well | ].
  intros []. apply every_run_sbind. apply every_run_any.
  intros tr [session | e]; [ | ends_well ].
  cbn [sbind every_run]. intros [] now [].
  destruct (Utils.calculateRemainingTime session now <=? 0); ends_well.
Qed.

(** X26. Whatever the page was opened with and whatever the environment
    answers -- no route parameter, a missing assessment, a failed select,
    an error thrown by [getOrCreateTestSession] -- the initialisation
    effect does not throw, and the last thing it does is
    [setLoading(false)]: the page is never left loading. *)
Theorem initialisation_never_leaves_the_page_loading (W : Type)
    (h : forall X : Type, TestTaking.PageEv X -> W -> X * W) (w : W)
    (v : TestTaking.View) :
  let r := srun h (TestTaking.initializeEffect v) w in
  result r = Returned tt
  /\ last (calls r) = Some (Called (TestTaking.SetLoading false) tt).
Proof.
  cbv zeta.
  apply (every_run_srun h (TestTaking.initializeEffect v) ends_loading w).
  unfold TestTaking.initializeEffect. cbv zeta.
  destruct (TestTaking.assessmentId v) as [assessmentId |];
    [ destruct (String.eqb assessmentId "") | ].
  - unfold ask. ends_well.
  - apply initializeTest_ends_loading.
  - unfold ask. ends_well.
Qed.

Lemma srun_lift_page {A B : Type} (p : Prog A)
    (k : A -> Script TestTaking.PageEv B) :
  forall w : Tables.World,
    srun Tables.page (sbind (lift (@TestTaking.Protocol) p) k) w
    = let r := run Backend.backend p (Tables.store w) in
      let w' := Tables.mkWorld (final r) (Tables.assessments w)
                  (Tables.questions w) in
      match outcome r with
      | Returned a =>
          let rest := srun Tables.page (k a) w' in
          mkScriptResult (result rest) (world rest)
            (map page_call (trace r) ++ calls rest)
      | Thrown e => mkScriptResult (Thrown e) w' (map page_call (trace r))
      end.
Proof.
  induction p as [a | e | X ev q IH]; intros w.
  - destruct w as [st asm qs]. cbn [lift sbind run outcome final trace map app].
    cbv zeta. cbn [Tables.store Tables.assessments Tables.questions].
    destruct (srun Tables.page (k a) (Tables.mkWorld st asm qs)); reflexivity.
  - destruct w as [st asm qs]. reflexivity.
  - cbn [lift sbind srun run outcome final trace Tables.page]. rewrite IH.
    cbv zeta. unfold Tables.core. cbv zeta.
    cbn [fst snd Tables.store Tables.assessments Tables.questions].
    destruct (outcome (run Backend.backend (q (Backend.backend X ev (Tables.store w)).1)
                         (Backend.backend X ev (Tables.store w)).2));
      cbn [map page_call app result world calls]; reflexivity.
Qed.

Lemma srun_scatch_returned {E : Type -> Type} {W R : Type}
    (h : forall X : Type, E X -> W -> X * W) (p : Script E R)
    (f : JsError -> Script E R) :
  forall (w : W) (a : R),
    result (srun h p w) = Returned a -> srun h (scatch p f) w = srun h p w.
Proof.
  induction p as [r | e | X ev k IH]; intros w a Hr.
  - reflexivity.
  - discriminate Hr.
  - cbn [scatch srun] in *. cbn [result] in Hr. rewrite (IH _ _ a Hr). reflexivity.
Qed.

(** X27. Opening the page on an assessment for which the store holds the
    running session of the student: [initializeTest] loads the assessment
    and its questions, resumes that session and shows the time it has
    left. If its time is already over, the page is marked expired and the
    student is alerted -- and that is all: nothing is written to the store,
    the session is not completed and no submission is made. *)
Theorem loading_resumes_the_stored_session (w : Tables.World)
    (assessmentId : string) (assessment : TestTaking.Assessment) (u : AuthUser)
    (s : TestSession) :
  Tables.assessments w !! assessmentId = Some assessment ->
  Backend.identity (Tables.store w) = Some u ->
  List.filter (Backend.active_for assessmentId (user_id u))
    (Backend.sessions (Tables.store w)) = [s] ->
  let r := srun Tables.page (TestTaking.initializeTest assessmentId) w in
  let remaining :=
    Utils.calculateRemainingTime s (Backend.clock (Tables.store w)) in
  let questions := default [] (Tables.questions w !! assessmentId) in
  result r = Returned tt
  /\ world r = w
  /\ calls r
     = [Called (TestTaking.SetLoading true) tt;
        Called (TestTaking.SelectAssessment assessmentId)
          (mkPgResponse (Some assessment) None);
        Called (TestTaking.SetAssessment assessment) tt;
        Called (TestTaking.SelectQuestions assessmentId)
          (mkPgResponse (Some questions) None);
        Called (TestTaking.SetQuestions questions) tt;
        Called (TestTaking.Protocol AuthGetUser) (mkAuthResponse (Some u) None);
        Called (TestTaking.Protocol
                  (Utils.activeSessionQuery assessmentId (user_id u)))
          (mkPgResponse (Some s) None);
        Called (TestTaking.SetTestSession s) tt;
        Called (TestTaking.Protocol DateNow) (Backend.clock (Tables.store w));
        Called (TestTaking.Protocol (Ui (SetTimeLeft remaining))) tt]
       ++ (if remaining <=? 0
           then [Called (TestTaking.Protocol (Ui (SetIsTimeExpired true))) tt;
                 Called (TestTaking.Protocol
                           (Ui (Alert "⏱️ Time expired for this assessment"))) tt]
           else [])
       ++ [Called (TestTaking.SetLoading false) tt].
Proof.
  intros Hasm Hid Hrows. cbv zeta.
  set (remaining := Utils.calculateRemainingTime s (Backend.clock (Tables.store w))).
  set (qs := default [] (Tables.questions w !! assessmentId)).
  match goal with
  | |- _ /\ _ /\ _ = ?l =>
      assert (Hrun : srun Tables.page (TestTaking.initializeTest assessmentId) w
                     = mkScriptResult (Returned tt) w l)
  end.
  2: { rewrite Hrun. repeat split; reflexivity. }
  unfold TestTaking.initializeTest.
  match goal with
  | |- srun _ (scatch ?body _) _ = _ =>
      assert (Hbody : srun Tables.page body w
                      = mkScriptResult (Returned tt) w
                          ([Called (TestTaking.SetLoading true) tt;
                            Called (TestTaking.SelectAssessment assessmentId)
                              (mkPgResponse (Some assessment) None);
                            Called (TestTaking.SetAssessment assessment) tt;
                            Called (TestTaking.SelectQuestions assessmentId)
                              (mkPgResponse (Some qs) None);
                            Called (TestTaking.SetQuestions qs) tt;
                            Called (TestTaking.Protocol AuthGetUser)
                              (mkAuthResponse (Some u) None);
                            Called (TestTaking.Protocol
                                      (Utils.activeSessionQuery assessmentId
                                         (user_id u)))
                              (mkPgResponse (Some s) None);
                            Called (TestTaking.SetTestSession s) tt;
                            Called (TestTaking.Protocol DateNow)
                              (Backend.clock (Tables.store w));
                            Called (TestTaking.Protocol (Ui (SetTimeLeft remaining))) tt]
                           ++ (if remaining <=? 0
                               then [Called (TestTaking.Protocol
                                               (Ui (SetIsTimeExpired true))) tt;
                                     Called (TestTaking.Protocol
                                               (Ui (Alert "⏱️ Time expired for this assessment"))) tt]
                               else [])
                           ++ [Called (TestTaking.SetLoading false) tt]))
  end.
  2: { rewrite (srun_scatch_returned _ _ _ w tt); [ exact Hbody | ].
       rewrite Hbody. reflexivity. }
  unfold ask.
  cbn [sbind srun Tables.page fst snd]. rewrite Hasm.
  cbn [sbind srun Tables.page fst snd data error]. fold qs.
  rewrite srun_lift_page.
  rewrite (utils_resolver_resumes (Tables.store w) assessmentId
             (TestTaking.assessment_duration_minutes assessment) u s Hid Hrows).
  cbv zeta. cbn [outcome final trace map page_call app].
  destruct w as [st asm qsm].
  cbn [sbind srun Tables.page Tables.core Backend.backend fst snd result world
       calls Tables.store Tables.assessments Tables.questions] in *.
  fold remaining.
  destruct (remaining <=? 0);
    cbn [sbind srun Tables.page Tables.core Backend.backend fst snd result world
         calls Tables.store Tables.assessments Tables.questions app];
    reflexivity.
Qed.

(** Witness of X27: the page is opened after the deadline of the running
    session. *)
Lemma loading_resumes_the_stored_session_witness :
  world (srun Tables.page (TestTaking.initializeTest "A")
           tables_after_the_deadline)
  = tables_after_the_deadline.
Proof.
  refine (proj1 (proj2 (loading_resumes_the_stored_session
                          tables_after_the_deadline "A"
                          (TestTaking.mkAssessment 30) (mkAuthUser "S")
                          running_session _ eq_refl eq_refl))).
  vm_compute. reflexivity.
Defined.

(** X28. Opening the page on an assessment for which the student has no
    running session (and the store accepts the insert): [initializeTest]
    creates the session with the duration of the assessment, starting at
    the instant of the call, and shows the whole duration as the time
    left; for an assessment of positive duration the page is not marked
    expired. *)
Theorem loading_starts_a_session_of_the_assessment_duration (w : Tables.World)
    (assessmentId : string) (assessment : TestTaking.Assessment) (u : AuthUser) :
  Tables.assessments w !! assessmentId = Some assessment ->
  Backend.identity (Tables.store w) = Some u ->
  Backend.insert_session_faults (Tables.store w) = [] ->
  List.filter (Backend.active_for assessmentId (user_id u))
    (Backend.sessions (Tables.store w)) = [] ->
  0 < TestTaking.assessment_duration_minutes assessment ->
  let r := srun Tables.page (TestTaking.initializeTest assessmentId) w in
  let s := Backend.new_row
             (mkNewSession assessmentId (user_id u)
                (Backend.clock (Tables.store w))
                (TestTaking.assessment_duration_minutes assessment) false)
             (Tables.store w) in
  result r = Returned tt
  /\ Backend.sessions (Tables.store (world r))
     = Backend.sessions (Tables.store w) ++ [s]
  /\ Backend.submissions (Tables.store (world r))
     = Backend.submissions (Tables.store w)
  /\ drop 8 (calls r)
     = [Called (TestTaking.Protocol
                  (InsertSession
                     (mkNewSession assessmentId (user_id u)
                        (Backend.clock (Tables.store w))
                        (TestTaking.assessment_duration_minutes assessment)
                        false)))
          (mkPgResponse (Some s) None);
        Called (TestTaking.SetTestSession s) tt;
        Called (TestTaking.Protocol DateNow) (Backend.clock (Tables.store w));
        Called (TestTaking.Protocol
                  (Ui (SetTimeLeft
                         (TestTaking.assessment_duration_minutes assessment * 60))))
          tt;
        Called (TestTaking.SetLoading false) tt].
Proof.
  intros Hasm Hid Hf Hrows Hd. cbv zeta.
  set (row := mkNewSession assessmentId (user_id u)
                (Backend.clock (Tables.store w))
                (TestTaking.assessment_duration_minutes assessment) false).
  set (s := Backend.new_row row (Tables.store w)).
  assert (Hremaining : Utils.calculateRemainingTime s (Backend.clock (Tables.store w))
                       = TestTaking.assessment_duration_minutes assessment * 60).
  { rewrite utils_remaining_formula. unfold remainingSeconds_spec.
    cbn [s row Backend.new_row duration_minutes started_at new_started_at
         new_duration_minutes].
    rewrite Z.sub_diag. change (0 / 1000) with 0. lia. }
  unfold TestTaking.initializeTest.
  match goal with
  | |- context [srun _ (scatch ?body ?handler) _] =>
      assert (Hbody : srun Tables.page body w
                      = mkScriptResult (Returned tt)
                          (Tables.mkWorld (Backend.insert_session row (Tables.store w)).2
                             (Tables.assessments w) (Tables.questions w))
                          ([Called (TestTaking.SetLoading true) tt;
                            Called (TestTaking.SelectAssessment assessmentId)
                              (mkPgResponse (Some assessment) None);
                            Called (TestTaking.SetAssessment assessment) tt;
                            Called (TestTaking.SelectQuestions assessmentId)
                              (mkPgResponse
                                 (Some (default [] (Tables.questions w !! assessmentId)))
                                 None);
                            Called (TestTaking.SetQuestions
                                      (default [] (Tables.questions w !! assessmentId))) tt;
                            Called (TestTaking.Protocol AuthGetUser)
                              (mkAuthResponse (Some u) None);
                            Called (TestTaking.Protocol
                                      (Utils.activeSessionQuery assessmentId
                                         (user_id u)))
                              (mkPgResponse None None);
                            Called (TestTaking.Protocol DateNow)
                              (Backend.clock (Tables.store w));
                            Called (TestTaking.Protocol (InsertSession row))
                              (mkPgResponse (Some s) None);
                            Called (TestTaking.SetTestSession s) tt;
                            Called (TestTaking.Protocol DateNow)
                              (Backend.clock (Tables.store w));
                            Called (TestTaking.Protocol (Ui (SetTimeLeft
                                         (TestTaking.assessment_duration_minutes
                                            assessment * 60)))) tt;
                            Called (TestTaking.SetLoading false) tt]))
  end.
  2: { rewrite (srun_scatch_returned _ _ _ w tt) by (rewrite Hbody; reflexivity).
       rewrite Hbody. cbn [result world calls Tables.store drop].
       rewrite (insert_session_accepted row (Tables.store w) Hf eq_refl Hrows).
       repeat split; reflexivity. }
  unfold ask.
  cbn [sbind srun Tables.page fst snd]. rewrite Hasm.
  cbn [sbind srun Tables.page fst snd data error].
  rewrite srun_lift_page.
  rewrite (utils_resolver_creates (Tables.store w) assessmentId
             (TestTaking.assessment_duration_minutes assessment) u Hid Hf Hrows).
  cbv zeta. fold row. fold s. cbn [outcome final trace map page_call app].
  pose proof (insert_session_accepted row (Tables.store w) Hf eq_refl Hrows) as Hins.
  rewrite Hins. cbn [snd].
  cbn [sbind srun Tables.page Tables.core Backend.backend fst snd result world
       calls Tables.store Tables.assessments Tables.questions Backend.clock].
  rewrite Hremaining.
  assert (Hpos : (TestTaking.assessment_duration_minutes assessment * 60 <=? 0)
                 = false) by (apply Z.leb_gt; lia).
  rewrite Hpos.
  cbn [sbind srun Tables.page Tables.core Backend.backend fst snd result world
       calls Tables.store Tables.assessments Tables.questions app].
  reflexivity.
Qed.

(** Witness of X28: student S opens assessment A on a store without
    sessions. *)
Lemma loading_starts_a_session_of_the_assessment_duration_witness :
  result (srun Tables.page (TestTaking.initializeTest "A")
            tables_without_sessions) = Returned tt.
Proof.
  refine (proj1 (loading_starts_a_session_of_the_assessment_duration
                   tables_without_sessions "A" (TestTaking.mkAssessment 30)
                   (mkAuthUser "S") _ eq_refl eq_refl eq_refl _)).
  - vm_compute. reflexivity.
  - simpl. lia.
Defined.
(* ===================================================================== *)
(** ** A page opened after the deadline *)
(* ===================================================================== *)

(** X29. A page that starts with [isTimeExpired] set -- as
    [initializeTest] leaves it when the session is already over at load --
    never finalises: whatever ticks, clicks, answers and delays follow, no
    [submitTest] starts, no call is made at all, and the sessions and
    submissions of the store stay as they were. The session is not
    completed and the answers are not submitted, although the page reports
    that they have been. *)
Theorem expired_page_never_submits
    (autoGradeMCQ : list Question -> gmap string string -> Z)
    (roundPercent : Z -> Z -> Z)
    (v : TestTaking.View) (w : Backend.World) (script : list Driver.Action) :
  TestTaking.isTimeExpired v = true ->
  let s := Driver.drive autoGradeMCQ roundPercent script
             (Driver.started autoGradeMCQ roundPercent v w) in
  Driver.log s = []
  /\ Driver.finalize_starts (Driver.log s) = 0%nat
  /\ Driver.view s = v
  /\ Backend.sessions (Driver.world s) = Backend.sessions w
  /\ Backend.submissions (Driver.world s) = Backend.submissions w.
Proof.
  intros Hexp. cbv zeta.
  assert (Hinv : forall s,
             (Driver.view s = v /\ Driver.interval s = None /\ Driver.parked s = []
              /\ Driver.log s = []
              /\ Backend.sessions (Driver.world s) = Backend.sessions w
              /\ Backend.submissions (Driver.world s) = Backend.submissions w) ->
             forall a,
               let s' := Driver.act autoGradeMCQ roundPercent a s in
               Driver.view s' = v /\ Driver.interval s' = None
               /\ Driver.parked s' = [] /\ Driver.log s' = []
               /\ Backend.sessions (Driver.world s') = Backend.sessions w
               /\ Backend.submissions (Driver.world s') = Backend.submissions w).
  { intros s (Hv & Hi & Hp & Hl & Hss & Hsub) a. cbv zeta.
    destruct a as [| | | ms]; cbn [Driver.act].
    - rewrite Hi. auto 10.
    - assert (Hb : TestTaking.submitButtonEnabled (Driver.view s) = false).
      { unfold TestTaking.submitButtonEnabled. rewrite Hv, Hexp.
        cbn [negb]. rewrite !andb_false_r. reflexivity. }
      rewrite Hb, andb_false_r. auto 10.
    - rewrite Hp. auto 10.
    - cbn [Driver.view Driver.interval Driver.parked Driver.log Driver.world
           Backend.advance Backend.sessions Backend.submissions]. auto 10. }
  assert (Hdrive : forall s,
             (Driver.view s = v /\ Driver.interval s = None /\ Driver.parked s = []
              /\ Driver.log s = []
              /\ Backend.sessions (Driver.world s) = Backend.sessions w
              /\ Backend.submissions (Driver.world s) = Backend.submissions w) ->
             let s' := Driver.drive autoGradeMCQ roundPercent script s in
             Driver.view s' = v /\ Driver.interval s' = None
             /\ Driver.parked s' = [] /\ Driver.log s' = []
             /\ Backend.sessions (Driver.world s') = Backend.sessions w
             /\ Backend.submissions (Driver.world s') = Backend.submissions w).
  { induction script as [| a script IH]; intros s Hs; [ exact Hs | ].
    unfold Driver.drive. cbn [fold_left]. apply IH. apply Hinv. exact Hs. }
  destruct (Hdrive (Driver.started autoGradeMCQ roundPercent v w))
    as (Hv & _ & _ & Hl & Hss & Hsub).
  { unfold Driver.started, TestTaking.timerEffect.
    cbn [Driver.view Driver.interval Driver.parked Driver.log Driver.world].
    rewrite Hexp. destruct (TestTaking.testSession v); auto 10. }
  rewrite Hl. auto.
Qed.

(** Witness of X29: the page of [running_view] with the time expired,
    ticked and clicked. *)
Lemma expired_page_never_submits_witness :
  let v := TestTaking.mkView (Some "A") (mkAuthUser "S")
             (Some (TestTaking.mkAssessment 30)) [mkQuestion "q1" 1] ∅ 0
             false false (Some running_session) true None in
  Driver.log
    (Driver.drive (fun _ _ => 0) (fun _ _ => 0)
       [Driver.Tick; Driver.ClickSubmit; Driver.Respond; Driver.Elapse 1000;
        Driver.Tick]
       (Driver.started (fun _ _ => 0) (fun _ _ => 0) v
          (Tables.store tables_after_the_deadline)))
  = [].
Proof.
  cbv zeta.
  exact (proj1 (expired_page_never_submits (fun _ _ => 0) (fun _ _ => 0)
                  (TestTaking.mkView (Some "A") (mkAuthUser "S")
                     (Some (TestTaking.mkAssessment 30)) [mkQuestion "q1" 1] ∅ 0
                     false false (Some running_session) true None)
                  (Tables.store tables_after_the_deadline)
                  [Driver.Tick; Driver.ClickSubmit; Driver.Respond;
                   Driver.Elapse 1000; Driver.Tick]
                  eq_refl)).
Defined.
